(** * Wesnoth GUI glue: the preferences dialog and the unit preview pane

    A shallow embedding of the parts of
    [src/gui/dialogs/preferences_dialog.cpp] and
    [src/gui/widgets/unit_preview_pane.cpp] that build tooltip and label
    text, filter the hotkey list and maintain the friends list, followed
    by the properties proved about them.

    Conventions.
    - A C++ [int] is a [Z]; arithmetic that can leave the 32-bit range is
      written with its wrap-around ([cxx.to_int]).
    - A [std::string] is a [string] of bytes; text outside ASCII is given
      in UTF-8.
    - An output stream is the string written so far; [out <<< x] appends.
    - [widget_data] is the toolkit's map from widget id to a map from
      attribute name to text, kept as nested [gmap]s.
    - Collaborators that live outside the two translation units
      (gettext, colour helpers, the terrain database, the preferences
      store) are operations of a type class. *)

From Stdlib Require Import ZArith String Ascii List Lia Sorting.Sorted.
From Stdlib Require Import Floats.PrimFloat Numbers.Cyclic.Int63.Uint63.
From stdpp Require Import base option list strings pretty gmap.
From Equations Require Import Equations.

Local Open Scope Z_scope.

(** ** C++ scalars *)

Module cxx.

Definition int_min : Z := - 2 ^ 31.
Definition int_max : Z := 2 ^ 31 - 1.

Definition in_int (z : Z) : Prop := int_min ≤ z ≤ int_max.

(** Conversion to [int]: reduction modulo 2^32 into the signed range. *)
Definition to_int (z : Z) : Z := (z + 2 ^ 31) mod 2 ^ 32 - 2 ^ 31.

Definition int_add (a b : Z) : Z := to_int (a + b).
Definition int_sub (a b : Z) : Z := to_int (a - b).

(** [a / b] on [int]: the quotient truncated towards zero. *)
Definition int_div (a b : Z) : Z := to_int (Z.quot a b).

(** Conversion of an [int] to [double]; exact on the whole [int] range. *)
Definition double_of_int (z : Z) : float :=
  if z <? 0 then PrimFloat.opp (PrimFloat.of_uint63 (Uint63.of_Z (- z)))
  else PrimFloat.of_uint63 (Uint63.of_Z z).

(** [std::distance(begin, std::find(begin, end, x))]: the position of the
    first element equal to [x], the length of the sequence when there is
    none. *)
Fixpoint find_distance {A} (eqb : A → A → bool) (x : A) (l : list A) : nat :=
  match l with
  | [] => 0%nat
  | y :: l' => if eqb y x then 0%nat else S (find_distance eqb x l')
  end.

(** [std::set::emplace] on a set kept as the list of its elements in
    iteration order, [less] being the set's ordering: the element goes
    before the first larger one and is dropped when an equivalent one is
    already there. *)
Fixpoint set_emplace {A} (less : A → A → bool) (x : A) (s : list A) : list A :=
  match s with
  | [] => [x]
  | y :: s' =>
      if less x y then x :: y :: s'
      else if less y x then y :: set_emplace less x s'
      else y :: s'
  end.

End cxx.

(** ** Text *)

Notation "out <<< x" := (String.append out x)
  (at level 50, left associativity, only parsing) : stdpp_scope.

Definition TAB : string := String "009" "".
Definition NL : string := String "010" "".

(** *** [font/constants] *)

(** Modelled from the spec: the [font::unicode_*] constants are declared
    outside the excerpt; the source names the characters (bullet, figure
    dash, en dash), here in UTF-8. *)
Module font.
Definition unicode_bullet : string := String "226" (String "128" (String "162" "")).
Definition unicode_figure_dash : string := String "226" (String "128" (String "146" "")).
Definition unicode_en_dash : string := String "226" (String "128" (String "147" "")).
End font.

(** The string literal of [get_mp_tooltip], U+2B23 U+200B: a horizontal
    black hexagon followed by a zero width space. *)
Definition hexagon : string :=
  String "226" (String "172" (String "163"
    (String "226" (String "128" (String "139" "")))))%char.

(** ** Toolkit data

    [widget_item] is [std::map<std::string, t_string>] and [widget_data]
    is [std::map<std::string, widget_item>]. *)
Abbreviation widget_item := (gmap string string).
Abbreviation widget_data := (gmap string (gmap string string)).

(** [data[id]["label"] = text]: [operator[]] creates what is missing. *)
Definition set_item_label (id text : string) (data : widget_data) : widget_data :=
  <[id := <["label" := text]> (default ∅ (data !! id))]> data.

(** The label a row shows in the widget [id], empty when there is none. *)
Definition get_item_label (id : string) (data : widget_data) : string :=
  default "" (data !! id ≫= (.!! "label")).

(** [config]: attributes and child configs, the children in order. *)
#[warnings="-register-all"]
Inductive config :=
  Config (attributes : gmap string string) (children : list (string * config)).

Definition attributes (c : config) : gmap string string :=
  let 'Config a _ := c in a.
Definition children (c : config) : list (string * config) :=
  let 'Config _ ch := c in ch.

(** [cfg[key]] on a constant config: blank when the attribute is absent. *)
Definition attr (c : config) (key : string) : string := default "" (attributes c !! key).
Definition has_attribute (c : config) (key : string) : bool :=
  bool_decide (is_Some (attributes c !! key)).
Definition child_range (c : config) (key : string) : list config :=
  (filter (λ kc, kc.1 = key) (children c)).*2.
Definition set_attr (key value : string) (c : config) : config :=
  Config (<[key := value]> (attributes c)) (children c).

Inductive visibility := visible | hidden | invisible.

(** Modelled from the spec: the widget classes belong to the GUI toolkit,
    which is outside the excerpt. A widget is kept as what the dialog
    reads back from it. A listbox is its rows in order, the selected row
    ([-1] when there is none) and which rows are shown. *)
Record listbox := {
  rows : list widget_data;
  selected_row : Z;
  row_shown : list bool;
}.

Record text_box := { text : string }.

Record multimenu_button := {
  multimenu_values : list config;
  toggle_states : list bool;
}.

Record menu_button := {
  menu_values : list config;
  menu_selected : Z;
  menu_use_markup : bool;
}.

(** Modelled from the spec: the member functions of the toolkit widgets
    that the dialog calls, on the records above. Adding or removing a row
    leaves the selection as it is. *)
Module widgets.

Definition clear (l : listbox) : listbox :=
  {| rows := []; selected_row := -1; row_shown := [] |}.

(** [add_row(data)] appends; [add_row(data, index)] inserts before the
    row [index]. *)
Definition add_row (data : widget_data) (index : option nat) (l : listbox) : listbox :=
  match index with
  | None =>
      {| rows := rows l ++ [data]; selected_row := selected_row l;
         row_shown := row_shown l ++ [true] |}
  | Some i =>
      {| rows := take i (rows l) ++ data :: drop i (rows l);
         selected_row := selected_row l;
         row_shown := take i (row_shown l) ++ true :: drop i (row_shown l) |}
  end.

Definition remove_row (i : nat) (l : listbox) : listbox :=
  {| rows := delete i (rows l); selected_row := selected_row l;
     row_shown := delete i (row_shown l) |}.

Definition get_item_count (l : listbox) : nat := length (rows l).

Definition select_row (i : Z) (l : listbox) : listbox :=
  {| rows := rows l; selected_row := i; row_shown := row_shown l |}.

Definition set_row_shown (shown : list bool) (l : listbox) : listbox :=
  {| rows := rows l; selected_row := selected_row l; row_shown := shown |}.

Definition set_value (value : string) (t : text_box) : text_box := {| text := value |}.

Definition clear_text (t : text_box) : text_box := {| text := "" |}.

(** [multimenu_button::set_values]: every entry starts untoggled. *)
Definition set_values (values : list config) (m : multimenu_button) : multimenu_button :=
  {| multimenu_values := values; toggle_states := replicate (length values) false |}.

End widgets.

(** [boost::dynamic_bitset<>::none] and [operator~]. *)
Definition bitset_none (b : list bool) : bool := forallb negb b.
Definition bitset_flip (b : list bool) : list bool := negb <$> b.

(** ** Collaborators of the unit preview pane *)

Record color_t := { red : Z; green : Z; blue : Z; alpha : Z }.

Record terrain_type := {
  terrain_name : string;
  is_indivisible : bool;
  is_nonnull : bool;
}.

Record terrain_movement := { tm_name : string; tm_moves : Z }.

Class Gettext := {
  (** [_("...")] *)
  gettext : string → string;
  (** [translation::dgettext(domain, msgid)] *)
  dgettext : string → string → string;
  (** [VGETTEXT(msgid, symbols)] *)
  vgettext : string → list (string * string) → string;
}.

Class UnitHelpers := {
  (** [unit_helper::resistance_color] *)
  resistance_color : Z → string;
  (** [utils::signed_percent] *)
  signed_percent : Z → string;
  (** [game_config::red_to_green] *)
  red_to_green : float → bool → color_t;
  (** [color_t::to_hex_string] *)
  to_hex_string : color_t → string;
  (** [font::span_color] *)
  span_color : color_t → string;
  (** [font::unit_type_color] *)
  unit_type_color : color_t;
  (** [unit_experience_accelerator::get_acceleration] *)
  get_acceleration : Z;
}.

Class Terrains := {
  terrain_code : Type;
  terrain_code_eq_dec :: EqDecision terrain_code;
  FOGGED : terrain_code;
  VOID_TERRAIN : terrain_code;
  (** [t_translation::terrain_matches(t, t_translation::ALL_OFF_MAP)] *)
  matches_all_off_map : terrain_code → bool;
  (** [help::load_terrain_types_data()], with [get_terrain_info] applied *)
  load_terrain_types_data : option (terrain_code → terrain_type);
  (** [preferences::encountered_terrains()], in iteration order *)
  encountered_terrains : list terrain_code;
  (** [terrain_movement::operator<] *)
  terrain_movement_less : terrain_movement → terrain_movement → bool;
}.

(** ** [unit_preview_pane.cpp] *)

Section unit_preview_pane.
Context `{Gettext, UnitHelpers, Terrains}.

(** *** [get_hp_tooltip] *)

(** The body of the loop over the resistance table: one line is pushed
    onto [resistances_table] and [att_def_diff] is raised when the two
    values differ. *)
Definition hp_tooltip_step (get : string → bool → Z)
    (st : list string * bool) (resist : string * string) : list string * bool :=
  let '(resistances_table, att_def_diff) := st in
  let line := "" <<< dgettext "wesnoth" resist.1 <<< ": " in
  let res_att := cxx.int_sub 100 (get resist.1 true) in
  let res_def := cxx.int_sub 100 (get resist.1 false) in
  if res_att =? res_def then
    let line := line <<< "<span color='" <<< resistance_color res_def <<< "'>" <<< TAB
                     <<< signed_percent res_def <<< "</span>" in
    (resistances_table ++ [line], att_def_diff)
  else
    let line := line <<< "<span color='" <<< resistance_color res_att <<< "'>" <<< TAB
                     <<< signed_percent res_att <<< "</span>" <<< "/"
                     <<< "<span color='" <<< resistance_color res_def <<< "'>"
                     <<< signed_percent res_def <<< "</span>" in
    (resistances_table ++ [line], true).

Definition get_hp_tooltip (res : list (string * string))
    (get : string → bool → Z) : string :=
  let '(resistances_table, att_def_diff) :=
    foldl (hp_tooltip_step get) ([], false) res in
  let tooltip := "" <<< "<big>" <<< gettext "Resistances: " <<< "</big>" in
  let tooltip := if att_def_diff then tooltip <<< gettext "(Att / Def)" else tooltip in
  foldl (λ tooltip line, tooltip <<< NL <<< font.unicode_bullet <<< " " <<< line)
    tooltip resistances_table.

(** What [get_hp_tooltip] shows for one damage type, as the
    specification words it: the single value when attack and defense
    are equal, both values separated by a slash when they differ. *)
Definition displayed_resistance (res_att res_def : Z) : string :=
  if decide (res_att = res_def) then
    "<span color='" +:+ resistance_color res_def +:+ "'>" +:+ TAB
      +:+ signed_percent res_def +:+ "</span>"
  else
    "<span color='" +:+ resistance_color res_att +:+ "'>" +:+ TAB
      +:+ signed_percent res_att +:+ "</span>" +:+ "/"
      +:+ "<span color='" +:+ resistance_color res_def +:+ "'>"
      +:+ signed_percent res_def +:+ "</span>".

(** *** [get_mp_tooltip] *)

(** The first loop: the encountered terrains that are shown, as the
    [std::set<terrain_movement>] they are collected in. *)
Definition mp_collect_step (tdata : terrain_code → terrain_type)
    (get : terrain_code → Z)
    (terrain_moves : list terrain_movement) (terrain : terrain_code)
    : list terrain_movement :=
  if bool_decide (terrain = FOGGED) || bool_decide (terrain = VOID_TERRAIN)
     || matches_all_off_map terrain
  then terrain_moves
  else
    let info := tdata terrain in
    if is_indivisible info && is_nonnull info
    then cxx.set_emplace terrain_movement_less
           {| tm_name := terrain_name info; tm_moves := get terrain |} terrain_moves
    else terrain_moves.

(** [for(int i = 0; i < movement_hexes_per_turn; ++i) tooltip <<< hexagon].
    The counter stays below the bound, so [++i] cannot overflow. *)
Equations? mp_hexes_loop (i movement_hexes_per_turn : Z) (tooltip : string)
    : string by wf (Z.to_nat (movement_hexes_per_turn - i)) lt :=
  mp_hexes_loop i n tooltip with decide (i < n) => {
    | left _ := mp_hexes_loop (i + 1) n (tooltip <<< hexagon);
    | right _ := tooltip }.
Proof. lia. Qed.

(** The three-way rendering of the cost. *)
Definition mp_cost (total_movement moves : Z) (tooltip : string) : string :=
  let cannot_move := bool_decide (moves > total_movement) in
  if cannot_move && bool_decide (moves > cxx.int_add total_movement 5) then
    tooltip <<< font.unicode_figure_dash
  else if cannot_move then
    tooltip <<< "(" <<< pretty moves <<< ")"
  else
    tooltip <<< pretty moves.

(** The [if(tm.moves != 0)] block. *)
Definition mp_hexes (total_movement moves : Z) (tooltip : string) : string :=
  if bool_decide (moves ≠ 0) then
    let movement_hexes_per_turn := cxx.int_div total_movement moves in
    let tooltip := tooltip <<< " " in
    mp_hexes_loop 0 movement_hexes_per_turn tooltip
  else tooltip.

(** The body of the loop over [terrain_moves]. *)
Definition mp_tooltip_step (total_movement : Z)
    (tooltip : string) (tm : terrain_movement) : string :=
  let tooltip := tooltip <<< NL <<< font.unicode_bullet <<< " " <<< tm_name tm <<< ": " in
  let movement_red_to_green :=
    PrimFloat.sub 100 (PrimFloat.mul 25 (cxx.double_of_int (tm_moves tm))) in
  let color := to_hex_string (red_to_green movement_red_to_green true) in
  let tooltip := tooltip <<< "<span color='" <<< color <<< "'>" in
  let tooltip := mp_cost total_movement (tm_moves tm) tooltip in
  let tooltip := mp_hexes total_movement (tm_moves tm) tooltip in
  tooltip <<< "</span>".

Definition get_mp_tooltip (total_movement : Z) (get : terrain_code → Z) : string :=
  let tooltip := "" <<< "<big>" <<< gettext "Movement Costs:" <<< "</big>" in
  match load_terrain_types_data with
  | None => ""
  | Some tdata =>
      let terrain_moves := foldl (mp_collect_step tdata get) [] encountered_terrains in
      foldl (mp_tooltip_step total_movement) tooltip terrain_moves
  end.

(** *** [unit_preview_pane::set_displayed_unit]

    What [set_displayed_unit] reads from the unit [u], one field per
    accessor. *)
Record unit_view := {
  (** [u.name()] *)
  name : string;
  (** [u.type_name()] *)
  type_name : string;
  (** [u.level()] *)
  level : Z;
  (** [unit_type::alignment_description(u.alignment(), u.gender())] *)
  alignment_description : string;
  (** [u.trait_names()] *)
  trait_names : list string;
  (** [u.hp_color()], [u.xp_color()] *)
  hp_color : color_t;
  xp_color : color_t;
  (** [u.hitpoints()], [u.max_hitpoints()] *)
  hitpoints : Z;
  max_hitpoints : Z;
  (** [u.experience()], [u.max_experience()], [u.can_advance()] *)
  experience : Z;
  max_experience : Z;
  can_advance : bool;
  (** [u.movement_left()], [u.total_movement()] *)
  movement_left : Z;
  total_movement : Z;
  (** [u.get_base_resistances()], in iteration order *)
  get_base_resistances : list (string * string);
  (** [u.resistance_against(dt, is_attacker, u.get_location())] *)
  resistance_against : string → bool → Z;
  (** [u.movement_cost(terrain)] *)
  movement_cost : terrain_code → Z;
}.

(** The [if(label_details_)] block: the text handed to
    [label_details_->set_label], the "minimal" details label. *)
Definition details_minimal_label (u : unit_view) : string :=
  let str := "" in
  let name := "<span size='large'>" +:+ (if bool_decide (name u ≠ "") then name u else " ")
              +:+ "</span>" in
  let str := str <<< name <<< NL in
  let str := str <<< span_color unit_type_color <<< type_name u <<< "</span>" <<< NL in
  let l_str := vgettext "Lvl $lvl" [("lvl", pretty (level u))] in
  let str := str <<< l_str <<< NL in
  let str := str <<< alignment_description u <<< NL in
  let str := str <<< String.concat ", " (trait_names u) <<< NL in
  let str := str <<< span_color (hp_color u)
                 <<< gettext "HP: " <<< pretty (hitpoints u) <<< "/"
                 <<< pretty (max_hitpoints u) <<< "</span>" <<< NL in
  let str := str <<< span_color (xp_color u) <<< gettext "XP: " in
  let str :=
    if can_advance u then str <<< pretty (experience u) <<< "/" <<< pretty (max_experience u)
    else str <<< font.unicode_en_dash in
  str <<< "</span>".

(** [const std::string unit_xp = u.can_advance() ? ... : font::unicode_en_dash] *)
Definition unit_xp (u : unit_view) : string :=
  if can_advance u
  then "" <<< pretty (experience u) <<< "/" <<< pretty (max_experience u)
  else font.unicode_en_dash.

(** The [if(tree_details_)] block: the data of the ["hp_xp_mp"] node
    added to the details tree right after it is cleared. *)
Definition hp_xp_mp_node (u : unit_view) : widget_data :=
  {[ "hp" := {[
       "label" := "" <<< "<small>" <<< span_color (hp_color u) <<< "<b>" <<< gettext "HP: "
                     <<< "</b>" <<< pretty (hitpoints u) <<< "/" <<< pretty (max_hitpoints u)
                     <<< "</span>" <<< " | </small>";
       "use_markup" := "true";
       "tooltip" := get_hp_tooltip (get_base_resistances u) (resistance_against u) ]};
     "xp" := {[
       "label" := "" <<< "<small>" <<< span_color (xp_color u) <<< "<b>" <<< gettext "XP: "
                     <<< "</b>" <<< unit_xp u <<< "</span>" <<< " | </small>";
       "use_markup" := "true";
       "tooltip" := "" <<< gettext "Experience Modifier: " <<< pretty get_acceleration
                       <<< "%" ]};
     "mp" := {[
       "label" := "" <<< "<small>" <<< "<b>" <<< gettext "MP: " <<< "</b>"
                     <<< pretty (movement_left u) <<< "/" <<< pretty (total_movement u)
                     <<< "</small>";
       "use_markup" := "true";
       "tooltip" := get_mp_tooltip (total_movement u) (movement_cost u) ]} ]}.

(** *** Activation: [set_active], [get_active], [get_state] *)

Inductive state_t := ENABLED.

(** The members of the pane: the type shown (its id), the child widgets
    found by [finalize_setup] (absent when the definition has none; each
    is kept as its widget data) and the image modifications. *)
Record unit_preview_pane := {
  current_type_ : option string;
  icon_type_ : option widget_item;
  icon_race_ : option widget_item;
  icon_alignment_ : option widget_item;
  label_name_ : option widget_item;
  label_level_ : option widget_item;
  label_race_ : option widget_item;
  label_details_ : option widget_item;
  tree_details_ : option (list (string * widget_data));
  button_profile_ : option widget_item;
  image_mods_ : string;
}.

Definition set_active (active : bool) (pane : unit_preview_pane) : unit_preview_pane :=
  (* DO NOTHING *) pane.

Definition get_active (pane : unit_preview_pane) : bool := true.

Definition get_state (pane : unit_preview_pane) : state_t := ENABLED.

End unit_preview_pane.

(** ** Collaborators of the preferences dialog *)

Module hotkey.

(** [hotkey::scope] *)
Inductive scope := SCOPE_MAIN_MENU | SCOPE_GAME | SCOPE_EDITOR.

(** [hotkey::hotkey_command]; a [HOTKEY_CATEGORY] is its enumerator's
    value. *)
Record hotkey_command := {
  id : string;
  description : string;
  category : Z;
  hidden : bool;
  scope_bits : scope → bool;
}.

End hotkey.

(** [preferences::acquaintance] *)
Record acquaintance := {
  get_nick : string;
  get_status : string;
  get_notes : string;
}.

Class Hotkeys := {
  (** [hotkey::get_hotkey_commands()], in iteration order *)
  get_hotkey_commands : list (string * hotkey.hotkey_command);
  (** [hotkey::get_names] *)
  get_names : string → string;
  (** [hotkey::get_translatable_category_name] *)
  get_translatable_category_name : Z → string;
  (** [filesystem::file_exists] *)
  file_exists : string → bool;
  (** [game_config::path] *)
  game_config_path : string;
  (** [utils::split(text, sep)] *)
  split : string → ascii → list string;
  (** [translation::ci_search(haystack, needle)] *)
  ci_search : string → string → bool;
}.

(** The preferences store as far as the dialog uses it: the friends and
    ignore lists and the accelerated speed. *)
Class Preferences := {
  prefs : Type;
  (** [get_acquaintances()], a [std::map] given in iteration order *)
  get_acquaintances : prefs → list (string * acquaintance);
  (** [add_acquaintance(nick, mode, notes)]: the entry ([nullptr] as
      [None]) and whether it is new, with the store afterwards *)
  add_acquaintance : string → string → string → prefs → option acquaintance * bool * prefs;
  turbo_speed : prefs → float;
  set_turbo_speed : float → prefs → prefs;
}.

(** Modelled from the spec: [preferences::get(key, def)] is defined
    outside the excerpt; it yields the stored value of the preference, or
    [def] when no value is stored. *)
Definition preferences_get (stored : gmap string string) (key def : string) : string :=
  default def (stored !! key).

(** ** [preferences_dialog.cpp] *)

(** [preferences::advanced_manager::option], named [avp] in the source. *)
Module avp.

Inductive avd_type := TOGGLE | SLIDER | COMBO | SPECIAL.

Record option := {
  field : string;
  name : string;
  description : string;
  type : avd_type;
  cfg : config;
}.

End avp.

(** The members of the dialog and the widgets of its window that the
    embedded functions reach through [find_widget], one field per widget
    id; [shown_messages] collects the calls of [show_transient_message]. *)
Record preferences_dialog := {
  visible_hotkeys_ : list hotkey.hotkey_command;
  visible_categories_ : list Z;
  w_hotkey_category_menu : multimenu_button;
  w_filter : text_box;
  w_list_hotkeys : listbox;
  w_friends_list : listbox;
  w_remove_active : bool;
  w_no_friends_notice : visibility;
  shown_messages : list (string * string);
}.

(** [data.emplace(key, item)]: an existing entry is kept. *)
Definition map_emplace (key : string) (item : widget_item) (data : widget_data)
    : widget_data :=
  match data !! key with
  | Some _ => data
  | None => <[key := item]> data
  end.

(** [accl_speeds_], as set by the constructor. *)
Definition accl_speeds_ : list float :=
  [0.25; 0.5; 0.75; 1; 1.25; 1.5; 1.75; 2; 3; 4; 8; 16]%float.

Section preferences_dialog.
Context `{Gettext, Hotkeys, Preferences}.

Definition show_transient_message (title message : string)
    (d : preferences_dialog) : preferences_dialog :=
  {| visible_hotkeys_ := visible_hotkeys_ d;
     visible_categories_ := visible_categories_ d;
     w_hotkey_category_menu := w_hotkey_category_menu d;
     w_filter := w_filter d;
     w_list_hotkeys := w_list_hotkeys d;
     w_friends_list := w_friends_list d;
     w_remove_active := w_remove_active d;
     w_no_friends_notice := w_no_friends_notice d;
     shown_messages := shown_messages d ++ [(title, message)] |}.

(** *** The friends list *)

Definition get_friends_list_row_data (entry : acquaintance) : widget_data :=
  let data : widget_data := ∅ in
  let item : widget_item := ∅ in
  let image := "friend.png" in
  let descriptor := gettext "friend" in
  let notes := "" in
  let '(image, descriptor) :=
    if bool_decide (get_status entry = "ignore")
    then ("ignore.png", gettext "ignored") else (image, descriptor) in
  let notes :=
    if bool_decide (get_notes entry ≠ "")
    then " <small>(" +:+ get_notes entry +:+ ")</small>" else notes in
  let item := <["use_markup" := "true"]> item in
  let item := <["label" := "misc/status-" +:+ image]> item in
  let data := map_emplace "friend_icon" item data in
  let item := <["label" := get_nick entry +:+ notes]> item in
  let data := map_emplace "friend_name" item data in
  let item := <["label" := "<small>" +:+ descriptor +:+ "</small>"]> item in
  let data := map_emplace "friend_status" item data in
  data.

(** [None] stands for undefined behaviour: dereferencing the iterator
    advanced past the end of the acquaintance map. *)
Definition on_friends_list_select (p : prefs) (list : listbox) (textbox : text_box)
    : option text_box :=
  let num_friends := cxx.to_int (Z.of_nat (length (get_acquaintances p))) in
  let sel := selected_row list in
  if (sel <? 0) || (sel >=? num_friends) then Some textbox
  else
    who ← get_acquaintances p !! Z.to_nat sel;
    Some (widgets.set_value (get_nick who.2 +:+ " " +:+ get_notes who.2) textbox).

(** [list] is always the widget ["friends_list"] of the dialog. *)
Definition update_friends_list_controls (d : preferences_dialog) : preferences_dialog :=
  let list := w_friends_list d in
  let list_empty := bool_decide (widgets.get_item_count list = 0%nat) in
  let list :=
    if negb list_empty then
      widgets.select_row
        (Z.min (cxx.int_sub (cxx.to_int (Z.of_nat (widgets.get_item_count list))) 1)
               (selected_row list)) list
    else list in
  {| visible_hotkeys_ := visible_hotkeys_ d;
     visible_categories_ := visible_categories_ d;
     w_hotkey_category_menu := w_hotkey_category_menu d;
     w_filter := w_filter d;
     w_list_hotkeys := w_list_hotkeys d;
     w_friends_list := list;
     w_remove_active := negb list_empty;
     w_no_friends_notice := if list_empty then visible else invisible;
     shown_messages := shown_messages d |}.

(** The loop of [add_friend_list_entry] over the rows: the first row
    whose ["friend_name"] label is the nick is removed and a row with
    the updated data is put in its place. *)
Fixpoint replace_friend_row (nick : string) (data : widget_data)
    (remaining : list widget_data) (i : nat) (list : listbox) : listbox :=
  match remaining with
  | [] => list
  | row_grid :: remaining =>
      if bool_decide (get_item_label "friend_name" row_grid = nick)
      then widgets.add_row data (Some i) (widgets.remove_row i list)
      else replace_friend_row nick data remaining (S i) list
  end.

Definition set_friends_list (list : listbox) (d : preferences_dialog)
    : preferences_dialog :=
  {| visible_hotkeys_ := visible_hotkeys_ d;
     visible_categories_ := visible_categories_ d;
     w_hotkey_category_menu := w_hotkey_category_menu d;
     w_filter := w_filter d;
     w_list_hotkeys := w_list_hotkeys d;
     w_friends_list := list;
     w_remove_active := w_remove_active d;
     w_no_friends_notice := w_no_friends_notice d;
     shown_messages := shown_messages d |}.

Definition add_friend_list_entry (is_friend : bool) (textbox : text_box)
    (p : prefs) (d : preferences_dialog) : prefs * text_box * preferences_dialog :=
  let username := text textbox in
  if bool_decide (username = "") then
    (p, textbox, show_transient_message "" (gettext "No username specified") d)
  else
    let reason := "" in
    let pos := String.index 0 " " username in
    let '(reason, username) :=
      match pos with
      | Some pos =>
          (String.substring (pos + 1) (String.length username - (pos + 1)) username,
           String.substring 0 pos username)
      | None => (reason, username)
      end in
    let '(entry, added_new, p) :=
      add_acquaintance username (if is_friend then "friend" else "ignore") reason p in
    match entry with
    | None =>
        (p, textbox, show_transient_message (gettext "Error") (gettext "Invalid username") d)
    | Some entry =>
        let textbox := widgets.clear_text textbox in
        let list := w_friends_list d in
        let list :=
          if added_new : bool then
            widgets.add_row (get_friends_list_row_data entry) None list
          else
            replace_friend_row (get_nick entry) (get_friends_list_row_data entry)
              (rows list) 0 list in
        (p, textbox, update_friends_list_controls (set_friends_list list d))
    end.

(** *** The accelerated speed slider *)

Definition accl_load (p : prefs) : Z :=
  cxx.to_int (Z.of_nat (cxx.find_distance PrimFloat.eqb (turbo_speed p) accl_speeds_)).

(** [None] stands for undefined behaviour: [accl_speeds_[i]] outside the
    vector. *)
Definition accl_save (i : Z) (p : prefs) : option prefs :=
  if i <? 0 then None
  else speed ← accl_speeds_ !! Z.to_nat i; Some (set_turbo_speed speed p).

(** *** Advanced preferences: the [COMBO] case of [initialize_callbacks] *)

(** The loop over [option.cfg.child_range("option")]. *)
Definition combo_choice_step (st : list config * list string) (choice : config)
    : list config * list string :=
  let '(menu_data, option_ids) := st in
  let menu_item := Config ∅ [] in
  let menu_item := set_attr "label" (attr choice "name") menu_item in
  let menu_item :=
    if has_attribute choice "description"
    then set_attr "details"
           ("<span color='#777'>" +:+ attr choice "description" +:+ "</span>") menu_item
    else menu_item in
  (menu_data ++ [menu_item], option_ids ++ [attr choice "id"]).

(** The initial selection: the index looked up, then the reset. *)
Definition combo_selected (option_ids : list string) (value : string) : Z :=
  let selected :=
    cxx.to_int (Z.of_nat (cxx.find_distance String.eqb value option_ids)) in
  if (selected <? 0) || (selected >=? cxx.to_int (Z.of_nat (length option_ids)))
  then 0 else selected.

(** The menu button built for the option, as [set_values] leaves it. *)
Definition initialize_combo (stored : gmap string string) (option : avp.option)
    : menu_button :=
  let pref_name := avp.field option in
  let '(menu_data, option_ids) :=
    foldl combo_choice_step ([], []) (child_range (avp.cfg option) "option") in
  let selected :=
    combo_selected option_ids
      (preferences_get stored pref_name (attr (avp.cfg option) "default")) in
  {| menu_values := menu_data; menu_selected := selected; menu_use_markup := true |}.

(** *** The hotkey list *)

Definition set_hotkey_widgets (visible_hotkeys : list hotkey.hotkey_command)
    (visible_categories : list Z) (menu : multimenu_button) (hotkey_list : listbox)
    (d : preferences_dialog) : preferences_dialog :=
  {| visible_hotkeys_ := visible_hotkeys;
     visible_categories_ := visible_categories;
     w_hotkey_category_menu := menu;
     w_filter := w_filter d;
     w_list_hotkeys := hotkey_list;
     w_friends_list := w_friends_list d;
     w_remove_active := w_remove_active d;
     w_no_friends_notice := w_no_friends_notice d;
     shown_messages := shown_messages d |}.

(** The state of the main loop of [setup_hotkey_list]: the row data that
    is rewritten for every command, the listbox and the two members. *)
Record hotkey_setup := {
  setup_row_data : widget_data;
  setup_list : listbox;
  setup_hotkeys : list hotkey.hotkey_command;
  setup_categories : list Z;
}.

(** The assignments through [row_icon], [row_action], [row_hotkey],
    [row_is_g], [row_is_e] and [row_is_m], which refer into [row_data]. *)
Definition fill_hotkey_row (gh eh mh : string) (hotkey_item : hotkey.hotkey_command)
    (row_data : widget_data) : widget_data :=
  let row_data :=
    if file_exists (game_config_path +:+ "/images/icons/action/"
                      +:+ hotkey.id hotkey_item +:+ "_25.png")
    then set_item_label "img_icon"
           ("icons/action/" +:+ hotkey.id hotkey_item +:+ "_25.png~CROP(3,3,18,18)")
           row_data
    else set_item_label "img_icon" "" row_data in
  let row_data := set_item_label "lbl_desc" (hotkey.description hotkey_item) row_data in
  let row_data := set_item_label "lbl_hotkey" (get_names (hotkey.id hotkey_item)) row_data in
  let row_data :=
    set_item_label "lbl_is_game"
      (if hotkey.scope_bits hotkey_item hotkey.SCOPE_GAME then gh else "") row_data in
  let row_data :=
    set_item_label "lbl_is_editor"
      (if hotkey.scope_bits hotkey_item hotkey.SCOPE_EDITOR then eh else "") row_data in
  let row_data :=
    set_item_label "lbl_is_mainmenu"
      (if hotkey.scope_bits hotkey_item hotkey.SCOPE_MAIN_MENU then mh else "") row_data in
  row_data.

(** The body of the loop over [hotkey::get_hotkey_commands()]. *)
Definition setup_hotkey_step (gh eh mh : string) (st : hotkey_setup)
    (command : string * hotkey.hotkey_command) : hotkey_setup :=
  let hotkey_item := command.2 in
  if hotkey.hidden hotkey_item then st
  else
    let visible_hotkeys := setup_hotkeys st ++ [hotkey_item] in
    let visible_categories :=
      cxx.set_emplace Z.ltb (hotkey.category hotkey_item) (setup_categories st) in
    let row_data := fill_hotkey_row gh eh mh hotkey_item (setup_row_data st) in
    {| setup_row_data := row_data;
       setup_list := widgets.add_row row_data None (setup_list st);
       setup_hotkeys := visible_hotkeys;
       setup_categories := visible_categories |}.

Definition setup_hotkey_list (d : preferences_dialog) : preferences_dialog :=
  let row_data : widget_data := ∅ in
  let row_data := set_item_label "img_icon" "" row_data in
  let row_data := set_item_label "lbl_desc" "" row_data in
  let row_data := set_item_label "lbl_hotkey" "" row_data in
  let row_data := set_item_label "lbl_is_game" "" row_data in
  let row_data := set_item_label "lbl_is_editor" "" row_data in
  let row_data := set_item_label "lbl_is_mainmenu" "" row_data in
  let hotkey_list := widgets.clear (w_list_hotkeys d) in
  let gh := "<span color='#0f0'>" +:+ gettext "game_hotkeys^G" +:+ "</span>" in
  let eh := "<span color='#0f0'>" +:+ gettext "editor_hotkeys^E" +:+ "</span>" in
  let mh := "<span color='#0f0'>" +:+ gettext "mainmenu_hotkeys^M" +:+ "</span>" in
  let st :=
    foldl (setup_hotkey_step gh eh mh)
      {| setup_row_data := row_data; setup_list := hotkey_list;
         setup_hotkeys := []; setup_categories := [] |}
      get_hotkey_commands in
  let filter_ops :=
    foldl (λ filter_ops cat,
             filter_ops ++ [Config {[ "label" := get_translatable_category_name cat;
                                      "checkbox" := "no" ]} []])
      [] (setup_categories st) in
  set_hotkey_widgets (setup_hotkeys st) (setup_categories st)
    (widgets.set_values filter_ops (w_hotkey_category_menu d)) (setup_list st) d.

(** The loop of [hotkey_filter_callback] over the words of the filter
    text; it stops at the first word that is not found. *)
Fixpoint filter_words (description : string) (words : list string) (found : bool) : bool :=
  match words with
  | [] => found
  | word :: words =>
      let found := ci_search description word in
      if negb found then found else filter_words description words found
  end.

(** The loop over [visible_categories_] that counts up to the category
    of the hotkey. *)
Fixpoint category_index (category : Z) (cats : list Z) (cat_index : nat) : nat :=
  match cats with
  | [] => cat_index
  | cat :: cats =>
      if bool_decide (category = cat) then cat_index
      else category_index category cats (S cat_index)
  end.

(** The value stored in [res[h]]. *)
Definition hotkey_row_shown (text : string) (toggle_states : list bool)
    (visible_categories : list Z) (hotkey_item : hotkey.hotkey_command) : bool :=
  let found := true in
  let found :=
    if bool_decide (text ≠ "") then
      let description := hotkey.description hotkey_item in
      filter_words description (split text " "%char) found
    else found in
  let cat_index := category_index (hotkey.category hotkey_item) visible_categories 0 in
  if bool_decide (cat_index < length toggle_states)%nat && found
  then default false (toggle_states !! cat_index)
  else false.

(** The loop over [h], [hotkeys] being [visible_hotkeys_] from [h] on. *)
Fixpoint hotkey_filter_loop (text : string) (toggle_states : list bool)
    (visible_categories : list Z) (hotkeys : list hotkey.hotkey_command)
    (h : nat) (res : list bool) : list bool :=
  match hotkeys with
  | [] => res
  | hotkey_item :: hotkeys =>
      hotkey_filter_loop text toggle_states visible_categories hotkeys (S h)
        (<[h := hotkey_row_shown text toggle_states visible_categories hotkey_item]> res)
  end.

Definition hotkey_filter_callback (d : preferences_dialog) : preferences_dialog :=
  let hotkey_menu := w_hotkey_category_menu d in
  let name_filter := w_filter d in
  let toggle_states := toggle_states hotkey_menu in
  let res := replicate (length (visible_hotkeys_ d)) false in
  let text := text name_filter in
  let toggle_states :=
    if bitset_none toggle_states then bitset_flip toggle_states else toggle_states in
  let res :=
    hotkey_filter_loop text toggle_states (visible_categories_ d) (visible_hotkeys_ d) 0 res in
  set_hotkey_widgets (visible_hotkeys_ d) (visible_categories_ d) hotkey_menu
    (widgets.set_row_shown res (w_list_hotkeys d)) d.

(** The state [setup_hotkey_list] leaves and toggling a checkbox keeps:
    [visible_categories_] is a set, the category of every visible hotkey
    is in it, and the menu has one checkbox per category. *)
Definition hotkeys_consistent (d : preferences_dialog) : Prop :=
  NoDup (visible_categories_ d)
  ∧ (∀ hotkey_item, hotkey_item ∈ visible_hotkeys_ d →
       hotkey.category hotkey_item ∈ visible_categories_ d)
  ∧ length (toggle_states (w_hotkey_category_menu d)) = length (visible_categories_ d).

End preferences_dialog.

(** ** More of [preferences_dialog.cpp] *)

(** How a call ends: normally, with an exception ([VALIDATE]) or a failed
    [assert], or in undefined behaviour (an index or iterator out of
    range, [std::clamp] with crossed bounds, a division by zero). *)
Inductive outcome (A : Type) :=
  | Done (a : A)
  | Thrown (message : string)
  | Undefined.
Arguments Done {A} a.
Arguments Thrown {A} message.
Arguments Undefined {A}.

Definition outcome_bind {A B} (o : outcome A) (k : A → outcome B) : outcome B :=
  match o with
  | Done a => k a
  | Thrown message => Thrown message
  | Undefined => Undefined
  end.

Notation "x ←! o ; k" := (outcome_bind o (λ x, k))
  (at level 20, o at level 100, k at level 200, only parsing) : stdpp_scope.

(** [std::clamp<int>(v, lo, hi)]; undefined when [hi < lo]. *)
Definition std_clamp (v lo hi : Z) : outcome Z :=
  if hi <? lo then Undefined
  else Done (if v <? lo then lo else if hi <? v then hi else v).

(** Modelled from the spec: [font::unicode_multiplication_sign] is
    declared outside the excerpt; U+00D7 in UTF-8. *)
Definition unicode_multiplication_sign : string := String "195" (String "151" "").

(** Modelled from the spec: a [stacked_widget] of the toolkit, kept as
    the number of its layers and the layer selected. *)
Record stacked_widget := {
  layer_count : nat;
  selected_layer : Z;
}.

Definition select_layer (layer : Z) (s : stacked_widget) : stacked_widget :=
  {| layer_count := layer_count s; selected_layer := layer |}.

(** [index_in_pager_range]: [get_layer_count()] is unsigned, so is the
    subtraction; [std::clamp<int>] converts the bound to [int]. *)
Definition index_in_pager_range (first : Z) (pager : stacked_widget) : outcome Z :=
  std_clamp first 0 (cxx.to_int ((Z.of_nat (layer_count pager) - 1) mod 2 ^ 32)).

(** What [pre_show] finds in a layer of the pager: the tab bar and the
    tab stack, either of which may be missing. *)
Record pager_layer := {
  tab_selector : option listbox;
  tab_pager : option stacked_widget;
}.

(** The widgets ["selector"] and ["pager"] of the window; the pager is its
    layers and the layer selected. *)
Record page_widgets := {
  w_selector : listbox;
  w_pager_layers : list pager_layer;
  w_pager_selected : Z;
}.

(** The body of the loop of [pre_show] over the layers of the pager. *)
Definition pre_show_layer (initial_index_ : Z * Z) (main_index : Z) (i : nat)
    (layer : pager_layer) : outcome pager_layer :=
  match tab_pager layer, tab_selector layer with
  | Some tab_pager, Some tab_selector =>
      let ii := cxx.to_int (Z.of_nat i) in
      tab_index ←! index_in_pager_range initial_index_.2 tab_pager;
      let to_select := if ii =? main_index then tab_index else 0 in
      Done {| tab_selector := Some (widgets.select_row to_select tab_selector);
              tab_pager := Some (select_layer to_select tab_pager) |}
  | _, _ => Done layer
  end.

Fixpoint pre_show_layers (initial_index_ : Z * Z) (main_index : Z) (i : nat)
    (layers : list pager_layer) : outcome (list pager_layer) :=
  match layers with
  | [] => Done []
  | layer :: layers =>
      layer ←! pre_show_layer initial_index_ main_index i layer;
      layers ←! pre_show_layers initial_index_ main_index (S i) layers;
      Done (layer :: layers)
  end.

(** [pre_show], from the [VALIDATE] on: the initial page and tabs are
    selected. *)
Definition pre_show (initial_index_ : Z * Z) (w : page_widgets) : outcome page_widgets :=
  if negb (bool_decide (widgets.get_item_count (w_selector w) = length (w_pager_layers w)))
  then Thrown
    "The preferences pager and its selector listbox do not have the same number of items."
  else
    main_index ←! index_in_pager_range initial_index_.1
      {| layer_count := length (w_pager_layers w); selected_layer := w_pager_selected w |};
    layers ←! pre_show_layers initial_index_ main_index 0 (w_pager_layers w);
    Done {| w_selector := widgets.select_row main_index (w_selector w);
            w_pager_layers := layers;
            w_pager_selected := main_index |}.

(** *** Resolutions *)

Module video.

(** [point] *)
Record point := { x : Z; y : Z }.

Definition point_eqb (a b : point) : bool := (x a =? x b) && (y a =? y b).

End video.

Class Video := {
  (** [video::get_available_resolutions(true)] *)
  get_available_resolutions : list video.point;
  (** [video::current_resolution()] *)
  current_resolution : video.point;
}.

(** The body of the loop of [set_resolution_list]; the divisions are
    undefined for the resolution 0 x 0, whose [std::gcd] is 0. *)
Definition resolution_option (res : video.point) : outcome config :=
  let option := Config ∅ [] in
  let option :=
    set_attr "label"
      ("" <<< pretty (video.x res) <<< unicode_multiplication_sign <<< pretty (video.y res))
      option in
  let div := Z.gcd (video.x res) (video.y res) in
  if div =? 0 then Undefined
  else
    let x_ratio := cxx.to_int (video.x res ÷ div) in
    let y_ratio := cxx.to_int (video.y res ÷ div) in
    let option :=
      if (x_ratio <=? 10) || (y_ratio <=? 10)
      then set_attr "details"
             ("" <<< "<span color='#777777'>(" <<< pretty x_ratio <<< ":" <<< pretty y_ratio
                 <<< ")</span>") option
      else option in
    Done option.

Fixpoint resolution_options (resolutions : list video.point) : outcome (list config) :=
  match resolutions with
  | [] => Done []
  | res :: resolutions =>
      option ←! resolution_option res;
      options ←! resolution_options resolutions;
      Done (option :: options)
  end.

Section resolutions.
Context `{Video}.

(** [set_resolution_list]: the member [resolutions_] and the menu
    afterwards. *)
Definition set_resolution_list (res_list : menu_button)
    : outcome (list video.point * menu_button) :=
  let resolutions_ := get_available_resolutions in
  options ←! resolution_options resolutions_;
  let current_res :=
    Z.of_nat (cxx.find_distance video.point_eqb current_resolution resolutions_) mod 2 ^ 32 in
  Done (resolutions_,
        {| menu_values := options; menu_selected := current_res;
           menu_use_markup := menu_use_markup res_list |}).

End resolutions.

(** *** The menu callback of a combo preference *)



(** *** Removing a friend, and the advanced preferences list *)

Class Removal `{Preferences} := {
  (** [remove_acquaintance(nick)]: whether the nick was on a list, with
      the store afterwards *)
  remove_acquaintance : string → prefs → bool * prefs;
}.

Global Instance avd_type_eq_dec : EqDecision avp.avd_type.
Proof. solve_decision. Defined.


Section preferences_dialog_more.
Context `{Gettext, Hotkeys, Preferences, !Removal}.

(** [gui2::show_transient_error_message]: a transient message under the
    title for errors. *)
Definition show_transient_error_message (message : string) (d : preferences_dialog)
    : preferences_dialog :=
  show_transient_message (gettext "Error") message d.

(** The friends list as [initialize_callbacks] fills it. *)
Definition initialize_friends_list (p : prefs) (d : preferences_dialog)
    : preferences_dialog :=
  let friends_list := widgets.clear (w_friends_list d) in
  let friends_list :=
    foldl (λ friends_list entry,
             widgets.add_row (get_friends_list_row_data entry.2) None friends_list)
      friends_list (get_acquaintances p) in
  update_friends_list_controls (set_friends_list friends_list d).

(** [remove_friend_list_entry]; [friends_list] is the widget
    ["friends_list"] of the dialog. Advancing the iterator past the end of
    the acquaintance map, or reading the entry at its end, is undefined. *)
Definition remove_friend_list_entry (textbox : text_box) (p : prefs)
    (d : preferences_dialog) : outcome (prefs * text_box * preferences_dialog) :=
  let friends_list := w_friends_list d in
  let selected_row := Z.max 0 (selected_row friends_list) in
  if Z.of_nat (length (get_acquaintances p)) <? selected_row then Undefined
  else
    to_remove ←!
      (if bool_decide (text textbox ≠ "") then Done (text textbox)
       else match get_acquaintances p !! Z.to_nat selected_row with
            | Some who => Done (get_nick who.2)
            | None => Undefined
            end);
    if bool_decide (to_remove = "") then
      Done (p, textbox, show_transient_message "" (gettext "No username specified") d)
    else
      let '(removed, p) := remove_acquaintance to_remove p in
      if negb removed then
        Done (p, textbox,
              show_transient_error_message (gettext "Not on friends or ignore lists") d)
      else
        let textbox := widgets.clear_text textbox in
        let list := widgets.remove_row (Z.to_nat selected_row) (w_friends_list d) in
        Done (p, textbox, update_friends_list_controls (set_friends_list list d)).





End preferences_dialog_more.

(** ** More of [unit_preview_pane.cpp]: the details tree *)

(** A node of the details tree: the id of its definition, the data of its
    widgets and its child nodes in order. *)
#[warnings="-register-all"]
Inductive tree_view_node :=
  TreeNode (node_type : string) (node_data : widget_data)
    (node_children : list tree_view_node).

Definition node_type (node : tree_view_node) : string :=
  let 'TreeNode type _ _ := node in type.
Definition node_data (node : tree_view_node) : widget_data :=
  let 'TreeNode _ data _ := node in data.
Definition node_children (node : tree_view_node) : list tree_view_node :=
  let 'TreeNode _ _ children := node in children.

(** [node.add_child(type, data)], as the node afterwards. *)
Definition add_child (child : tree_view_node) (node : tree_view_node) : tree_view_node :=
  TreeNode (node_type node) (node_data node) (node_children node ++ [child]).

(** [find_widget<styled_widget>(&node, id, ...).set_tooltip(tooltip)] *)
Definition set_node_tooltip (id tooltip : string) (node : tree_view_node) : tree_view_node :=
  TreeNode (node_type node)
    (<[id := <["tooltip" := tooltip]> (default ∅ (node_data node !! id))]> (node_data node))
    (node_children node).

(** The child that [add_name_tree_node] creates: a node with one label,
    shown with markup, and its tooltip. *)
Definition name_tree_node (type label tooltip : string) : tree_view_node :=
  set_node_tooltip "name" tooltip
    (TreeNode type {[ "name" := {[ "label" := label; "use_markup" := "true" ]} ]} []).

(** [add_name_tree_node(header_node, type, label, tooltip)], as
    [header_node] afterwards. *)
Definition add_name_tree_node (header_node : tree_view_node) (type label : string)
    (tooltip : string) : tree_view_node :=
  add_child (name_tree_node type label tooltip) header_node.

(** What [print_attack_details] reads from an [attack_type]. *)
Record attack_type := {
  (** [a.range()], [a.type()] *)
  attack_range : string;
  attack_type_id : string;
  (** [a.damage()], [a.num_attacks()], [a.name()] *)
  attack_damage : Z;
  attack_num_attacks : Z;
  attack_name : string;
  (** [a.special_tooltips()] *)
  attack_special_tooltips : list (string * string);
}.

(** [unit_type::ability_metadata] *)
Record ability_metadata := {
  ability_name : string;
  ability_description : string;
}.

Class AttackHelpers := {
  (** [::image::locator(path).file_exists()] *)
  image_file_exists : string → bool;
  (** [string_table[key]] *)
  string_table : string → string;
  (** [font::weapon_numbers_sep], [font::weapon_details_sep] *)
  weapon_numbers_sep : string;
  weapon_details_sep : string;
  (** [font::weapon_details_color] *)
  weapon_details_color : color_t;
}.

Section details_tree.
Context `{Gettext, UnitHelpers, AttackHelpers}.

(** The body of the loop of [print_attack_details]: the subsection of one
    attack, with the items added to it. *)
Definition attack_subsection (a : attack_type) : tree_view_node :=
  let range_png :=
    "icons/profiles/" +:+ attack_range a +:+ "_attack.png~SCALE_INTO(16,16)" in
  let type_png := "icons/profiles/" +:+ attack_type_id a +:+ ".png~SCALE_INTO(16,16)" in
  let range_png_exists := image_file_exists range_png in
  let type_png_exists := image_file_exists type_png in
  let range := string_table ("range_" +:+ attack_range a) in
  let type := string_table ("type_" +:+ attack_type_id a) in
  let label :=
    "" <<< span_color unit_type_color <<< pretty (attack_damage a) <<< weapon_numbers_sep
       <<< pretty (attack_num_attacks a) <<< " " <<< attack_name a <<< "</span>" in
  let subsection :=
    TreeNode "item_image"
      {[ "image_range" := {[ "label" := range_png ]};
         "image_type" := {[ "label" := type_png ]};
         "name" := {[ "label" := label; "use_markup" := "true" ]} ]} [] in
  let subsection := set_node_tooltip "image_range" range subsection in
  let subsection := set_node_tooltip "image_type" type subsection in
  let subsection :=
    if negb range_png_exists || negb type_png_exists then
      add_name_tree_node subsection "item"
        ("" <<< span_color weapon_details_color <<< range <<< weapon_details_sep <<< type
            <<< "</span>") ""
    else subsection in
  foldl (λ subsection pair,
           add_name_tree_node subsection "item"
             ("" <<< span_color weapon_details_color <<< pair.1 <<< "</span>")
             ("" <<< "<span size='x-large'>" <<< pair.1 <<< "</span>" <<< NL <<< pair.2))
    subsection (attack_special_tooltips a).

(** [print_attack_details(attacks, parent_node)], as [parent_node]
    afterwards. The header is a child of the parent from the start; the
    subsections are added to that child. *)
Definition print_attack_details (attacks : list attack_type) (parent_node : tree_view_node)
    : tree_view_node :=
  if bool_decide (attacks = []) then parent_node
  else
    let header_node := name_tree_node "header" ("<b>" +:+ gettext "Attacks" +:+ "</b>") "" in
    let header_node :=
      foldl (λ header_node a, add_child (attack_subsection a) header_node)
        header_node attacks in
    add_child header_node parent_node.

(** The trait loop of [set_displayed_type]: [header_node] is null until
    the first trait that every unit of the type must have and that has a
    name for the gender shown. *)
Definition type_trait_step (female : bool) (header_node : option tree_view_node)
    (tr : config) : option tree_view_node :=
  let name := attr tr (if female then "female_name" else "male_name") in
  if negb (bool_decide (attr tr "availability" = "musthave")) || bool_decide (name = "")
  then header_node
  else
    let header_node :=
      match header_node with
      | None => name_tree_node "header" ("<b>" +:+ gettext "Traits" +:+ "</b>") ""
      | Some header_node => header_node
      end in
    Some (add_name_tree_node header_node "item" name "").

(** The ability block of [set_displayed_type]. *)
Definition type_abilities (abilities_metadata : list ability_metadata)
    : option tree_view_node :=
  if negb (bool_decide (abilities_metadata = [])) then
    let header_node :=
      name_tree_node "header" ("<b>" +:+ gettext "Abilities" +:+ "</b>") "" in
    Some (foldl (λ header_node ab,
                   if negb (bool_decide (ability_name ab = "")) then
                     add_name_tree_node header_node "item" (ability_name ab)
                       ("" <<< "<span size='x-large'>" <<< ability_name ab <<< "</span>"
                           <<< NL <<< ability_description ab)
                   else header_node)
            header_node abilities_metadata)
  else None.

Definition add_optional_child (child : option tree_view_node) (node : tree_view_node)
    : tree_view_node :=
  match child with
  | Some child => add_child child node
  | None => node
  end.

(** The [if(tree_details_)] block of [set_displayed_type] after the
    ["hp_xp_mp"] node: traits, abilities and attacks are added to the root
    node, in this order. [female] is
    [type.genders().front() == unit_race::FEMALE]. *)
Definition type_details (female : bool) (possible_traits : list config)
    (abilities_metadata : list ability_metadata) (attacks : list attack_type)
    (root_node : tree_view_node) : tree_view_node :=
  let root_node :=
    add_optional_child (foldl (type_trait_step female) None possible_traits) root_node in
  let root_node := add_optional_child (type_abilities abilities_metadata) root_node in
  print_attack_details attacks root_node.

(** The trait and ability blocks of [set_displayed_unit]; the [assert]
    on the numbers of trait names and descriptions, taken as compiled in,
    ends the call when it fails. *)
Definition unit_traits (trait_names trait_descriptions : list string)
    : outcome (option tree_view_node) :=
  if negb (bool_decide (trait_names = [])) then
    let header_node := name_tree_node "header" ("<b>" +:+ gettext "Traits" +:+ "</b>") "" in
    if negb (bool_decide (length trait_names = length trait_descriptions))
    then Thrown "u.trait_names().size() == u.trait_descriptions().size()"
    else
      Done (Some (foldl (λ header_node item,
                           add_name_tree_node header_node "item" item.1 item.2)
                    header_node (zip trait_names trait_descriptions)))
  else Done None.

(** [ability_list_empty] is [u.get_ability_list().empty()]; an ability
    tooltip is given as its name and its description, [std::get<2>] and
    [std::get<3>] of the tuple. *)
Definition unit_abilities (ability_list_empty : bool)
    (ability_tooltips : list (string * string)) : option tree_view_node :=
  if negb ability_list_empty then
    let header_node :=
      name_tree_node "header" ("<b>" +:+ gettext "Abilities" +:+ "</b>") "" in
    Some (foldl (λ header_node ab, add_name_tree_node header_node "item" ab.1 ab.2)
            header_node ability_tooltips)
  else None.

Definition unit_details (trait_names trait_descriptions : list string)
    (ability_list_empty : bool) (ability_tooltips : list (string * string))
    (attacks : list attack_type) (root_node : tree_view_node) : outcome tree_view_node :=
  traits ←! unit_traits trait_names trait_descriptions;
  let root_node := add_optional_child traits root_node in
  let root_node :=
    add_optional_child (unit_abilities ability_list_empty ability_tooltips) root_node in
  Done (print_attack_details attacks root_node).

End details_tree.

(** ** A sample environment

    Small instances of the collaborators, on which the statements below
    are exercised. *)
Module sample.

Definition texts : Gettext :=
  {| gettext msgid := msgid;
     dgettext _ msgid := msgid;
     vgettext msgid _ := msgid |}.

Definition unit_helpers : UnitHelpers :=
  {| resistance_color _ := "#ffffff";
     signed_percent z := pretty z +:+ "%";
     red_to_green _ _ := {| red := 0; green := 255; blue := 0; alpha := 255 |};
     to_hex_string _ := "#00ff00";
     span_color _ := "<span color='#00ff00'>";
     unit_type_color := {| red := 245; green := 230; blue := 193; alpha := 255 |};
     get_acceleration := 100 |}.

Definition terrains : Terrains :=
  {| terrain_code := Z;
     FOGGED := 0;
     VOID_TERRAIN := 1;
     matches_all_off_map t := t <? 0;
     load_terrain_types_data :=
       Some (λ t, {| terrain_name := pretty t; is_indivisible := true; is_nonnull := true |});
     encountered_terrains := [0; 2; 3; 4; 5];
     terrain_movement_less a b := String.ltb (tm_name a) (tm_name b) |}.

(** Costs 1, 7 and 20 and no cost at all, for a unit that moves 5. *)
Definition movement_cost (t : Z) : Z :=
  if t =? 2 then 1 else if t =? 3 then 7 else if t =? 4 then 20 else 0.

Definition resistances : list (string * string) := [("blade", "80"); ("arcane", "110")].

Definition resistance (damage_type : string) (is_attacker : bool) : Z :=
  if String.eqb damage_type "blade" then 20
  else if is_attacker then -10 else 0.

Definition end_turn : hotkey.hotkey_command :=
  {| hotkey.id := "endturn"; hotkey.description := "End Turn"; hotkey.category := 3;
     hotkey.hidden := false;
     hotkey.scope_bits sc := match sc with hotkey.SCOPE_GAME => true | _ => false end |}.

Definition hotkeys : Hotkeys :=
  {| get_hotkey_commands :=
       [("endturn", end_turn);
        ("null",
         {| hotkey.id := "null"; hotkey.description := ""; hotkey.category := 0;
            hotkey.hidden := true; hotkey.scope_bits _ := false |});
        ("quit",
         {| hotkey.id := "quit"; hotkey.description := "Quit"; hotkey.category := 0;
            hotkey.hidden := false; hotkey.scope_bits _ := true |})];
     get_names _ := "";
     get_translatable_category_name cat := pretty cat;
     file_exists _ := false;
     game_config_path := "/usr/share/wesnoth";
     split text sep := String.words text;
     ci_search haystack needle :=
       bool_decide (is_Some (String.index 0 needle haystack)) |}.

(** A store that is the friends list and the speed; a nick is refused
    when it is empty. *)
Definition store : Preferences :=
  {| prefs := list (string * acquaintance) * float;
     get_acquaintances p := p.1;
     add_acquaintance nick mode notes p :=
       if bool_decide (nick = "") then (None, false, p)
       else
         let entry := {| get_nick := nick; get_status := mode; get_notes := notes |} in
         (Some entry, true, (p.1 ++ [(nick, entry)], p.2));
     turbo_speed p := p.2;
     set_turbo_speed speed p := (p.1, speed) |}.

Definition difficulty : avp.option :=
  {| avp.field := "difficulty";
     avp.name := "Difficulty";
     avp.description := "";
     avp.type := avp.COMBO;
     avp.cfg :=
       Config {[ "default" := "normal" ]}
         [("option", Config {[ "id" := "easy"; "name" := "Easy" ]} []);
          ("option", Config {[ "id" := "normal"; "name" := "Normal" ]} []);
          ("option", Config {[ "id" := "hard"; "name" := "Hard" ]} [])] |}.

Definition friends : list (string * acquaintance) :=
  [("alice", {| get_nick := "alice"; get_status := "friend"; get_notes := "" |});
   ("bob", {| get_nick := "bob"; get_status := "ignore"; get_notes := "rude" |})].

Definition dialog : preferences_dialog :=
  {| visible_hotkeys_ := [];
     visible_categories_ := [];
     w_hotkey_category_menu := {| multimenu_values := []; toggle_states := [] |};
     w_filter := {| text := "Turn" |};
     w_list_hotkeys := {| rows := []; selected_row := -1; row_shown := [] |};
     w_friends_list := {| rows := []; selected_row := -1; row_shown := [] |};
     w_remove_active := false;
     w_no_friends_notice := visible;
     shown_messages := [] |}.


Definition removal : @Removal store :=
  @Build_Removal store
    (λ nick (p : list (string * acquaintance) * float),
       (bool_decide (nick ∈ p.1.*1), (filter (λ entry, entry.1 ≠ nick) p.1, p.2))).

Definition video_modes : Video :=
  {| get_available_resolutions :=
       [{| video.x := 1024; video.y := 768 |};
        {| video.x := 1920; video.y := 1080 |};
        {| video.x := 2560; video.y := 1080 |}];
     current_resolution := {| video.x := 1920; video.y := 1080 |} |}.

(** Three pages: the second is the only one with tabs, three of them. *)
Definition pages : page_widgets :=
  {| w_selector := {| rows := [∅; ∅; ∅]; selected_row := -1; row_shown := [] |};
     w_pager_layers :=
       [{| tab_selector := None; tab_pager := None |};
        {| tab_selector := Some {| rows := [∅; ∅; ∅]; selected_row := -1; row_shown := [] |};
           tab_pager := Some {| layer_count := 3; selected_layer := -1 |} |};
        {| tab_selector := None; tab_pager := Some {| layer_count := 0; selected_layer := 0 |} |}];
     w_pager_selected := 0 |}.




Definition attack_helpers : AttackHelpers :=
  {| image_file_exists path := String.prefix "icons/profiles/blade" path;
     string_table key := key;
     weapon_numbers_sep := "-";
     weapon_details_sep := ", ";
     weapon_details_color := {| red := 166; green := 146; blue := 117; alpha := 255 |} |}.

Definition sword : attack_type :=
  {| attack_range := "melee"; attack_type_id := "blade"; attack_damage := 7;
     attack_num_attacks := 3; attack_name := "sword";
     attack_special_tooltips := [("magical", "70% chance to hit")] |}.
End sample.

(** * Properties *)

(** ** Integers and text *)

Lemma to_int_in_range z : cxx.in_int z → cxx.to_int z = z.
Proof.
  unfold cxx.in_int, cxx.to_int, cxx.int_min, cxx.int_max. intros Hz.
  rewrite Z.mod_small by lia. lia.
Qed.

Lemma to_int_of_nat_length {A} (l : list A) :
  Z.of_nat (length l) ≤ cxx.int_max → cxx.to_int (Z.of_nat (length l)) = Z.of_nat (length l).
Proof.
  intros Hl. apply to_int_in_range. unfold cxx.in_int, cxx.int_min. lia.
Qed.

(** Truncated and floored division agree on how many times a loop bounded
    by the quotient runs: both are the same when positive, and neither is
    positive without the other. *)
Lemma to_nat_quot_div a b : b ≠ 0 → Z.to_nat (a ÷ b) = Z.to_nat (a / b).
Proof.
  intros Hb.
  destruct (decide (0 ≤ a)) as [Ha|Ha]; destruct (decide (0 < b)) as [Hb'|Hb'].
  - by rewrite Z.quot_div_nonneg by lia.
  - assert (a ÷ b ≤ 0).
    { replace b with (- - b) by lia. rewrite Z.quot_opp_r by lia.
      pose proof (Z.quot_pos a (- b)). lia. }
    assert (a / b ≤ 0).
    { rewrite <- Z.div_opp_opp by lia. apply Z.div_le_upper_bound; lia. }
    lia.
  - assert (a ÷ b ≤ 0).
    { replace a with (- - a) by lia. rewrite Z.quot_opp_l by lia.
      pose proof (Z.quot_pos (- a) b). lia. }
    assert (a / b ≤ 0) by (apply Z.div_le_upper_bound; lia).
    lia.
  - rewrite <- Z.quot_opp_opp, <- Z.div_opp_opp by lia.
    by rewrite Z.quot_div_nonneg by lia.
Qed.

Lemma quot_in_int a b : cxx.int_min < a ≤ cxx.int_max → b ≠ 0 → cxx.in_int (a ÷ b).
Proof.
  unfold cxx.in_int, cxx.int_min, cxx.int_max. intros Ha Hb.
  assert (Z.abs (a ÷ b) ≤ Z.abs a); [|lia].
  rewrite <- Z.quot_abs by done.
  apply Z.quot_le_upper_bound; [lia|]. nia.
Qed.

Lemma append_cons (c : ascii) (s1 s2 : string) : String c s1 +:+ s2 = String c (s1 +:+ s2).
Proof. done. Qed.

Lemma append_nil_l (s : string) : "" +:+ s = s.
Proof. done. Qed.

Lemma append_assoc (s1 s2 s3 : string) : (s1 +:+ s2) +:+ s3 = s1 +:+ (s2 +:+ s3).
Proof.
  induction s1 as [|c s1 IH]; [done|]. by rewrite !append_cons, IH.
Qed.

Lemma append_nil_r (s : string) : s +:+ "" = s.
Proof. induction s as [|c s IH]; [done|]. by rewrite append_cons, IH. Qed.

(** Streams are normalised by nesting every append to the right. *)
Ltac stream_norm := rewrite ?append_assoc, ?append_nil_l, ?append_nil_r.

Lemma concat_cons (s : string) (l : list string) :
  String.concat "" (s :: l) = s +:+ String.concat "" l.
Proof. destruct l; cbn [String.concat]; by stream_norm. Qed.

Lemma elem_of_set_emplace {A} (less : A → A → bool) (x y : A) (s : list A) :
  y ∈ cxx.set_emplace less x s → y = x ∨ y ∈ s.
Proof.
  induction s as [|z s IH]; cbn.
  - rewrite list_elem_of_singleton. auto.
  - destruct (less x z); [|destruct (less z x)]; rewrite !elem_of_cons; intuition.
Qed.

(** ** The unit preview pane *)

Section unit_preview_pane_properties.
Context `{Gettext, UnitHelpers, Terrains}.

(** *** Resistances *)

Lemma hp_tooltip_step_spec (get : string → bool → Z) table diff (resist : string * string) :
  cxx.in_int (100 - get resist.1 true) →
  cxx.in_int (100 - get resist.1 false) →
  hp_tooltip_step get (table, diff) resist =
    (table ++ [dgettext "wesnoth" resist.1 +:+ ": "
                 +:+ displayed_resistance (100 - get resist.1 true) (100 - get resist.1 false)],
     diff || bool_decide (100 - get resist.1 true ≠ 100 - get resist.1 false)).
Proof.
  intros Ha Hd. unfold hp_tooltip_step, cxx.int_sub, displayed_resistance.
  rewrite !to_int_in_range by done.
  destruct (Z.eqb_spec (100 - get resist.1 true) (100 - get resist.1 false)) as [Heq|Hne].
  - rewrite decide_True, bool_decide_false by (done || (intros ?; done)).
    rewrite orb_false_r. by stream_norm.
  - rewrite decide_False, bool_decide_true by done.
    rewrite orb_true_r. by stream_norm.
Qed.

Lemma hp_tooltip_loop_spec (get : string → bool → Z) (res : list (string * string)) table diff :
  (∀ resist b, resist ∈ res → cxx.in_int (100 - get resist.1 b)) →
  foldl (hp_tooltip_step get) (table, diff) res =
    (table ++ ((λ resist, dgettext "wesnoth" resist.1 +:+ ": "
                  +:+ displayed_resistance (100 - get resist.1 true) (100 - get resist.1 false))
               <$> res),
     diff || bool_decide (Exists (λ resist, 100 - get resist.1 true ≠ 100 - get resist.1 false) res)).
Proof.
  revert table diff. induction res as [|resist res IH]; intros table diff Hres.
  - cbn [foldl fmap list_fmap]. rewrite app_nil_r, bool_decide_false, orb_false_r; [done|].
    by inversion 1.
  - cbn [foldl]. rewrite hp_tooltip_step_spec by (apply Hres; left).
    rewrite IH by (intros; apply Hres; by right).
    rewrite fmap_cons, <- app_assoc. cbn [app]. f_equal.
    rewrite <- orb_assoc. f_equal.
    destruct (decide (100 - get resist.1 true ≠ 100 - get resist.1 false)) as [Hd|Hd].
    + rewrite bool_decide_true by done. cbn.
      symmetry. apply bool_decide_eq_true. by left.
    + rewrite bool_decide_false by done. cbn.
      apply bool_decide_ext. rewrite Exists_cons. tauto.
Qed.

Lemma bullet_lines_spec (lines : list string) (tooltip : string) :
  foldl (λ tooltip line, tooltip <<< NL <<< font.unicode_bullet <<< " " <<< line)
    tooltip lines
  = tooltip +:+ String.concat ""
      ((λ line, NL +:+ font.unicode_bullet +:+ " " +:+ line) <$> lines).
Proof.
  revert tooltip. induction lines as [|line lines IH]; intros tooltip.
  - cbn. by stream_norm.
  - cbn [foldl]. rewrite IH, fmap_cons, concat_cons. by stream_norm.
Qed.


(** C3: in [get_hp_tooltip], every damage type of the resistance table
    gets one bulleted line whose attack and defense values are 100 minus
    the queried resistance, shown as signed percents: one value when the
    two are equal, both separated by a slash when they differ
    ([displayed_resistance]); the header carries the "(Att / Def)"
    marker exactly when some damage type has differing values. The
    subtractions are assumed to stay within [int]. *)
Theorem get_hp_tooltip_resistances (res : list (string * string))
    (get : string → bool → Z) :
  (∀ resist b, resist ∈ res → cxx.in_int (100 - get resist.1 b)) →
  get_hp_tooltip res get =
    "<big>" +:+ gettext "Resistances: " +:+ "</big>"
    +:+ (if decide (Exists (λ resist, 100 - get resist.1 true ≠ 100 - get resist.1 false) res)
         then gettext "(Att / Def)" else "")
    +:+ String.concat ""
          ((λ resist, NL +:+ font.unicode_bullet +:+ " "
              +:+ dgettext "wesnoth" resist.1 +:+ ": "
              +:+ displayed_resistance (100 - get resist.1 true) (100 - get resist.1 false))
           <$> res).
Proof.
  intros Hres. unfold get_hp_tooltip.
  rewrite hp_tooltip_loop_spec by done. cbn [orb app].
  rewrite bullet_lines_spec, <- list_fmap_compose.
  case_bool_decide; [rewrite decide_True by done|rewrite decide_False by done];
    stream_norm; repeat f_equal.
Qed.

(** *** Movement costs *)

Lemma mp_hexes_loop_spec (k : nat) : ∀ (i n : Z) (tooltip : string),
  Z.to_nat (n - i) = k →
  mp_hexes_loop i n tooltip = tooltip +:+ String.concat "" (replicate k hexagon).
Proof.
  induction k as [|k IH]; intros i n tooltip Hk; simp mp_hexes_loop;
    destruct (decide (i < n)) as [Hlt|Hge]; cbn [mp_hexes_loop_unfold_clause_1]; try lia.
  - by stream_norm.
  - rewrite (IH (i + 1) n) by lia.
    cbn [replicate]. rewrite concat_cons. by stream_norm.
Qed.

Lemma mp_cost_stream (total_movement moves : Z) (tooltip : string) :
  mp_cost total_movement moves tooltip = tooltip +:+ mp_cost total_movement moves "".
Proof. unfold mp_cost. repeat case_match; by stream_norm. Qed.

Lemma mp_hexes_stream (total_movement moves : Z) (tooltip : string) :
  mp_hexes total_movement moves tooltip = tooltip +:+ mp_hexes total_movement moves "".
Proof.
  unfold mp_hexes. case_bool_decide; [|by stream_norm].
  rewrite !(mp_hexes_loop_spec _ 0 _ _ eq_refl). by stream_norm.
Qed.

(** What the loop over [terrain_moves] writes for one terrain. *)
Lemma mp_tooltip_step_spec (total_movement : Z) (tooltip : string) (tm : terrain_movement) :
  mp_tooltip_step total_movement tooltip tm =
    tooltip +:+ mp_tooltip_step total_movement "" tm.
Proof.
  unfold mp_tooltip_step. cbn zeta.
  rewrite !(mp_hexes_stream _ _ (mp_cost _ _ _)), !(mp_cost_stream _ _ (_ +:+ _)).
  by stream_norm.
Qed.

Lemma mp_tooltip_loop_spec (total_movement : Z) (terrain_moves : list terrain_movement)
    (tooltip : string) :
  foldl (mp_tooltip_step total_movement) tooltip terrain_moves =
    tooltip +:+ String.concat "" (mp_tooltip_step total_movement "" <$> terrain_moves).
Proof.
  revert tooltip. induction terrain_moves as [|tm tms IH]; intros tooltip.
  - cbn. by stream_norm.
  - cbn [foldl]. rewrite IH, mp_tooltip_step_spec, fmap_cons, concat_cons. by stream_norm.
Qed.

Lemma mp_collect_moves tdata (get : terrain_code → Z) (terrains : list terrain_code) :
  ∀ (terrain_moves : list terrain_movement) (tm : terrain_movement),
  tm ∈ foldl (mp_collect_step tdata get) terrain_moves terrains →
  tm ∈ terrain_moves ∨ ∃ terrain, terrain ∈ terrains ∧ tm_moves tm = get terrain.
Proof.
  induction terrains as [|terrain terrains IH]; intros terrain_moves tm; cbn [foldl].
  - auto.
  - intros [Hin|(t & Ht & Hget)]%IH.
    + unfold mp_collect_step in Hin.
      repeat case_match; auto.
      apply elem_of_set_emplace in Hin as [->|Hin]; [|by left].
      right. exists terrain. split; [by left|done].
    + right. exists t. split; [by right|done].
Qed.

(** C2: in [get_mp_tooltip], every listed terrain gets one bulleted
    line; with [m] its movement cost and [T] the unit's maximum
    movement, the cost is a figure dash when [m > T + 5], the number in
    parentheses when [T < m <= T + 5] and the plain number when
    [m <= T]; whenever [m] is nonzero a space and [floor(T / m)]
    hexagon glyphs follow (none when the quotient is negative). The
    costs are [int]s and [T + 5] and [T / m] are assumed not to
    overflow. *)
Theorem get_mp_tooltip_costs (T : Z) (get : terrain_code → Z)
    (tdata : terrain_code → terrain_type) :
  load_terrain_types_data = Some tdata →
  (∀ terrain, cxx.in_int (get terrain)) →
  cxx.int_min < T ≤ cxx.int_max - 5 →
  let listed := foldl (mp_collect_step tdata get) [] encountered_terrains in
  get_mp_tooltip T get =
    "<big>" +:+ gettext "Movement Costs:" +:+ "</big>"
    +:+ String.concat ""
          ((λ tm, NL +:+ font.unicode_bullet +:+ " " +:+ tm_name tm +:+ ": "
              +:+ "<span color='"
              +:+ to_hex_string
                    (red_to_green
                       (PrimFloat.sub 100
                          (PrimFloat.mul 25 (cxx.double_of_int (tm_moves tm)))) true)
              +:+ "'>"
              +:+ mp_cost T (tm_moves tm) "" +:+ mp_hexes T (tm_moves tm) ""
              +:+ "</span>") <$> listed)
  ∧ ∀ tm, tm ∈ listed →
      let m := tm_moves tm in
      (m > T + 5 → mp_cost T m "" = font.unicode_figure_dash)
      ∧ (T < m ≤ T + 5 → mp_cost T m "" = "(" +:+ pretty m +:+ ")")
      ∧ (m ≤ T → mp_cost T m "" = pretty m)
      ∧ (m ≠ 0 →
         mp_hexes T m "" = " " +:+ String.concat "" (replicate (Z.to_nat (T / m)) hexagon)).
Proof.
  intros Hload Hget HT listed. split.
  - unfold get_mp_tooltip. rewrite Hload. fold listed.
    rewrite mp_tooltip_loop_spec. stream_norm. do 4 f_equal.
    apply list_fmap_ext; intros _ tm _. unfold mp_tooltip_step. cbn zeta.
    rewrite mp_hexes_stream, mp_cost_stream. by stream_norm.
  - intros tm Htm m.
    assert (cxx.in_int m) as Hm.
    { apply mp_collect_moves in Htm as [Htm|(t & _ & Heq)].
      - by apply elem_of_nil in Htm.
      - subst m. rewrite Heq. apply Hget. }
    assert (cxx.int_add T 5 = T + 5) as Hadd.
    { apply to_int_in_range. unfold cxx.in_int in *. lia. }
    unfold mp_cost, mp_hexes. rewrite Hadd. repeat split.
    + intros Hgt. rewrite !bool_decide_true by lia. by stream_norm.
    + intros [Hlo Hhi]. rewrite bool_decide_true, bool_decide_false by lia.
      by stream_norm.
    + intros Hle. rewrite bool_decide_false by lia. by stream_norm.
    + intros Hne. rewrite bool_decide_true by done. unfold cxx.int_div.
      rewrite to_int_in_range by (apply quot_in_int; [lia|done]).
      erewrite mp_hexes_loop_spec by (rewrite Z.sub_0_r; by apply to_nat_quot_div).
      by stream_norm.
Qed.

(** *** The XP statistic *)

Lemma list_ascii_append (s1 s2 : string) :
  list_ascii_of_string (s1 +:+ s2) = list_ascii_of_string s1 ++ list_ascii_of_string s2.
Proof. induction s1 as [|c s1 IH]; [done|]. rewrite append_cons. cbn. by rewrite IH. Qed.

(** A text with a slash in it is not the en dash. *)
Lemma slash_not_en_dash (a b : string) : a +:+ "/" +:+ b ≠ font.unicode_en_dash.
Proof.
  intros Heq. apply (f_equal list_ascii_of_string) in Heq.
  rewrite !list_ascii_append in Heq.
  assert ("/"%char ∈ list_ascii_of_string font.unicode_en_dash) as Hin.
  { rewrite <- Heq. apply elem_of_app. right. apply elem_of_app. left. by left. }
  cbn in Hin. rewrite !elem_of_cons, elem_of_nil in Hin.
  destruct Hin as [?|[?|[?|[]]]]; discriminate.
Qed.

(** C7: in [set_displayed_unit], the XP statistic is the text
    "experience/max_experience" if and only if the unit can advance and
    an en dash otherwise, in the minimal details label as in the label
    of the "xp" cell of the details tree node. *)
Theorem set_displayed_unit_xp (u : unit_view) :
  let xp :=
    if can_advance u then pretty (experience u) +:+ "/" +:+ pretty (max_experience u)
    else font.unicode_en_dash in
  details_minimal_label u =
    "<span size='large'>" +:+ (if decide (name u = "") then " " else name u) +:+ "</span>" +:+ NL
    +:+ span_color unit_type_color +:+ type_name u +:+ "</span>" +:+ NL
    +:+ vgettext "Lvl $lvl" [("lvl", pretty (level u))] +:+ NL
    +:+ alignment_description u +:+ NL
    +:+ String.concat ", " (trait_names u) +:+ NL
    +:+ span_color (hp_color u) +:+ gettext "HP: " +:+ pretty (hitpoints u) +:+ "/"
    +:+ pretty (max_hitpoints u) +:+ "</span>" +:+ NL
    +:+ span_color (xp_color u) +:+ gettext "XP: " +:+ xp +:+ "</span>"
  ∧ hp_xp_mp_node u !! "xp" ≫= (.!! "label") =
      Some ("<small>" +:+ span_color (xp_color u) +:+ "<b>" +:+ gettext "XP: " +:+ "</b>"
            +:+ xp +:+ "</span>" +:+ " | </small>")
  ∧ (xp = pretty (experience u) +:+ "/" +:+ pretty (max_experience u)
     ↔ can_advance u = true)
  ∧ (xp = font.unicode_en_dash ↔ can_advance u = false).
Proof.
  intros xp. split; [|split; [|split]].
  - unfold details_minimal_label. subst xp.
    destruct (can_advance u); case_bool_decide; case_decide; try done; by stream_norm.
  - unfold hp_xp_mp_node, unit_xp. subst xp.
    rewrite lookup_insert_ne, lookup_insert_eq by done. cbn [mbind option_bind].
    rewrite lookup_insert_eq.
    destruct (can_advance u); by stream_norm.
  - subst xp. destruct (can_advance u); [done|]. split; [|done].
    intros Heq. symmetry in Heq. by apply slash_not_en_dash in Heq.
  - subst xp. destruct (can_advance u); [|done]. split; [|done].
    intros Heq. by apply slash_not_en_dash in Heq.
Qed.

(** *** Activation *)

(** C5: the pane is read-only with respect to activation: whatever the
    pane and the flag, [set_active] changes nothing, [get_active] is
    true and [get_state] is [ENABLED], before as after the call. *)
Theorem set_active_read_only (pane : unit_preview_pane) (b : bool) :
  set_active b pane = pane
  ∧ get_active (set_active b pane) = true
  ∧ get_state (set_active b pane) = ENABLED
  ∧ get_active pane = true
  ∧ get_state pane = ENABLED.
Proof. by repeat split. Qed.

End unit_preview_pane_properties.

(** ** The preferences dialog *)

Lemma find_distance_first {A} (eqb : A → A → bool) (x : A) (l : list A) (i : nat) :
  (∀ a b, eqb a b = true ↔ a = b) →
  l !! i = Some x → (∀ j, (j < i)%nat → l !! j ≠ Some x) →
  cxx.find_distance eqb x l = i.
Proof.
  intros Heqb. revert i. induction l as [|y l IH]; intros i Hi Hfirst; [done|].
  cbn [cxx.find_distance]. destruct (eqb y x) eqn:Hyx.
  - apply Heqb in Hyx as ->. destruct i as [|i]; [done|].
    by destruct (Hfirst 0%nat); [lia|].
  - destruct i as [|i].
    + cbn in Hi. injection Hi as ->.
      assert (eqb x x = true) by by apply Heqb. congruence.
    + f_equal. apply IH; [done|]. intros j Hj. apply (Hfirst (S j)). lia.
Qed.

Lemma find_distance_absent {A} (eqb : A → A → bool) (x : A) (l : list A) :
  (∀ a b, eqb a b = true ↔ a = b) →
  x ∉ l → cxx.find_distance eqb x l = length l.
Proof.
  intros Heqb. induction l as [|y l IH]; intros Hx; [done|].
  cbn [cxx.find_distance length]. apply not_elem_of_cons in Hx as [Hne Hx].
  destruct (eqb y x) eqn:Hyx.
  - apply Heqb in Hyx. congruence.
  - f_equal. by apply IH.
Qed.

Section preferences_dialog_properties.
Context `{Gettext, Hotkeys, Preferences}.

(** *** The friends list *)

(** C9: when the selected row is negative or not below the number of
    acquaintances, [on_friends_list_select] returns with the textbox as
    it was; otherwise the row indexes an acquaintance, whose nick and
    notes become the text. Either way the acquaintance map is never
    read out of bounds. The number of acquaintances is assumed to fit
    an [int]. *)
Theorem on_friends_list_select_in_bounds (p : prefs) (list : listbox) (textbox : text_box) :
  Z.of_nat (length (get_acquaintances p)) ≤ cxx.int_max →
  let sel := selected_row list in
  let num_friends := Z.of_nat (length (get_acquaintances p)) in
  (sel < 0 ∨ num_friends ≤ sel →
     on_friends_list_select p list textbox = Some textbox)
  ∧ (0 ≤ sel < num_friends →
     ∃ who, get_acquaintances p !! Z.to_nat sel = Some who
            ∧ on_friends_list_select p list textbox =
                Some {| text := get_nick who.2 +:+ " " +:+ get_notes who.2 |})
  ∧ is_Some (on_friends_list_select p list textbox).
Proof.
  intros Hlen sel num_friends.
  assert (∀ b, (sel <? 0) || (sel >=? num_friends) = b →
            on_friends_list_select p list textbox =
              if b then Some textbox
              else who ← get_acquaintances p !! Z.to_nat sel;
                   Some (widgets.set_value
                           (get_nick who.2 +:+ " " +:+ get_notes who.2) textbox)) as Hrun.
  { intros b <-. unfold on_friends_list_select.
    by rewrite to_int_of_nat_length by done. }
  assert (0 ≤ sel < num_friends →
          ∃ who, get_acquaintances p !! Z.to_nat sel = Some who) as Hwho.
  { intros Hsel. apply lookup_lt_is_Some_2. lia. }
  split; [|split].
  - intros Hout. apply (Hrun true). lia.
  - intros Hin. destruct (Hwho Hin) as [who Hlook]. exists who. split; [done|].
    rewrite (Hrun false) by lia. by rewrite Hlook.
  - destruct (decide (0 ≤ sel < num_friends)) as [Hin|Hout].
    + destruct (Hwho Hin) as [who Hlook].
      rewrite (Hrun false) by lia. by rewrite Hlook.
    + rewrite (Hrun true) by lia. done.
Qed.

(** C10: [add_friend_list_entry] is atomic on error. When the textbox is
    empty, or [add_acquaintance] refuses the username (the text up to
    the first space), one message is shown and the acquaintances, the
    rows of the friends list and the textbox are as before; otherwise
    no message is shown and the textbox is cleared. A refusal by
    [add_acquaintance] is assumed to leave the store as it was. *)
Theorem add_friend_list_entry_atomic (is_friend : bool) (textbox : text_box)
    (p : prefs) (d : preferences_dialog) :
  (∀ nick mode notes q,
     (add_acquaintance nick mode notes q).1.1 = None →
     (add_acquaintance nick mode notes q).2 = q) →
  let input := text textbox in
  let username :=
    match String.index 0 " " input with
    | Some pos => String.substring 0 pos input
    | None => input
    end in
  let reason :=
    match String.index 0 " " input with
    | Some pos => String.substring (pos + 1) (String.length input - (pos + 1)) input
    | None => ""
    end in
  let mode := if is_friend then "friend" else "ignore" in
  let '(p', textbox', d') := add_friend_list_entry is_friend textbox p d in
  (input = "" ∨ (add_acquaintance username mode reason p).1.1 = None →
     p' = p ∧ textbox' = textbox ∧ w_friends_list d' = w_friends_list d
     ∧ ∃ title message, shown_messages d' = shown_messages d ++ [(title, message)])
  ∧ (input ≠ "" ∧ is_Some (add_acquaintance username mode reason p).1.1 →
     text textbox' = "" ∧ shown_messages d' = shown_messages d).
Proof.
  intros Hrefuse input username reason mode.
  unfold add_friend_list_entry. fold input.
  case_bool_decide as Hempty.
  { split; [intros _|intros [? _]; done]. repeat split; eauto. }
  replace (let '(reason0, username0) :=
             match String.index 0 " " input with
             | Some pos =>
                 (String.substring (pos + 1) (String.length input - (pos + 1)) input,
                  String.substring 0 pos input)
             | None => ("", input)
             end in _)
    with (let '(entry, added_new, p0) := add_acquaintance username mode reason p in
          match entry with
          | None =>
              (p0, textbox,
               show_transient_message (gettext "Error") (gettext "Invalid username") d)
          | Some entry =>
              (p0, widgets.clear_text textbox,
               update_friends_list_controls
                 (set_friends_list
                    (if added_new : bool
                     then widgets.add_row (get_friends_list_row_data entry) None
                            (w_friends_list d)
                     else replace_friend_row (get_nick entry)
                            (get_friends_list_row_data entry)
                            (rows (w_friends_list d)) 0 (w_friends_list d)) d))
          end)
    by (subst username reason mode; by destruct (String.index 0 " " input)).
  pose proof (Hrefuse username mode reason p) as Hkeep.
  destruct (add_acquaintance username mode reason p) as [[[entry|] added_new] p0];
    cbn [fst snd] in *.
  - split; [intros [?|?]; done|]. intros _. done.
  - rewrite Hkeep by done. split; [intros _|intros [_ []]; done].
    repeat split; eauto.
Qed.

(** *** The accelerated speed slider *)

(** C8: saving a valid index of the speed list and loading it back
    returns the index, provided the store returns the speed that was
    set; the entries of the list are pairwise distinct. *)
Theorem accl_save_load_round_trip (i : Z) (p : prefs) :
  (∀ speed q, turbo_speed (set_turbo_speed speed q) = speed) →
  0 ≤ i < Z.of_nat (length accl_speeds_) →
  (∃ p', accl_save i p = Some p' ∧ accl_load p' = i)
  ∧ ∀ j k x y, accl_speeds_ !! j = Some x → accl_speeds_ !! k = Some y → j ≠ k →
      PrimFloat.eqb x y = false.
Proof.
  intros Hstore Hi. split.
  - unfold accl_save, accl_load.
    rewrite (proj2 (Z.ltb_ge i 0)) by lia.
    cbn [length accl_speeds_] in Hi.
    assert (∃ n, Z.to_nat i = n ∧ i = Z.of_nat n ∧ (n < 12)%nat) as (n & -> & -> & Hn)
      by (exists (Z.to_nat i); lia).
    do 12 (destruct n as [|n];
           [eexists; split; [reflexivity|]; rewrite Hstore; reflexivity|]).
    lia.
  - intros j k x y Hj Hk Hjk.
    do 12 (destruct j as [|j];
           [do 12 (destruct k as [|k];
                   [try done; cbn in Hj, Hk; injection Hj as <-; injection Hk as <-;
                    reflexivity|]);
            done|]).
    done.
Qed.

(** *** Advanced preferences of combo type *)

Lemma combo_choice_loop_ids (choices : list config) (menu_data : list config)
    (option_ids : list string) :
  (foldl combo_choice_step (menu_data, option_ids) choices).2 =
    option_ids ++ ((λ choice, attr choice "id") <$> choices).
Proof.
  revert menu_data option_ids.
  induction choices as [|choice choices IH]; intros menu_data option_ids.
  - cbn. by rewrite app_nil_r.
  - cbn [foldl]. unfold combo_choice_step at 2. rewrite IH, <- app_assoc. done.
Qed.

(** C4: for an advanced preference of combo type, the menu index
    selected at first is the position (the first one) of the stored
    value of the preference, or of the configured default when nothing
    is stored, among the ids of the choices, and index 0 when that value
    is not among the ids. The number of choices is assumed to fit an
    [int]. *)
Theorem combo_initial_selection (stored : gmap string string) (option : avp.option) :
  let option_ids :=
    (λ choice, attr choice "id") <$> child_range (avp.cfg option) "option" in
  let value :=
    match stored !! avp.field option with
    | Some value => value
    | None => attr (avp.cfg option) "default"
    end in
  let selected := menu_selected (initialize_combo stored option) in
  Z.of_nat (length option_ids) ≤ cxx.int_max →
  (∀ i, option_ids !! i = Some value →
        (∀ j, (j < i)%nat → option_ids !! j ≠ Some value) →
        selected = Z.of_nat i)
  ∧ (value ∉ option_ids → selected = 0).
Proof.
  intros option_ids value selected Hlen.
  assert (selected = combo_selected option_ids value) as ->.
  { subst selected. unfold initialize_combo.
    pose proof (combo_choice_loop_ids (child_range (avp.cfg option) "option") [] []) as Hids.
    destruct (foldl combo_choice_step ([], []) _) as [menu_data ids].
    cbn [snd app] in Hids. subst ids. cbn [menu_selected].
    unfold preferences_get, value, default. by destruct (stored !! avp.field option). }
  unfold combo_selected.
  split.
  - intros i Hi Hfirst.
    rewrite (find_distance_first _ _ _ i) by (done || apply String.eqb_eq).
    apply lookup_lt_Some in Hi.
    rewrite to_int_of_nat_length by done.
    rewrite to_int_in_range by (unfold cxx.in_int, cxx.int_min; lia).
    rewrite (proj2 (Z.ltb_ge _ 0)) by lia.
    destruct (Z.geb_spec (Z.of_nat i) (Z.of_nat (length option_ids))); [lia|done].
  - intros Habsent.
    rewrite find_distance_absent by (done || apply String.eqb_eq).
    rewrite to_int_of_nat_length by done.
    destruct (Z.geb_spec (Z.of_nat (length option_ids)) (Z.of_nat (length option_ids)));
      [|lia].
    by rewrite orb_true_r.
Qed.

(** *** The hotkey list: [setup_hotkey_list] *)

Lemma get_item_label_set_eq (id text : string) (data : widget_data) :
  get_item_label id (set_item_label id text data) = text.
Proof.
  unfold get_item_label, set_item_label.
  rewrite lookup_insert_eq. cbn [mbind option_bind]. by rewrite lookup_insert_eq.
Qed.

Lemma get_item_label_set_ne (id id' text : string) (data : widget_data) :
  id ≠ id' → get_item_label id (set_item_label id' text data) = get_item_label id data.
Proof.
  intros Hne. unfold get_item_label, set_item_label. by rewrite lookup_insert_ne.
Qed.

Lemma fill_hotkey_row_labels (gh eh mh : string) (hotkey_item : hotkey.hotkey_command)
    (row_data : widget_data) :
  let row := fill_hotkey_row gh eh mh hotkey_item row_data in
  get_item_label "lbl_desc" row = hotkey.description hotkey_item
  ∧ get_item_label "lbl_is_game" row =
      (if hotkey.scope_bits hotkey_item hotkey.SCOPE_GAME then gh else "")
  ∧ get_item_label "lbl_is_editor" row =
      (if hotkey.scope_bits hotkey_item hotkey.SCOPE_EDITOR then eh else "")
  ∧ get_item_label "lbl_is_mainmenu" row =
      (if hotkey.scope_bits hotkey_item hotkey.SCOPE_MAIN_MENU then mh else "").
Proof.
  unfold fill_hotkey_row. cbn zeta.
  repeat split;
    repeat (first [ rewrite get_item_label_set_eq; reflexivity
                  | rewrite get_item_label_set_ne by done ]).
Qed.

(** What the main loop of [setup_hotkey_list] adds: a row and a visible
    hotkey for each command that is not hidden, in the order of the
    commands. *)
Lemma setup_hotkey_loop_rows (gh eh mh : string)
    (commands : list (string * hotkey.hotkey_command)) (st : hotkey_setup) :
  let st' := foldl (setup_hotkey_step gh eh mh) st commands in
  let shown := filter (λ c, hotkey.hidden c = false) commands.*2 in
  setup_hotkeys st' = setup_hotkeys st ++ shown
  ∧ ∃ new_rows,
      rows (setup_list st') = rows (setup_list st) ++ new_rows
      ∧ Forall2 (λ row c, ∃ row_data, row = fill_hotkey_row gh eh mh c row_data)
          new_rows shown.
Proof.
  revert st. induction commands as [|[id c] commands IH]; intros st; cbn zeta.
  - cbn. rewrite app_nil_r. split; [done|]. exists []. by rewrite app_nil_r.
  - cbn [foldl]. destruct (IH (setup_hotkey_step gh eh mh st (id, c)))
      as (Hhk & new_rows & Hrows & Hall).
    rewrite Hhk, Hrows. rewrite fmap_cons. cbn [snd].
    unfold setup_hotkey_step. cbn [snd]. destruct (hotkey.hidden c) eqn:Hhidden.
    + rewrite filter_cons_False by (rewrite Hhidden; done).
      split; [done|]. by exists new_rows.
    + rewrite filter_cons_True by done. cbn [setup_hotkeys setup_list widgets.add_row rows].
      rewrite <- !app_assoc. split; [done|].
      eexists (_ :: new_rows). split; [done|].
      constructor; [by eexists|done].
Qed.

Lemma append_not_empty (s1 s2 : string) : s1 ≠ "" → s1 +:+ s2 ≠ "".
Proof. by destruct s1. Qed.

(** C6: [setup_hotkey_list] leaves exactly one row per hotkey command
    that is not hidden, in the order of the commands (and these
    commands are [visible_hotkeys_]); in each row the game, editor and
    main-menu scope cells are non-empty if and only if the scope flag of
    the command is set, and a non-empty cell is the green span around
    the translated initial of its own scope: "G" for the game, "E" for
    the editor and "M" for the main menu. *)
Theorem setup_hotkey_list_rows (d : preferences_dialog) :
  let shown := filter (λ c, hotkey.hidden c = false) get_hotkey_commands.*2 in
  let d' := setup_hotkey_list d in
  visible_hotkeys_ d' = shown
  ∧ length (rows (w_list_hotkeys d')) = length shown
  ∧ ∀ i c, shown !! i = Some c →
      ∃ row, rows (w_list_hotkeys d') !! i = Some row
        ∧ (get_item_label "lbl_is_game" row ≠ ""
           ↔ hotkey.scope_bits c hotkey.SCOPE_GAME = true)
        ∧ (get_item_label "lbl_is_editor" row ≠ ""
           ↔ hotkey.scope_bits c hotkey.SCOPE_EDITOR = true)
        ∧ (get_item_label "lbl_is_mainmenu" row ≠ ""
           ↔ hotkey.scope_bits c hotkey.SCOPE_MAIN_MENU = true)
        ∧ get_item_label "lbl_is_game" row =
            (if hotkey.scope_bits c hotkey.SCOPE_GAME
             then "<span color='#0f0'>" +:+ gettext "game_hotkeys^G" +:+ "</span>"
             else "")
        ∧ get_item_label "lbl_is_editor" row =
            (if hotkey.scope_bits c hotkey.SCOPE_EDITOR
             then "<span color='#0f0'>" +:+ gettext "editor_hotkeys^E" +:+ "</span>"
             else "")
        ∧ get_item_label "lbl_is_mainmenu" row =
            (if hotkey.scope_bits c hotkey.SCOPE_MAIN_MENU
             then "<span color='#0f0'>" +:+ gettext "mainmenu_hotkeys^M" +:+ "</span>"
             else "").
Proof.
  intros shown d'. subst d'. unfold setup_hotkey_list. cbn zeta.
  match goal with
  | |- context [foldl (setup_hotkey_step ?gh ?eh ?mh) ?st get_hotkey_commands] =>
      destruct (setup_hotkey_loop_rows gh eh mh get_hotkey_commands st)
        as (Hhk & new_rows & Hrows & Hall);
      set (st' := foldl (setup_hotkey_step gh eh mh) st get_hotkey_commands) in *
  end.
  cbn [set_hotkey_widgets visible_hotkeys_ w_list_hotkeys].
  cbn [setup_hotkeys setup_list widgets.clear rows app] in Hhk, Hrows.
  fold shown in Hhk, Hall. rewrite Hhk, Hrows.
  split; [done|]. split; [by eapply Forall2_length|].
  intros i c Hc.
  destruct (Forall2_lookup_r _ _ _ _ _ Hall Hc) as (row & Hrow & row_data & ->).
  eexists. split; [exact Hrow|].
  destruct (fill_hotkey_row_labels
              ("<span color='#0f0'>" +:+ gettext "game_hotkeys^G" +:+ "</span>")
              ("<span color='#0f0'>" +:+ gettext "editor_hotkeys^E" +:+ "</span>")
              ("<span color='#0f0'>" +:+ gettext "mainmenu_hotkeys^M" +:+ "</span>")
              c row_data) as (_ & -> & -> & ->).
  repeat split; try done; destruct (hotkey.scope_bits c _); try done;
    intros _; by apply append_not_empty.
Qed.

(** *** The hotkey list: [hotkey_filter_callback] *)

Lemma filter_words_all (description : string) (words : list string) :
  filter_words description words true = true
  ↔ ∀ word, word ∈ words → ci_search description word = true.
Proof.
  induction words as [|word words IH]; cbn [filter_words].
  - split; [|done]. intros _ word Hin. by apply elem_of_nil in Hin.
  - destruct (ci_search description word) eqn:Hfound; cbn [negb].
    + rewrite IH. split.
      * intros Hall w [->|Hin]%elem_of_cons; auto.
      * intros Hall w Hin. apply Hall. by right.
    + split; [done|]. intros Hall.
      rewrite <- Hfound. apply Hall. by left.
Qed.

Lemma category_index_found (category : Z) (cats : list Z) (i : nat) :
  NoDup cats → cats !! i = Some category →
  ∀ k, category_index category cats k = (k + i)%nat.
Proof.
  revert i. induction cats as [|cat cats IH]; intros i Hnodup Hi k; [done|].
  apply NoDup_cons in Hnodup as [Hcat Hnodup]. cbn [category_index].
  case_bool_decide as Heq.
  - subst cat. destruct i as [|i]; [lia|].
    destruct Hcat. by eapply list_elem_of_lookup_2.
  - destruct i as [|i]; [cbn in Hi; congruence|].
    rewrite (IH i) by done. lia.
Qed.

Lemma hotkey_filter_loop_before text toggles cats (hotkeys : list hotkey.hotkey_command) :
  ∀ (h : nat) (res : list bool) (j : nat), (j < h)%nat →
  hotkey_filter_loop text toggles cats hotkeys h res !! j = res !! j.
Proof.
  induction hotkeys as [|hotkey_item hotkeys IH]; intros h res j Hj; [done|].
  cbn [hotkey_filter_loop]. rewrite IH by lia. apply list_lookup_insert_ne. lia.
Qed.

(** The loop stores in [res[h]] the value computed for
    [visible_hotkeys_[h]]. *)
Lemma hotkey_filter_loop_row text toggles cats (hotkeys : list hotkey.hotkey_command) :
  ∀ (h : nat) (res : list bool) (k : nat) (hotkey_item : hotkey.hotkey_command),
  (h + length hotkeys ≤ length res)%nat →
  hotkeys !! k = Some hotkey_item →
  hotkey_filter_loop text toggles cats hotkeys h res !! (h + k)%nat =
    Some (hotkey_row_shown text toggles cats hotkey_item).
Proof.
  induction hotkeys as [|hk hotkeys IH]; intros h res k hotkey_item Hlen Hk; [done|].
  cbn [hotkey_filter_loop length] in *. destruct k as [|k].
  - injection Hk as ->. rewrite hotkey_filter_loop_before by lia.
    rewrite Nat.add_0_r. apply list_lookup_insert_eq. lia.
  - replace (h + S k)%nat with (S h + k)%nat by lia.
    apply IH; [rewrite length_insert; lia|done].
Qed.

Lemma bitset_none_spec (b : list bool) :
  bitset_none b = true ↔ ∀ i, b !! i ≠ Some true.
Proof.
  unfold bitset_none. rewrite forallb_forall. split.
  - intros Hall i Hi. apply list_elem_of_lookup_2, list_elem_of_In, Hall in Hi. done.
  - intros Hnone bit [i Hi]%list_elem_of_In%list_elem_of_lookup.
    destruct bit; [by destruct (Hnone i)|done].
Qed.

Lemma bitset_flip_none (b : list bool) (i : nat) :
  bitset_none b = true → (i < length b)%nat → bitset_flip b !! i = Some true.
Proof.
  intros Hnone Hi. pose proof (proj1 (bitset_none_spec b) Hnone) as Hoff.
  unfold bitset_flip. rewrite list_lookup_fmap.
  destruct (lookup_lt_is_Some_2 b i Hi) as [bit Hbit]. rewrite Hbit.
  destruct bit; [by destruct (Hoff i)|done].
Qed.

(** C1: in [hotkey_filter_callback], row [h] of the hotkey list is set
    shown if and only if the filter text is empty or every word it
    splits into is found, case-insensitively, in the description of
    hotkey [h], and the category of that hotkey is toggled on in the
    category menu, a menu with nothing toggled on counting every
    category as toggled on. The dialog is in a state that
    [setup_hotkey_list] leaves ([hotkeys_consistent]). *)
Theorem hotkey_filter_callback_rows (d : preferences_dialog) (h : nat)
    (hotkey_item : hotkey.hotkey_command) :
  hotkeys_consistent d →
  visible_hotkeys_ d !! h = Some hotkey_item →
  let text := text (w_filter d) in
  let toggles := toggle_states (w_hotkey_category_menu d) in
  let toggled_on (category : Z) :=
    (∀ i, toggles !! i ≠ Some true)
    ∨ ∃ i, visible_categories_ d !! i = Some category ∧ toggles !! i = Some true in
  ∃ shown,
    row_shown (w_list_hotkeys (hotkey_filter_callback d)) !! h = Some shown
    ∧ (shown = true
       ↔ (text = ""
          ∨ ∀ word, word ∈ split text " "%char →
              ci_search (hotkey.description hotkey_item) word = true)
         ∧ toggled_on (hotkey.category hotkey_item)).
Proof.
  intros (Hnodup & Hcats & Hlen) Hh text toggles toggled_on.
  eexists. split.
  { unfold hotkey_filter_callback.
    cbn [set_hotkey_widgets w_list_hotkeys widgets.set_row_shown row_shown].
    apply (hotkey_filter_loop_row _ _ _ _ 0%nat); [|done].
    rewrite length_replicate. lia. }
  fold text toggles.
  assert (hotkey.category hotkey_item ∈ visible_categories_ d) as Hcat
    by by eapply Hcats, list_elem_of_lookup_2.
  apply list_elem_of_lookup in Hcat as [ci Hci].
  assert (ci < length toggles)%nat as Hci_lt
    by (unfold toggles; rewrite Hlen; by eapply lookup_lt_Some).
  unfold hotkey_row_shown. rewrite (category_index_found _ _ ci) by done.
  cbn [Nat.add].
  assert ((if bool_decide (text ≠ "")
           then filter_words (hotkey.description hotkey_item) (split text " "%char) true
           else true) = true
          ↔ text = "" ∨ ∀ word, word ∈ split text " "%char →
              ci_search (hotkey.description hotkey_item) word = true) as Hfound.
  { case_bool_decide as Htext.
    - rewrite filter_words_all. split; [by right|]. by intros [?|?].
    - split; [by left|done]. }
  destruct (bitset_none toggles) eqn:Hnone.
  - rewrite bool_decide_true by (unfold bitset_flip; by rewrite length_fmap).
    rewrite bitset_flip_none by done. change (default false (Some true)) with true.
    rewrite andb_true_l.
    destruct (if bool_decide (text ≠ "") then _ else true) eqn:Hf; cbn [andb].
    + split; [intros _|done]. split; [by apply Hfound|].
      left. by apply bitset_none_spec.
    + split; [done|]. intros [Htext _]. apply Hfound in Htext. congruence.
  - rewrite bool_decide_true by done. rewrite andb_true_l.
    destruct (lookup_lt_is_Some_2 toggles ci Hci_lt) as [bit Hbit].
    rewrite Hbit. change (default false (Some bit)) with bit.
    destruct (if bool_decide (text ≠ "") then _ else true) eqn:Hf.
    + split.
      * intros ->. split; [by apply Hfound|]. right. by exists ci.
      * intros [_ [Hall|(i & Hi & Hon)]].
        -- apply bitset_none_spec in Hall. congruence.
        -- assert (i = ci) as -> by by eapply NoDup_lookup. congruence.
    + split; [done|]. intros [Htext _]. apply Hfound in Htext. congruence.
Qed.

(** *** [setup_hotkey_list] leaves a consistent dialog *)

Lemma set_emplace_elem (x : Z) (s : list Z) : x ∈ cxx.set_emplace Z.ltb x s.
Proof.
  induction s as [|y s IH]; cbn [cxx.set_emplace]; [by left|].
  destruct (Z.ltb_spec x y); [by left|].
  destruct (Z.ltb_spec y x); [by right|].
  replace x with y by lia. by left.
Qed.

Lemma set_emplace_keeps (x y : Z) (s : list Z) : y ∈ s → y ∈ cxx.set_emplace Z.ltb x s.
Proof.
  induction s as [|z s IH]; cbn [cxx.set_emplace]; [by intros ?%elem_of_nil|].
  intros Hy. destruct (Z.ltb_spec x z); [by right|].
  destruct (Z.ltb_spec z x); [|done].
  apply elem_of_cons in Hy as [->|Hy]; [by left|]. right. by apply IH.
Qed.

Lemma set_emplace_sorted (x : Z) (s : list Z) :
  StronglySorted Z.lt s → StronglySorted Z.lt (cxx.set_emplace Z.ltb x s).
Proof.
  induction 1 as [|y s Hs IH Hy]; cbn [cxx.set_emplace].
  - repeat constructor.
  - destruct (Z.ltb_spec x y) as [Hxy|Hxy].
    + constructor; [by constructor|]. constructor; [done|].
      eapply Forall_impl; [exact Hy|]. intros z Hz. cbn in Hz. lia.
    + destruct (Z.ltb_spec y x) as [Hyx|Hyx]; [|by constructor].
      constructor; [done|]. apply Forall_forall. intros z Hz.
      apply elem_of_set_emplace in Hz as [->|Hz]; [done|].
      by eapply Forall_forall in Hy.
Qed.

Lemma sorted_NoDup (s : list Z) : StronglySorted Z.lt s → NoDup s.
Proof.
  induction 1 as [|y s Hs IH Hy]; constructor; [|done].
  intros Hin. eapply Forall_forall in Hy; [|exact Hin]. cbn in Hy. lia.
Qed.

Lemma setup_hotkey_loop_categories (gh eh mh : string)
    (commands : list (string * hotkey.hotkey_command)) (st : hotkey_setup) :
  let st' := foldl (setup_hotkey_step gh eh mh) st commands in
  StronglySorted Z.lt (setup_categories st) →
  (∀ c, c ∈ setup_hotkeys st → hotkey.category c ∈ setup_categories st) →
  StronglySorted Z.lt (setup_categories st')
  ∧ ∀ c, c ∈ setup_hotkeys st' → hotkey.category c ∈ setup_categories st'.
Proof.
  revert st. induction commands as [|[id c] commands IH]; intros st; cbn zeta; [done|].
  intros Hsorted Hcats. cbn [foldl]. apply IH; unfold setup_hotkey_step; cbn [snd];
    destruct (hotkey.hidden c); try done; cbn [setup_categories setup_hotkeys].
  - by apply set_emplace_sorted.
  - intros c' [Hc'| ->%list_elem_of_singleton]%elem_of_app.
    + by apply set_emplace_keeps, Hcats.
    + apply set_emplace_elem.
Qed.

Lemma filter_ops_length (cats : list Z) (filter_ops : list config) :
  length (foldl (λ filter_ops cat,
                   filter_ops ++ [Config {[ "label" := get_translatable_category_name cat;
                                            "checkbox" := "no" ]} []])
            filter_ops cats)
  = (length filter_ops + length cats)%nat.
Proof.
  revert filter_ops. induction cats as [|cat cats IH]; intros filter_ops; cbn [foldl length].
  - lia.
  - rewrite IH, length_app. cbn [length]. lia.
Qed.

(** A dialog is consistent once the list has been set up. *)
Lemma setup_hotkey_list_consistent (d : preferences_dialog) :
  hotkeys_consistent (setup_hotkey_list d).
Proof.
  unfold setup_hotkey_list. cbn zeta.
  match goal with
  | |- context [foldl (setup_hotkey_step ?gh ?eh ?mh) ?st get_hotkey_commands] =>
      destruct (setup_hotkey_loop_categories gh eh mh get_hotkey_commands st)
        as [Hsorted Hcats];
      [constructor|by intros c ?%elem_of_nil|];
      set (st' := foldl (setup_hotkey_step gh eh mh) st get_hotkey_commands) in *
  end.
  unfold hotkeys_consistent.
  cbn [set_hotkey_widgets visible_categories_ visible_hotkeys_ w_hotkey_category_menu
       widgets.set_values toggle_states].
  split; [by apply sorted_NoDup|]. split; [done|].
  by rewrite length_replicate, filter_ops_length.
Qed.

(** Toggling a checkbox of the category menu keeps the dialog
    consistent. *)
Lemma toggle_category_consistent (d : preferences_dialog) (i : nat) (state : bool) :
  hotkeys_consistent d →
  hotkeys_consistent
    (set_hotkey_widgets (visible_hotkeys_ d) (visible_categories_ d)
       {| multimenu_values := multimenu_values (w_hotkey_category_menu d);
          toggle_states := <[i := state]> (toggle_states (w_hotkey_category_menu d)) |}
       (w_list_hotkeys d) d).
Proof.
  intros (Hnodup & Hcats & Hlen). unfold hotkeys_consistent.
  cbn [set_hotkey_widgets visible_categories_ visible_hotkeys_ w_hotkey_category_menu
       toggle_states].
  by rewrite length_insert.
Qed.

End preferences_dialog_properties.

(** ** More of the preferences dialog *)

(** *** Pages and tabs *)

Lemma index_in_pager_range_spec (first : Z) (pager : stacked_widget) :
  1 ≤ Z.of_nat (layer_count pager) ≤ 2 ^ 31 →
  index_in_pager_range first pager =
    Done (Z.max 0 (Z.min first (Z.of_nat (layer_count pager) - 1))).
Proof.
  intros Hn. unfold index_in_pager_range, std_clamp.
  rewrite Z.mod_small by lia.
  rewrite to_int_in_range by (unfold cxx.in_int, cxx.int_min, cxx.int_max; lia).
  destruct (Z.ltb_spec (Z.of_nat (layer_count pager) - 1) 0); [lia|].
  f_equal. destruct (Z.ltb_spec first 0); [lia|].
  destruct (Z.ltb_spec (Z.of_nat (layer_count pager) - 1) first); lia.
Qed.

(** X1: [index_in_pager_range] yields a layer of the pager: the index
    asked for when it is one, layer 0 for a negative index and the last
    layer for one past the end. The pager has at least one layer. *)
Theorem index_in_pager_range_bounds (first : Z) (pager : stacked_widget) :
  1 ≤ Z.of_nat (layer_count pager) ≤ 2 ^ 31 →
  let n := Z.of_nat (layer_count pager) in
  ∃ index,
    index_in_pager_range first pager = Done index
    ∧ 0 ≤ index < n
    ∧ (0 ≤ first < n → index = first)
    ∧ (first < 0 → index = 0)
    ∧ (n ≤ first → index = n - 1).
Proof.
  intros Hn n. eexists. split; [by apply index_in_pager_range_spec|]. lia.
Qed.

(** Without a layer the bounds handed to [std::clamp] are crossed. *)
Lemma index_in_pager_range_no_layer (first : Z) (pager : stacked_widget) :
  layer_count pager = 0%nat → index_in_pager_range first pager = Undefined.
Proof. intros Hn. unfold index_in_pager_range. by rewrite Hn. Qed.

Lemma pre_show_layer_spec (initial_index_ : Z * Z) (main_index : Z) (i : nat)
    (layer : pager_layer) :
  Z.of_nat i < 2 ^ 31 →
  (∀ tp, tab_pager layer = Some tp → is_Some (tab_selector layer) →
         1 ≤ Z.of_nat (layer_count tp) ≤ 2 ^ 31) →
  ∃ layer',
    pre_show_layer initial_index_ main_index i layer = Done layer'
    ∧ match tab_pager layer, tab_selector layer with
      | Some tp, Some ts =>
          ∃ to_select,
            tab_selector layer' = Some (widgets.select_row to_select ts)
            ∧ tab_pager layer' = Some (select_layer to_select tp)
            ∧ 0 ≤ to_select < Z.of_nat (layer_count tp)
            ∧ (Z.of_nat i ≠ main_index → to_select = 0)
            ∧ (Z.of_nat i = main_index →
               index_in_pager_range initial_index_.2 tp = Done to_select)
      | _, _ => layer' = layer
      end.
Proof.
  intros Hi Htabs. unfold pre_show_layer.
  destruct (tab_pager layer) as [tp|] eqn:Htp; [|by eexists].
  destruct (tab_selector layer) as [ts|] eqn:Hts; [|by eexists].
  specialize (Htabs tp eq_refl (ltac:(by eexists))).
  rewrite index_in_pager_range_spec by done. cbn [outcome_bind].
  rewrite to_int_in_range by (unfold cxx.in_int, cxx.int_min, cxx.int_max; lia).
  eexists. split; [done|]. cbn [tab_selector tab_pager].
  eexists. split; [done|]. split; [done|].
  destruct (Z.eqb_spec (Z.of_nat i) main_index); repeat split; try lia; try done.
Qed.

Lemma pre_show_layers_spec (initial_index_ : Z * Z) (main_index : Z)
    (layers : list pager_layer) :
  ∀ i : nat,
  Z.of_nat (i + length layers) ≤ 2 ^ 31 →
  (∀ layer tp, layer ∈ layers → tab_pager layer = Some tp → is_Some (tab_selector layer) →
               1 ≤ Z.of_nat (layer_count tp) ≤ 2 ^ 31) →
  ∃ layers',
    pre_show_layers initial_index_ main_index i layers = Done layers'
    ∧ length layers' = length layers
    ∧ ∀ k layer, layers !! k = Some layer →
        ∃ layer', layers' !! k = Some layer'
          ∧ pre_show_layer initial_index_ main_index (i + k) layer = Done layer'.
Proof.
  induction layers as [|layer layers IH]; intros i Hlen Htabs.
  - exists []. by repeat split.
  - cbn [pre_show_layers length] in *.
    destruct (pre_show_layer_spec initial_index_ main_index i layer) as (layer' & Hl & _);
      [lia|intros tp; apply Htabs; by left|].
    destruct (IH (S i)) as (layers' & Hls & Hlen' & Hk);
      [lia|intros l tp Hin; apply Htabs; by right|].
    rewrite Hl, Hls. cbn [outcome_bind].
    exists (layer' :: layers'). split; [done|]. split; [cbn; lia|].
    intros [|k] l Hlook; cbn in Hlook.
    + injection Hlook as <-. exists layer'. by rewrite Nat.add_0_r.
    + destruct (Hk k l Hlook) as (l' & Hl' & Hrun). exists l'. split; [done|].
      by replace (i + S k)%nat with (S i + k)%nat by lia.
Qed.

(** X2: [pre_show] selects the same page in the selector and in the
    pager, the initial page brought into range; on every page that has
    both a tab bar and a tab stack the two get the same tab, which is a
    layer of the stack: the initial tab brought into range on the initial
    page and tab 0 on the others. Pages without both are left alone. The
    selector has as many rows as the pager has layers, at least one, and
    no tab stack is without a layer. *)
Theorem pre_show_selects (initial_index_ : Z * Z) (w : page_widgets) :
  widgets.get_item_count (w_selector w) = length (w_pager_layers w) →
  1 ≤ Z.of_nat (length (w_pager_layers w)) ≤ 2 ^ 31 →
  (∀ layer tp, layer ∈ w_pager_layers w → tab_pager layer = Some tp →
               is_Some (tab_selector layer) →
               1 ≤ Z.of_nat (layer_count tp) ≤ 2 ^ 31) →
  ∃ w' main_index,
    pre_show initial_index_ w = Done w'
    ∧ main_index =
        Z.max 0 (Z.min initial_index_.1 (Z.of_nat (length (w_pager_layers w)) - 1))
    ∧ selected_row (w_selector w') = main_index
    ∧ w_pager_selected w' = main_index
    ∧ rows (w_selector w') = rows (w_selector w)
    ∧ length (w_pager_layers w') = length (w_pager_layers w)
    ∧ ∀ i layer, w_pager_layers w !! i = Some layer →
        ∃ layer', w_pager_layers w' !! i = Some layer'
          ∧ match tab_pager layer, tab_selector layer with
            | Some tp, Some ts =>
                ∃ to_select,
                  tab_selector layer' = Some (widgets.select_row to_select ts)
                  ∧ tab_pager layer' = Some (select_layer to_select tp)
                  ∧ 0 ≤ to_select < Z.of_nat (layer_count tp)
                  ∧ (Z.of_nat i ≠ main_index → to_select = 0)
                  ∧ (Z.of_nat i = main_index →
                     to_select =
                       Z.max 0 (Z.min initial_index_.2 (Z.of_nat (layer_count tp) - 1)))
            | _, _ => layer' = layer
            end.
Proof.
  intros Hcount Hn Htabs. unfold pre_show.
  rewrite bool_decide_true by done. cbn [negb].
  rewrite index_in_pager_range_spec by done. cbn [outcome_bind layer_count].
  set (main_index := Z.max 0 (Z.min initial_index_.1 _)).
  destruct (pre_show_layers_spec initial_index_ main_index (w_pager_layers w) 0)
    as (layers' & -> & Hlen & Hk); [cbn; lia|done|].
  cbn [outcome_bind]. eexists _, main_index. split; [done|]. repeat split; [done|].
  cbn [w_pager_layers]. intros i layer Hlook.
  destruct (Hk i layer Hlook) as (layer' & Hl' & Hrun). exists layer'. split; [done|].
  cbn [Nat.add] in Hrun.
  destruct (pre_show_layer_spec initial_index_ main_index i layer) as (layer'' & Hrun' & Hspec).
  { apply lookup_lt_Some in Hlook. lia. }
  { intros tp. apply Htabs. by eapply list_elem_of_lookup_2. }
  rewrite Hrun in Hrun'. injection Hrun' as <-.
  destruct (tab_pager layer) as [tp|] eqn:Htp; [|done].
  destruct (tab_selector layer) as [ts|] eqn:Hts; [|done].
  destruct Hspec as (to_select & ? & ? & ? & ? & Hmain).
  exists to_select. repeat split; try done; try lia.
  intros Hi. specialize (Hmain Hi).
  rewrite index_in_pager_range_spec in Hmain; [congruence|].
  eapply Htabs; [by eapply list_elem_of_lookup_2|done|by rewrite Hts].
Qed.

(** *** Resolutions *)

Lemma point_eqb_eq (a b : video.point) : video.point_eqb a b = true ↔ a = b.
Proof.
  unfold video.point_eqb. destruct a as [ax ay], b as [bx b_y]. cbn.
  rewrite andb_true_iff, !Z.eqb_eq. split; [by intros [-> ->]|by intros [= -> ->]].
Qed.

(** The option built for a resolution with positive sides. *)
Lemma resolution_option_spec (res : video.point) :
  0 < video.x res ≤ cxx.int_max → 0 < video.y res ≤ cxx.int_max →
  let g := Z.gcd (video.x res) (video.y res) in
  let x_ratio := video.x res / g in
  let y_ratio := video.y res / g in
  ∃ option,
    resolution_option res = Done option
    ∧ attr option "label" =
        pretty (video.x res) +:+ unicode_multiplication_sign +:+ pretty (video.y res)
    ∧ 0 < x_ratio ∧ 0 < y_ratio
    ∧ Z.gcd x_ratio y_ratio = 1
    ∧ x_ratio * video.y res = y_ratio * video.x res
    ∧ attributes option !! "details" =
        (if decide (x_ratio ≤ 10 ∨ y_ratio ≤ 10)
         then Some ("<span color='#777777'>(" +:+ pretty x_ratio +:+ ":" +:+ pretty y_ratio
                      +:+ ")</span>")
         else None).
Proof.
  intros Hx Hy g x_ratio y_ratio.
  assert (0 < g) as Hg.
  { pose proof (Z.gcd_nonneg (video.x res) (video.y res)).
    assert (g ≠ 0); [|lia]. intros Hg0. apply Z.gcd_eq_0_l in Hg0. lia. }
  destruct (Z.gcd_divide_l (video.x res) (video.y res)) as [a Ha].
  destruct (Z.gcd_divide_r (video.x res) (video.y res)) as [b Hb].
  fold g in Ha, Hb.
  assert (x_ratio = a) as Hxa by (unfold x_ratio; rewrite Ha at 1; by apply Z.div_mul; lia).
  assert (y_ratio = b) as Hyb by (unfold y_ratio; rewrite Hb at 1; by apply Z.div_mul; lia).
  assert (0 < x_ratio) by nia. assert (0 < y_ratio) by nia.
  assert (x_ratio ≤ video.x res) by nia. assert (y_ratio ≤ video.y res) by nia.
  unfold resolution_option. fold g.
  destruct (Z.eqb_spec g 0); [lia|].
  rewrite !Z.quot_div_nonneg by lia. fold x_ratio y_ratio.
  rewrite !to_int_in_range by (unfold cxx.in_int, cxx.int_min, cxx.int_max in *; lia).
  eexists. split; [done|].
  split.
  { unfold attr, set_attr. case_match; cbn [attributes].
    - rewrite lookup_insert_ne, lookup_insert_eq by done. by stream_norm.
    - rewrite lookup_insert_eq. by stream_norm. }
  split; [done|]. split; [done|].
  split; [by apply Z.gcd_div_gcd; lia|].
  split.
  { rewrite Hxa, Hyb. transitivity (a * b * g); [rewrite Hb|rewrite Ha]; lia. }
  destruct (decide (x_ratio ≤ 10 ∨ y_ratio ≤ 10)) as [Hsmall|Hbig].
  - assert ((x_ratio <=? 10) || (y_ratio <=? 10) = true) as ->
      by (apply orb_true_iff; rewrite !Z.leb_le; done).
    cbn [set_attr attributes]. rewrite lookup_insert_eq. by stream_norm.
  - assert ((x_ratio <=? 10) || (y_ratio <=? 10) = false) as ->.
    { apply orb_false_iff. rewrite !Z.leb_gt. lia. }
    cbn [set_attr attributes]. by rewrite lookup_insert_ne.
Qed.

Lemma resolution_options_spec (resolutions : list video.point) :
  (∀ res, res ∈ resolutions →
          0 < video.x res ≤ cxx.int_max ∧ 0 < video.y res ≤ cxx.int_max) →
  ∃ options,
    resolution_options resolutions = Done options
    ∧ length options = length resolutions
    ∧ ∀ i res, resolutions !! i = Some res →
        ∃ option, options !! i = Some option ∧ resolution_option res = Done option.
Proof.
  induction resolutions as [|res resolutions IH]; intros Hpos.
  - exists []. by repeat split.
  - destruct (Hpos res) as [Hx Hy]; [by left|].
    destruct (resolution_option_spec res Hx Hy) as (option & Hopt & _).
    destruct IH as (options & Hopts & Hlen & Hk); [intros r Hr; apply Hpos; by right|].
    cbn [resolution_options]. rewrite Hopt, Hopts. cbn [outcome_bind].
    exists (option :: options). split; [done|]. split; [cbn; lia|].
    intros [|i] r Hlook; cbn in Hlook.
    + injection Hlook as <-. by exists option.
    + by apply Hk.
Qed.

Section resolutions_properties.
Context `{Video}.

(** X3: for resolutions with positive sides, [set_resolution_list] gives
    the menu one option per resolution, in order, labelled "x×y"; the
    aspect ratio it computes is in lowest terms and is shown as details
    exactly when one of its two terms is at most 10. The entry selected is
    the first position of the current resolution, and one past the last
    option when the current resolution is not available. *)
Theorem set_resolution_list_ratios (res_list : menu_button) :
  (∀ res, res ∈ get_available_resolutions →
          0 < video.x res ≤ cxx.int_max ∧ 0 < video.y res ≤ cxx.int_max) →
  Z.of_nat (length get_available_resolutions) < 2 ^ 32 →
  ∃ menu,
    set_resolution_list res_list = Done (get_available_resolutions, menu)
    ∧ length (menu_values menu) = length get_available_resolutions
    ∧ (∀ i res, get_available_resolutions !! i = Some res →
         let g := Z.gcd (video.x res) (video.y res) in
         let x_ratio := video.x res / g in
         let y_ratio := video.y res / g in
         ∃ option,
           menu_values menu !! i = Some option
           ∧ attr option "label" =
               pretty (video.x res) +:+ unicode_multiplication_sign +:+ pretty (video.y res)
           ∧ Z.gcd x_ratio y_ratio = 1
           ∧ x_ratio * video.y res = y_ratio * video.x res
           ∧ attributes option !! "details" =
               (if decide (x_ratio ≤ 10 ∨ y_ratio ≤ 10)
                then Some ("<span color='#777777'>(" +:+ pretty x_ratio +:+ ":"
                             +:+ pretty y_ratio +:+ ")</span>")
                else None))
    ∧ (∀ i, get_available_resolutions !! i = Some current_resolution →
            (∀ j, (j < i)%nat → get_available_resolutions !! j ≠ Some current_resolution) →
            menu_selected menu = Z.of_nat i)
    ∧ (current_resolution ∉ get_available_resolutions →
       menu_selected menu = Z.of_nat (length get_available_resolutions)).
Proof.
  intros Hpos Hlen. unfold set_resolution_list.
  destruct (resolution_options_spec get_available_resolutions Hpos)
    as (options & -> & Hlen' & Hk).
  cbn [outcome_bind]. eexists. split; [done|]. cbn [menu_values menu_selected].
  split; [done|]. split; [|split].
  - intros i res Hlook.
    destruct (Hk i res Hlook) as (option & Hopt & Hrun). exists option. split; [done|].
    destruct (Hpos res) as [Hx Hy]; [by eapply list_elem_of_lookup_2|].
    destruct (resolution_option_spec res Hx Hy) as (option' & Hrun' & Hl & _ & _ & ? & ? & ?).
    rewrite Hrun in Hrun'. injection Hrun' as <-. done.
  - intros i Hi Hfirst.
    rewrite (find_distance_first _ _ _ i) by (done || apply point_eqb_eq).
    apply lookup_lt_Some in Hi. apply Z.mod_small. lia.
  - intros Habsent.
    rewrite find_distance_absent by (done || apply point_eqb_eq).
    apply Z.mod_small. lia.
Qed.

End resolutions_properties.

(** *** The friends list *)

Lemma append_eq_self (s t : string) : s +:+ t = s → t = "".
Proof.
  induction s as [|c s IH]; [done|]. rewrite append_cons. intros [= Heq]. by apply IH.
Qed.

Lemma remove_then_add_row {A} (x : A) (l : list A) (i : nat) :
  (i < length l)%nat → take i (delete i l) ++ x :: drop i (delete i l) = <[i := x]> l.
Proof.
  revert i. induction l as [|y l IH]; intros i Hi; [cbn in Hi; lia|].
  destruct i as [|i]; [done|]. cbn in *. f_equal. apply IH. lia.
Qed.

Lemma prefix_empty (s : string) : String.prefix "" s = true.
Proof. by destruct s. Qed.

Lemma index_space_append (nick rest : string) :
  String.index 0 " " nick = None →
  String.index 0 " " (nick +:+ String " " rest) = Some (String.length nick).
Proof.
  induction nick as [|c nick IH]; intros Hnone.
  - by destruct rest.
  - rewrite append_cons. cbn [String.index String.prefix String.length] in *.
    destruct (ascii_dec " " c).
    + by rewrite prefix_empty in Hnone.
    + destruct (String.index 0 " " nick); [done|]. by rewrite IH.
Qed.

Lemma substring_append_l (s t : string) : String.substring 0 (String.length s) (s +:+ t) = s.
Proof.
  induction s as [|c s IH]; [by destruct t|].
  rewrite append_cons. cbn [String.length String.substring]. by rewrite IH.
Qed.

Lemma substring_all (t : string) : String.substring 0 (String.length t) t = t.
Proof. induction t as [|c t IH]; [done|]. cbn. by rewrite IH. Qed.

Lemma substring_append_r (s t : string) (c : ascii) :
  String.substring (String.length s + 1)
    (String.length (s +:+ String c t) - (String.length s + 1)) (s +:+ String c t) = t.
Proof.
  induction s as [|a s IH].
  - rewrite append_nil_l. cbn [String.length Nat.add String.substring].
    replace (S (String.length t) - 1)%nat with (String.length t) by lia.
    apply substring_all.
  - rewrite !append_cons. cbn [String.length Nat.add Nat.sub String.substring]. apply IH.
Qed.

Section friends_list_properties.
Context `{Gettext, Hotkeys, Preferences, !Removal}.

Lemma update_friends_list_controls_rows (d : preferences_dialog) :
  rows (w_friends_list (update_friends_list_controls d)) = rows (w_friends_list d).
Proof.
  unfold update_friends_list_controls. cbn [w_friends_list]. by case_match.
Qed.

Lemma update_friends_list_controls_messages (d : preferences_dialog) :
  shown_messages (update_friends_list_controls d) = shown_messages d.
Proof. done. Qed.

(** X4: [update_friends_list_controls] keeps the rows; afterwards the
    remove button is active exactly when the list has a row, the notice
    that there are no friends is visible exactly when it has none, and
    the selected row is not past the last row. *)
Theorem update_friends_list_controls_invariant (d : preferences_dialog) :
  Z.of_nat (length (rows (w_friends_list d))) ≤ cxx.int_max →
  let d' := update_friends_list_controls d in
  let count := Z.of_nat (length (rows (w_friends_list d))) in
  rows (w_friends_list d') = rows (w_friends_list d)
  ∧ (w_remove_active d' = true ↔ rows (w_friends_list d) ≠ [])
  ∧ (w_no_friends_notice d' = visible ↔ rows (w_friends_list d) = [])
  ∧ (rows (w_friends_list d) ≠ [] →
     selected_row (w_friends_list d') = Z.min (count - 1) (selected_row (w_friends_list d))
     ∧ selected_row (w_friends_list d') < count)
  ∧ (rows (w_friends_list d) = [] → w_friends_list d' = w_friends_list d).
Proof.
  intros Hlen d' count. subst d'. split; [apply update_friends_list_controls_rows|].
  unfold update_friends_list_controls, widgets.get_item_count.
  cbn [w_remove_active w_no_friends_notice w_friends_list].
  destruct (rows (w_friends_list d)) as [|row rest] eqn:Hrows.
  - rewrite bool_decide_true by done. cbn [negb]. by repeat split.
  - rewrite bool_decide_false by done. cbn [negb widgets.select_row selected_row].
    repeat split; try done.
    + unfold cxx.int_sub. rewrite to_int_of_nat_length by done.
      rewrite to_int_in_range; [done|].
      unfold cxx.in_int, cxx.int_min. cbn [length] in *. lia.
    + unfold cxx.int_sub. rewrite to_int_of_nat_length by done.
      rewrite to_int_in_range; [subst count; lia|].
      unfold cxx.in_int, cxx.int_min. cbn [length] in *. lia.
Qed.

Lemma replace_friend_row_spec (nick : string) (data : widget_data)
    (remaining : list widget_data) :
  ∀ (i : nat) (list : listbox),
  drop i (rows list) = remaining →
  (∀ k row, remaining !! k = Some row →
     get_item_label "friend_name" row = nick →
     (∀ j row', (j < k)%nat → remaining !! j = Some row' →
                get_item_label "friend_name" row' ≠ nick) →
     rows (replace_friend_row nick data remaining i list) = <[(i + k)%nat := data]> (rows list))
  ∧ ((∀ row, row ∈ remaining → get_item_label "friend_name" row ≠ nick) →
     replace_friend_row nick data remaining i list = list).
Proof.
  induction remaining as [|row_grid remaining IH]; intros i list Hdrop.
  - split; [intros k row Hk; by rewrite lookup_nil in Hk|done].
  - assert (rows list !! i = Some row_grid) as Hi.
    { pose proof (lookup_drop (rows list) i 0) as Hl.
      rewrite Hdrop, Nat.add_0_r in Hl. done. }
    assert (drop (S i) (rows list) = remaining) as Hdrop'.
    { replace (S i) with (i + 1)%nat by lia. by rewrite <- drop_drop, Hdrop. }
    destruct (IH (S i) list Hdrop') as [IHfound IHnone].
    cbn [replace_friend_row]. split.
    + intros [|k] row Hk Hnick Hfirst.
      * injection Hk as ->. rewrite bool_decide_true by done.
        cbn [widgets.add_row widgets.remove_row rows]. rewrite Nat.add_0_r.
        apply remove_then_add_row. by eapply lookup_lt_Some.
      * rewrite bool_decide_false.
        -- rewrite (IHfound k row); [f_equal; lia|done|done|].
           intros j row' Hj. apply (Hfirst (S j)). lia.
        -- apply (Hfirst 0%nat); [lia|done].
    + intros Hnone. rewrite bool_decide_false by (apply Hnone; by left).
      apply IHnone. intros row Hrow. apply Hnone. by right.
Qed.

Lemma replace_friend_row_length (nick : string) (data : widget_data) (list : listbox) :
  length (rows (replace_friend_row nick data (rows list) 0 list)) = length (rows list).
Proof.
  destruct (replace_friend_row_spec nick data (rows list) 0 list eq_refl) as [Hfound Hnone].
  destruct (list_find (λ row, get_item_label "friend_name" row = nick) (rows list))
    as [[i row]|] eqn:Hfind.
  - apply list_find_Some in Hfind as (Hi & Hnick & Hfirst).
    rewrite (Hfound i row) by (done || (intros j row' Hj Hrow'; by eapply Hfirst)).
    apply length_insert.
  - rewrite Hnone; [done|]. intros row Hrow. rewrite list_find_None, Forall_forall in Hfind.
    by apply Hfind.
Qed.

(** X5: the loop of [add_friend_list_entry] that updates an entry
    replaces, in place, the first row whose name label is the nick, and
    leaves the list as it is when no row has that label; the number of
    rows never changes. *)
Theorem replace_friend_row_in_place (nick : string) (data : widget_data) (list : listbox) :
  let list' := replace_friend_row nick data (rows list) 0 list in
  (∀ i row, rows list !! i = Some row →
     get_item_label "friend_name" row = nick →
     (∀ j row', (j < i)%nat → rows list !! j = Some row' →
                get_item_label "friend_name" row' ≠ nick) →
     rows list' = <[i := data]> (rows list))
  ∧ ((∀ row, row ∈ rows list → get_item_label "friend_name" row ≠ nick) → list' = list)
  ∧ length (rows list') = length (rows list).
Proof.
  intros list'. subst list'.
  destruct (replace_friend_row_spec nick data (rows list) 0 list eq_refl) as [Hfound Hnone].
  split; [exact Hfound|]. split; [exact Hnone|]. apply replace_friend_row_length.
Qed.

Lemma map_emplace_fresh (key : string) (item : widget_item) (data : widget_data) :
  data !! key = None → map_emplace key item data = <[key := item]> data.
Proof. intros Hkey. unfold map_emplace. by rewrite Hkey. Qed.

(** The row of an entry, cell by cell. *)
Lemma get_friends_list_row_data_eq (entry : acquaintance) :
  let image := if decide (get_status entry = "ignore") then "ignore.png" else "friend.png" in
  let descriptor :=
    if decide (get_status entry = "ignore") then gettext "ignored" else gettext "friend" in
  let notes :=
    if decide (get_notes entry = "") then ""
    else " <small>(" +:+ get_notes entry +:+ ")</small>" in
  get_friends_list_row_data entry =
    <["friend_status" := {[ "label" := "<small>" +:+ descriptor +:+ "</small>";
                            "use_markup" := "true" ]}]>
      (<["friend_name" := {[ "label" := get_nick entry +:+ notes; "use_markup" := "true" ]}]>
         (<["friend_icon" := {[ "label" := "misc/status-" +:+ image;
                                "use_markup" := "true" ]}]> ∅)).
Proof.
  intros image descriptor notes. subst image descriptor notes.
  unfold get_friends_list_row_data.
  destruct (decide (get_status entry = "ignore")) as [Hst|Hst];
    [rewrite bool_decide_true by done|rewrite bool_decide_false by done];
    (destruct (decide (get_notes entry = "")) as [Hn|Hn];
     [rewrite bool_decide_false by (by intros ?)|rewrite bool_decide_true by done]);
    cbn beta iota zeta;
    rewrite (map_emplace_fresh "friend_icon") by apply lookup_empty;
    rewrite (map_emplace_fresh "friend_name") by (by rewrite lookup_insert_ne, lookup_empty);
    rewrite (map_emplace_fresh "friend_status")
      by (by rewrite !lookup_insert_ne, lookup_empty);
    by rewrite !insert_insert_eq, insert_empty.
Qed.

(** X16: a row of the friends list shows the status icon and word of the
    entry (ignored or friend), all three cells with markup, and the name
    cell is the bare nick exactly when the entry has no notes. *)
Theorem get_friends_list_row_data_cells (entry : acquaintance) :
  let data := get_friends_list_row_data entry in
  get_item_label "friend_icon" data =
    (if decide (get_status entry = "ignore")
     then "misc/status-ignore.png" else "misc/status-friend.png")
  ∧ get_item_label "friend_status" data =
      "<small>" +:+ (if decide (get_status entry = "ignore")
                     then gettext "ignored" else gettext "friend") +:+ "</small>"
  ∧ get_item_label "friend_name" data =
      get_nick entry +:+ (if decide (get_notes entry = "") then ""
                          else " <small>(" +:+ get_notes entry +:+ ")</small>")
  ∧ (get_item_label "friend_name" data = get_nick entry ↔ get_notes entry = "")
  ∧ (∀ id, id ∈ ["friend_icon"; "friend_name"; "friend_status"] →
           data !! id ≫= (.!! "use_markup") = Some "true")
  ∧ dom data = {[ "friend_icon"; "friend_name"; "friend_status" ]}.
Proof.
  intros data. subst data. rewrite get_friends_list_row_data_eq. cbn zeta.
  unfold get_item_label.
  split; [|split; [|split; [|split; [|split]]]].
  - rewrite !lookup_insert_ne, lookup_insert_eq by done. cbn [mbind option_bind].
    rewrite lookup_insert_eq. by case_decide.
  - rewrite lookup_insert_eq. cbn [mbind option_bind]. by rewrite lookup_insert_eq.
  - rewrite lookup_insert_ne, lookup_insert_eq by done. cbn [mbind option_bind].
    by rewrite lookup_insert_eq.
  - rewrite lookup_insert_ne, lookup_insert_eq by done. cbn [mbind option_bind].
    rewrite lookup_insert_eq. change (default "" (Some ?s)) with s.
    case_decide as Hn.
    + split; [done|]. intros _. apply append_nil_r.
    + split; [|done]. intros Heq%append_eq_self. discriminate.
  - intros id Hid. rewrite !elem_of_cons, elem_of_nil in Hid.
    destruct Hid as [->|[->|[->|[]]]].
    + by rewrite !lookup_insert_ne, lookup_insert_eq by done.
    + by rewrite lookup_insert_ne, lookup_insert_eq by done.
    + by rewrite lookup_insert_eq.
  - rewrite !dom_insert_L, dom_empty_L. set_solver.
Qed.

(** X6: when [add_acquaintance] accepts the username,
    [add_friend_list_entry] clears the textbox, shows no message and
    leaves the store as [add_acquaintance] left it; a new entry gets a row
    of its own at the end of the list, an updated one keeps the number of
    rows; with a row in the list the remove button is active and the
    notice hidden. *)
Theorem add_friend_list_entry_success (is_friend : bool) (textbox : text_box)
    (p p' : prefs) (d : preferences_dialog) (entry : acquaintance) (added_new : bool) :
  let input := text textbox in
  let username :=
    match String.index 0 " " input with
    | Some pos => String.substring 0 pos input
    | None => input
    end in
  let reason :=
    match String.index 0 " " input with
    | Some pos => String.substring (pos + 1) (String.length input - (pos + 1)) input
    | None => ""
    end in
  input ≠ "" →
  add_acquaintance username (if is_friend then "friend" else "ignore") reason p
    = (Some entry, added_new, p') →
  ∃ d',
    add_friend_list_entry is_friend textbox p d = (p', {| text := "" |}, d')
    ∧ shown_messages d' = shown_messages d
    ∧ (added_new = true →
       rows (w_friends_list d') = rows (w_friends_list d) ++ [get_friends_list_row_data entry]
       ∧ w_remove_active d' = true ∧ w_no_friends_notice d' = invisible)
    ∧ (added_new = false →
       rows (w_friends_list d') =
         rows (replace_friend_row (get_nick entry) (get_friends_list_row_data entry)
                 (rows (w_friends_list d)) 0 (w_friends_list d))
       ∧ length (rows (w_friends_list d')) = length (rows (w_friends_list d))).
Proof.
  intros input username reason Hinput Hadd.
  unfold add_friend_list_entry. fold input. rewrite bool_decide_false by done.
  replace (let '(reason0, username0) :=
             match String.index 0 " " input with
             | Some pos =>
                 (String.substring (pos + 1) (String.length input - (pos + 1)) input,
                  String.substring 0 pos input)
             | None => ("", input)
             end in _)
    with (let '(entry, added_new, p0) :=
            add_acquaintance username (if is_friend then "friend" else "ignore") reason p in
          match entry with
          | None =>
              (p0, textbox,
               show_transient_message (gettext "Error") (gettext "Invalid username") d)
          | Some entry =>
              (p0, widgets.clear_text textbox,
               update_friends_list_controls
                 (set_friends_list
                    (if added_new : bool
                     then widgets.add_row (get_friends_list_row_data entry) None
                            (w_friends_list d)
                     else replace_friend_row (get_nick entry)
                            (get_friends_list_row_data entry)
                            (rows (w_friends_list d)) 0 (w_friends_list d)) d))
          end)
    by (subst username reason; by destruct (String.index 0 " " input)).
  rewrite Hadd. eexists. split; [done|].
  rewrite update_friends_list_controls_messages, update_friends_list_controls_rows.
  cbn [set_friends_list shown_messages w_friends_list]. split; [done|]. split.
  - intros ->. cbn [widgets.add_row rows]. split; [done|].
    unfold update_friends_list_controls, widgets.get_item_count.
    cbn [w_remove_active w_no_friends_notice w_friends_list set_friends_list
         widgets.add_row rows].
    rewrite bool_decide_false; [done|]. rewrite length_app. cbn. lia.
  - intros ->. split; [done|]. apply replace_friend_row_length.
Qed.

Lemma initialize_friends_list_rows (acquaintances : list (string * acquaintance))
    (friends_list : listbox) :
  rows (foldl (λ friends_list entry,
                 widgets.add_row (get_friends_list_row_data entry.2) None friends_list)
          friends_list acquaintances)
  = rows friends_list ++ ((λ entry, get_friends_list_row_data entry.2) <$> acquaintances).
Proof.
  revert friends_list. induction acquaintances as [|entry acquaintances IH];
    intros friends_list; cbn [foldl fmap list_fmap].
  - by rewrite app_nil_r.
  - rewrite IH. cbn [widgets.add_row rows]. by rewrite <- app_assoc.
Qed.

(** X7: as [initialize_callbacks] fills it, the friends list has one row
    per acquaintance, in the order of the acquaintance map, with the
    remove button active exactly when there is one; selecting a row then
    puts the nick and the notes of the acquaintance of that row into the
    textbox, separated by a space. *)
Theorem initialize_friends_list_select (p : prefs) (d : preferences_dialog) :
  Z.of_nat (length (get_acquaintances p)) ≤ cxx.int_max →
  let d' := initialize_friends_list p d in
  rows (w_friends_list d') =
    (λ entry, get_friends_list_row_data entry.2) <$> get_acquaintances p
  ∧ (w_remove_active d' = true ↔ get_acquaintances p ≠ [])
  ∧ (w_no_friends_notice d' = visible ↔ get_acquaintances p = [])
  ∧ ∀ i who textbox, get_acquaintances p !! i = Some who →
      rows (w_friends_list d') !! i = Some (get_friends_list_row_data who.2)
      ∧ on_friends_list_select p (widgets.select_row (Z.of_nat i) (w_friends_list d')) textbox
        = Some {| text := get_nick who.2 +:+ " " +:+ get_notes who.2 |}.
Proof.
  intros Hlen d'.
  assert (rows (w_friends_list d') =
            (λ entry, get_friends_list_row_data entry.2) <$> get_acquaintances p) as Hrows.
  { subst d'. unfold initialize_friends_list.
    rewrite update_friends_list_controls_rows. cbn [set_friends_list w_friends_list].
    by rewrite initialize_friends_list_rows. }
  split; [exact Hrows|].
  assert (widgets.get_item_count
            (foldl (λ friends_list entry,
                      widgets.add_row (get_friends_list_row_data entry.2) None friends_list)
               (widgets.clear (w_friends_list d)) (get_acquaintances p))
          = length (get_acquaintances p)) as Hcount.
  { unfold widgets.get_item_count. rewrite initialize_friends_list_rows.
    cbn [widgets.clear rows app]. apply length_fmap. }
  split; [|split].
  - subst d'. unfold initialize_friends_list, update_friends_list_controls.
    cbn [w_remove_active set_friends_list w_friends_list]. rewrite Hcount.
    destruct (get_acquaintances p); [by rewrite bool_decide_true|].
    by rewrite bool_decide_false.
  - subst d'. unfold initialize_friends_list, update_friends_list_controls.
    cbn [w_no_friends_notice set_friends_list w_friends_list]. rewrite Hcount.
    destruct (get_acquaintances p); [by rewrite bool_decide_true|].
    by rewrite bool_decide_false.
  - intros i who textbox Hwho. split.
    + rewrite Hrows, list_lookup_fmap, Hwho. done.
    + pose proof (lookup_lt_Some _ _ _ Hwho) as Hi.
      unfold on_friends_list_select. cbn [widgets.select_row selected_row].
      rewrite to_int_of_nat_length by done.
      rewrite (proj2 (Z.ltb_ge _ 0)) by lia.
      destruct (Z.geb_spec (Z.of_nat i) (Z.of_nat (length (get_acquaintances p)))); [lia|].
      cbn [orb]. rewrite Nat2Z.id, Hwho. done.
Qed.

(** X8: what selecting a row writes into the textbox, a nick without a
    space, a space and the notes, is read back by [add_friend_list_entry]
    as that nick and those notes: the store is the one [add_acquaintance]
    leaves when called with them, and the textbox is cleared when the
    entry is accepted. *)
Theorem select_add_round_trip (is_friend : bool) (nick notes : string)
    (p : prefs) (d : preferences_dialog) :
  String.index 0 " " nick = None →
  let mode := if is_friend then "friend" else "ignore" in
  let result := add_friend_list_entry is_friend {| text := nick +:+ " " +:+ notes |} p d in
  result.1.1 = (add_acquaintance nick mode notes p).2
  ∧ (is_Some (add_acquaintance nick mode notes p).1.1 → result.1.2 = {| text := "" |})
  ∧ ((add_acquaintance nick mode notes p).1.1 = None →
     result.1.2 = {| text := nick +:+ " " +:+ notes |}).
Proof.
  intros Hnick mode result. subst result. unfold add_friend_list_entry. cbn [text].
  change (" " +:+ notes) with (String " " notes).
  rewrite bool_decide_false by (intros Heq; by destruct nick).
  rewrite index_space_append by done.
  rewrite substring_append_l, substring_append_r. fold mode.
  destruct (add_acquaintance nick mode notes p) as [[[entry|] added_new] p'];
    cbn [fst snd]; repeat split; done.
Qed.

(** X9: [remove_friend_list_entry] removes the name in the textbox or,
    when the textbox is empty, the nick of the acquaintance at the
    selected row (row 0 when none is selected). When [remove_acquaintance]
    refuses, one message is shown and textbox and list stay as they are;
    otherwise the textbox is cleared and the selected row, whatever name
    was removed, leaves the list. The selected row indexes an
    acquaintance. *)
Theorem remove_friend_list_entry_row (textbox : text_box) (p : prefs)
    (d : preferences_dialog) (who : string * acquaintance) :
  let row := Z.max 0 (selected_row (w_friends_list d)) in
  let to_remove := if decide (text textbox = "") then get_nick who.2 else text textbox in
  get_acquaintances p !! Z.to_nat row = Some who →
  to_remove ≠ "" →
  ∃ d',
    remove_friend_list_entry textbox p d =
      Done ((remove_acquaintance to_remove p).2,
            (if (remove_acquaintance to_remove p).1 then {| text := "" |} else textbox),
            d')
    ∧ ((remove_acquaintance to_remove p).1 = false →
       w_friends_list d' = w_friends_list d
       ∧ ∃ title message, shown_messages d' = shown_messages d ++ [(title, message)])
    ∧ ((remove_acquaintance to_remove p).1 = true →
       rows (w_friends_list d') = delete (Z.to_nat row) (rows (w_friends_list d))
       ∧ shown_messages d' = shown_messages d).
Proof.
  intros row to_remove Hwho Hname. unfold remove_friend_list_entry. fold row.
  pose proof (lookup_lt_Some _ _ _ Hwho) as Hrow.
  destruct (Z.ltb_spec (Z.of_nat (length (get_acquaintances p))) row); [lia|].
  rewrite Hwho.
  assert ((if bool_decide (text textbox ≠ "") then Done (text textbox)
           else Done (get_nick who.2)) = Done to_remove) as ->.
  { subst to_remove. case_bool_decide; case_decide; done. }
  cbn [outcome_bind]. rewrite bool_decide_false by done.
  destruct (remove_acquaintance to_remove p) as [[] p']; cbn [negb fst snd].
  - eexists. split; [done|]. split; [done|]. intros _.
    rewrite update_friends_list_controls_rows, update_friends_list_controls_messages.
    done.
  - eexists. split; [done|]. split; [|done]. intros _. split; [done|]. by eexists _, _.
Qed.

End friends_list_properties.

(** *** The advanced preferences list *)

Section advanced_properties.
Context `{Gettext, Hotkeys, Preferences, !Removal}.


End advanced_properties.

(** *** Combo preferences and the speed slider *)

Lemma find_distance_le {A} (eqb : A → A → bool) (x : A) (l : list A) :
  (cxx.find_distance eqb x l ≤ length l)%nat.
Proof. induction l as [|y l IH]; cbn; [lia|]. destruct (eqb y x); lia. Qed.

(** Where [std::find] stops there is an element equal to the one looked
    for, and there is such an element whenever it stops before the end. *)
Lemma find_distance_found {A} (eqb : A → A → bool) (x : A) (l : list A) :
  (cxx.find_distance eqb x l < length l)%nat
  ↔ ∃ y, y ∈ l ∧ eqb y x = true.
Proof.
  induction l as [|z l IH]; cbn [cxx.find_distance length].
  - split; [lia|]. intros (y & Hy & _). by apply elem_of_nil in Hy.
  - destruct (eqb z x) eqn:Hz.
    + split; [|lia]. intros _. exists z. split; [by left|done].
    + rewrite <- Nat.succ_lt_mono, IH. split.
      * intros (y & Hy & Heq). exists y. split; [by right|done].
      * intros (y & [->|Hy]%elem_of_cons & Heq); [congruence|]. by exists y.
Qed.

Lemma find_distance_lookup {A} (eqb : A → A → bool) (x : A) (l : list A) :
  (cxx.find_distance eqb x l < length l)%nat →
  ∃ y, l !! cxx.find_distance eqb x l = Some y ∧ eqb y x = true.
Proof.
  induction l as [|z l IH]; cbn [cxx.find_distance length]; [lia|].
  destruct (eqb z x) eqn:Hz.
  - intros _. by exists z.
  - intros Hlt. apply IH. lia.
Qed.

Section slider_and_combo_properties.
Context `{Gettext, Hotkeys, Preferences}.

(** X13: [accl_load] yields a position of the speed list or, when the
    stored speed is none of the speeds of the list, the position one past
    its end; a position of the list is that of a speed equal to the
    stored one, so saving what was loaded stores an equal speed.
    [accl_save] is defined on the positions of the list only. *)
Theorem accl_load_save (p : prefs) (i : Z) :
  0 ≤ accl_load p ≤ 12
  ∧ (accl_load p < 12
     ↔ ∃ speed, speed ∈ accl_speeds_ ∧ PrimFloat.eqb speed (turbo_speed p) = true)
  ∧ (accl_load p < 12 →
     ∃ speed,
       accl_speeds_ !! Z.to_nat (accl_load p) = Some speed
       ∧ PrimFloat.eqb speed (turbo_speed p) = true
       ∧ accl_save (accl_load p) p = Some (set_turbo_speed speed p))
  ∧ (accl_save i p = None ↔ i < 0 ∨ 12 ≤ i).
Proof.
  pose proof (find_distance_le PrimFloat.eqb (turbo_speed p) accl_speeds_) as Hle.
  change (length accl_speeds_) with 12%nat in Hle.
  assert (accl_load p =
            Z.of_nat (cxx.find_distance PrimFloat.eqb (turbo_speed p) accl_speeds_)) as Hload.
  { unfold accl_load. apply to_int_in_range.
    unfold cxx.in_int, cxx.int_min, cxx.int_max. lia. }
  rewrite Hload. split; [lia|]. split; [|split].
  - rewrite <- find_distance_found. change (length accl_speeds_) with 12%nat. lia.
  - intros Hlt.
    destruct (find_distance_lookup PrimFloat.eqb (turbo_speed p) accl_speeds_)
      as (speed & Hspeed & Heq); [change (length accl_speeds_) with 12%nat; lia|].
    exists speed. rewrite Nat2Z.id. split; [done|]. split; [done|].
    unfold accl_save. rewrite (proj2 (Z.ltb_ge _ 0)) by lia.
    by rewrite Nat2Z.id, Hspeed.
  - unfold accl_save. destruct (Z.ltb_spec i 0); [by split; [left|]|].
    destruct (accl_speeds_ !! Z.to_nat i) as [speed|] eqn:Hi; cbn [mbind option_bind].
    + apply lookup_lt_Some in Hi. change (length accl_speeds_) with 12%nat in Hi.
      split; [done|lia].
    + apply lookup_ge_None in Hi. change (length accl_speeds_) with 12%nat in Hi.
      split; [lia|done].
Qed.


Lemma combo_choice_loop_menu (choices : list config) (menu_data : list config)
    (option_ids : list string) :
  (foldl combo_choice_step (menu_data, option_ids) choices).1 =
    menu_data
    ++ ((λ choice,
           let menu_item := set_attr "label" (attr choice "name") (Config ∅ []) in
           if has_attribute choice "description"
           then set_attr "details"
                  ("<span color='#777'>" +:+ attr choice "description" +:+ "</span>") menu_item
           else menu_item) <$> choices).
Proof.
  revert menu_data option_ids.
  induction choices as [|choice choices IH]; intros menu_data option_ids.
  - cbn. by rewrite app_nil_r.
  - cbn [foldl]. unfold combo_choice_step at 2. rewrite IH, <- app_assoc. done.
Qed.

(** X11: the menu of a combo preference has one entry per choice, in
    order, labelled with the name of the choice and carrying its
    description, when it has one, as details; the entry selected at first
    is an entry of the menu whenever there is one, and 0 for a menu
    without entries. *)
Theorem initialize_combo_menu (stored : gmap string string) (option : avp.option) :
  let choices := child_range (avp.cfg option) "option" in
  Z.of_nat (length choices) ≤ cxx.int_max →
  let menu := initialize_combo stored option in
  length (menu_values menu) = length choices
  ∧ (∀ i choice, choices !! i = Some choice →
       ∃ item,
         menu_values menu !! i = Some item
         ∧ attr item "label" = attr choice "name"
         ∧ attributes item !! "details" =
             (if has_attribute choice "description"
              then Some ("<span color='#777'>" +:+ attr choice "description" +:+ "</span>")
              else None))
  ∧ 0 ≤ menu_selected menu
  ∧ (choices ≠ [] → menu_selected menu < Z.of_nat (length choices))
  ∧ menu_use_markup menu = true.
Proof.
  intros choices Hlen menu. subst menu. unfold initialize_combo. fold choices.
  pose proof (combo_choice_loop_menu choices [] []) as Hmenu.
  pose proof (combo_choice_loop_ids choices [] []) as Hids.
  destruct (foldl combo_choice_step ([], []) choices) as [menu_data option_ids].
  cbn [fst snd app] in Hmenu, Hids. subst menu_data option_ids.
  cbn [menu_values menu_selected menu_use_markup].
  split; [by rewrite length_fmap|]. split; [|split; [|split; [|done]]].
  - intros i choice Hchoice. rewrite list_lookup_fmap, Hchoice.
    cbn [fmap option_fmap option_map].
    eexists. split; [done|]. unfold attr, set_attr.
    destruct (has_attribute choice "description"); cbn [attributes].
    + rewrite lookup_insert_ne, !lookup_insert_eq by done. done.
    + rewrite lookup_insert_eq, lookup_insert_ne, lookup_empty by done. done.
  - unfold combo_selected. case_match eqn:Hreset; [done|].
    apply orb_false_iff in Hreset as [Hneg _]. by apply Z.ltb_ge in Hneg.
  - intros Hne. unfold combo_selected. rewrite !length_fmap.
    rewrite (to_int_of_nat_length choices) by done.
    case_match eqn:Hreset.
    + destruct choices; [done|]. cbn [length]. lia.
    + apply orb_false_iff in Hreset as [_ Hlt]. rewrite Z.geb_leb in Hlt.
      by apply Z.leb_gt in Hlt.
Qed.






End slider_and_combo_properties.

(** *** More on the hotkey list *)

Section hotkey_list_properties.
Context `{Gettext, Hotkeys, Preferences}.



Lemma elem_of_set_emplace_Z (x y : Z) (s : list Z) :
  y ∈ cxx.set_emplace Z.ltb x s ↔ y = x ∨ y ∈ s.
Proof.
  split; [apply elem_of_set_emplace|].
  intros [->|Hy]; [apply set_emplace_elem|by apply set_emplace_keeps].
Qed.

Lemma setup_hotkey_loop_category_set (gh eh mh : string)
    (commands : list (string * hotkey.hotkey_command)) (st : hotkey_setup) :
  ∀ cat,
  cat ∈ setup_categories (foldl (setup_hotkey_step gh eh mh) st commands)
  ↔ cat ∈ setup_categories st
    ∨ ∃ c, c ∈ filter (λ c, hotkey.hidden c = false) commands.*2 ∧ hotkey.category c = cat.
Proof.
  revert st. induction commands as [|[id c] commands IH]; intros st cat.
  - cbn. split; [auto|]. intros [?|(c & Hc & _)]; [done|]. by apply elem_of_nil in Hc.
  - cbn [foldl]. rewrite IH, fmap_cons. cbn [snd]. unfold setup_hotkey_step. cbn [snd].
    destruct (hotkey.hidden c) eqn:Hhidden.
    + rewrite filter_cons_False by (by rewrite Hhidden). done.
    + rewrite filter_cons_True by done. cbn [setup_categories].
      rewrite elem_of_set_emplace_Z. split.
      * intros [[->|?]|(c' & Hc' & Hcat)]; [|by left|].
        -- right. exists c. split; [by left|done].
        -- right. exists c'. split; [by right|done].
      * intros [?|(c' & [->|Hc']%elem_of_cons & Hcat)]; [by left; right| |].
        -- left. by left.
        -- right. by exists c'.
Qed.

Lemma filter_ops_labels (cats : list Z) (filter_ops : list config) :
  foldl (λ filter_ops cat,
           filter_ops ++ [Config {[ "label" := get_translatable_category_name cat;
                                    "checkbox" := "no" ]} []])
    filter_ops cats
  = filter_ops
    ++ ((λ cat, Config {[ "label" := get_translatable_category_name cat;
                          "checkbox" := "no" ]} []) <$> cats).
Proof.
  revert filter_ops. induction cats as [|cat cats IH]; intros filter_ops; cbn [foldl].
  - by rewrite app_nil_r.
  - by rewrite IH, fmap_cons, <- app_assoc.
Qed.

(** X15: after [setup_hotkey_list], [visible_categories_] holds exactly
    the categories of the hotkey commands that are not hidden, each once
    and in ascending order; the category menu has one entry per category,
    in that order, labelled with the name of the category, and nothing is
    toggled. Setting the list up again gives the same dialog. *)
Theorem setup_hotkey_list_categories (d : preferences_dialog) :
  let shown := filter (λ c, hotkey.hidden c = false) get_hotkey_commands.*2 in
  let d' := setup_hotkey_list d in
  StronglySorted Z.lt (visible_categories_ d')
  ∧ (∀ cat, cat ∈ visible_categories_ d' ↔ ∃ c, c ∈ shown ∧ hotkey.category c = cat)
  ∧ (λ item, attr item "label") <$> multimenu_values (w_hotkey_category_menu d')
    = get_translatable_category_name <$> visible_categories_ d'
  ∧ toggle_states (w_hotkey_category_menu d')
    = replicate (length (visible_categories_ d')) false
  ∧ setup_hotkey_list d' = d'.
Proof.
  intros shown d'. subst d'. split; [|split; [|split; [|split]]].
  5: reflexivity.
  all: unfold setup_hotkey_list; cbn zeta.
  all: match goal with
       | |- context [foldl (setup_hotkey_step ?gh ?eh ?mh) ?st get_hotkey_commands] =>
           destruct (setup_hotkey_loop_categories gh eh mh get_hotkey_commands st)
             as [Hsorted _]; [constructor|by intros c ?%elem_of_nil|];
           pose proof (setup_hotkey_loop_category_set gh eh mh get_hotkey_commands st)
             as Hset;
           set (st' := foldl (setup_hotkey_step gh eh mh) st get_hotkey_commands) in *
       end.
  all: cbn [set_hotkey_widgets visible_categories_ w_hotkey_category_menu
            widgets.set_values multimenu_values toggle_states].
  - done.
  - intros cat. rewrite Hset. cbn [setup_categories]. split; [|by right].
    intros [?%elem_of_nil|?]; done.
  - rewrite filter_ops_labels. cbn [app].
    rewrite <- list_fmap_compose. apply list_fmap_ext. intros _ cat _. cbn.
    unfold attr. cbn [attributes]. by rewrite lookup_insert_eq.
  - rewrite filter_ops_labels. cbn [app]. by rewrite length_fmap.
Qed.

End hotkey_list_properties.

(** ** More of the unit preview pane *)

Section terrain_listing.
Context `{Gettext, UnitHelpers, Terrains}.

Lemma mp_collect_listed tdata (get : terrain_code → Z) (terrains : list terrain_code) :
  ∀ (terrain_moves : list terrain_movement) (tm : terrain_movement),
  tm ∈ foldl (mp_collect_step tdata get) terrain_moves terrains →
  tm ∈ terrain_moves
  ∨ ∃ terrain,
      terrain ∈ terrains
      ∧ terrain ≠ FOGGED ∧ terrain ≠ VOID_TERRAIN ∧ matches_all_off_map terrain = false
      ∧ is_indivisible (tdata terrain) = true ∧ is_nonnull (tdata terrain) = true
      ∧ tm = {| tm_name := terrain_name (tdata terrain); tm_moves := get terrain |}.
Proof.
  induction terrains as [|terrain terrains IH]; intros terrain_moves tm; cbn [foldl].
  - auto.
  - intros [Hin|(t & Ht & Hrest)]%IH.
    + unfold mp_collect_step in Hin.
      destruct (bool_decide (terrain = FOGGED)) eqn:Hfog; [by left|].
      destruct (bool_decide (terrain = VOID_TERRAIN)) eqn:Hvoid; [by left|].
      destruct (matches_all_off_map terrain) eqn:Hoff; [by left|].
      destruct (is_indivisible (tdata terrain)) eqn:Hind; [|by left].
      destruct (is_nonnull (tdata terrain)) eqn:Hnn; [|by left].
      cbn [orb andb] in Hin.
      apply elem_of_set_emplace in Hin as [->|Hin]; [|by left].
      apply bool_decide_eq_false in Hfog, Hvoid.
      right. exists terrain. split; [by left|done].
    + right. exists t. split; [by right|done].
Qed.

(** X17: [get_mp_tooltip] is empty when the terrain data cannot be
    loaded; otherwise every terrain it lists is an encountered terrain
    that is neither fogged, void nor off the map, is indivisible and
    non-null, and is listed under its own name with the cost the unit
    pays on it. *)
Theorem get_mp_tooltip_listed (T : Z) (get : terrain_code → Z) :
  (load_terrain_types_data = None → get_mp_tooltip T get = "")
  ∧ ∀ tdata, load_terrain_types_data = Some tdata →
      get_mp_tooltip T get =
        foldl (mp_tooltip_step T) ("<big>" +:+ gettext "Movement Costs:" +:+ "</big>")
          (foldl (mp_collect_step tdata get) [] encountered_terrains)
      ∧ ∀ tm, tm ∈ foldl (mp_collect_step tdata get) [] encountered_terrains →
          ∃ terrain,
            terrain ∈ encountered_terrains
            ∧ terrain ≠ FOGGED ∧ terrain ≠ VOID_TERRAIN
            ∧ matches_all_off_map terrain = false
            ∧ is_indivisible (tdata terrain) = true ∧ is_nonnull (tdata terrain) = true
            ∧ tm_name tm = terrain_name (tdata terrain) ∧ tm_moves tm = get terrain.
Proof.
  split.
  - intros Hload. unfold get_mp_tooltip. by rewrite Hload.
  - intros tdata Hload. split.
    + unfold get_mp_tooltip. rewrite Hload. by stream_norm.
    + intros tm [Hin|(terrain & ? & ? & ? & ? & ? & ? & ->)]%mp_collect_listed.
      * by apply elem_of_nil in Hin.
      * exists terrain. by repeat split.
Qed.

End terrain_listing.

(** *** The details tree *)

Lemma add_children_spec {A} (f : A → tree_view_node) (l : list A) (node : tree_view_node) :
  foldl (λ node a, add_child (f a) node) node l
  = TreeNode (node_type node) (node_data node) (node_children node ++ (f <$> l)).
Proof.
  revert node. induction l as [|a l IH]; intros node; cbn [foldl fmap list_fmap].
  - rewrite app_nil_r. by destruct node.
  - rewrite IH. unfold add_child. cbn [node_type node_data node_children].
    by rewrite <- app_assoc.
Qed.

Section details_tree_properties.
Context `{Gettext, UnitHelpers, AttackHelpers}.

Lemma attack_subsection_children (a : attack_type) :
  node_children (attack_subsection a) =
    (if image_file_exists
          ("icons/profiles/" +:+ attack_range a +:+ "_attack.png~SCALE_INTO(16,16)")
        && image_file_exists
             ("icons/profiles/" +:+ attack_type_id a +:+ ".png~SCALE_INTO(16,16)")
     then []
     else [name_tree_node "item"
             (span_color weapon_details_color
                +:+ string_table ("range_" +:+ attack_range a) +:+ weapon_details_sep
                +:+ string_table ("type_" +:+ attack_type_id a) +:+ "</span>") ""])
    ++ ((λ pair,
           name_tree_node "item"
             (span_color weapon_details_color +:+ pair.1 +:+ "</span>")
             ("<span size='x-large'>" +:+ pair.1 +:+ "</span>" +:+ NL +:+ pair.2))
        <$> attack_special_tooltips a).
Proof.
  unfold attack_subsection. cbn zeta. unfold add_name_tree_node.
  rewrite (add_children_spec
             (λ pair, name_tree_node "item"
                        ("" <<< span_color weapon_details_color <<< pair.1 <<< "</span>")
                        ("" <<< "<span size='x-large'>" <<< pair.1 <<< "</span>"
                            <<< NL <<< pair.2))).
  cbn [node_children]. f_equal.
  - destruct (image_file_exists _), (image_file_exists _); cbn [negb orb andb];
      try done; cbn [add_child set_node_tooltip node_children app]; by stream_norm.
  - apply list_fmap_ext. intros _ pair _. by stream_norm.
Qed.

Lemma attack_subsection_data (a : attack_type) :
  node_type (attack_subsection a) = "item_image"
  ∧ node_data (attack_subsection a) =
      {[ "image_range" :=
           {[ "label" := "icons/profiles/" +:+ attack_range a
                           +:+ "_attack.png~SCALE_INTO(16,16)";
              "tooltip" := string_table ("range_" +:+ attack_range a) ]};
         "image_type" :=
           {[ "label" := "icons/profiles/" +:+ attack_type_id a
                           +:+ ".png~SCALE_INTO(16,16)";
              "tooltip" := string_table ("type_" +:+ attack_type_id a) ]};
         "name" :=
           {[ "label" := span_color unit_type_color +:+ pretty (attack_damage a)
                           +:+ weapon_numbers_sep +:+ pretty (attack_num_attacks a)
                           +:+ " " +:+ attack_name a +:+ "</span>";
              "use_markup" := "true" ]} ]}.
Proof.
  unfold attack_subsection. cbn zeta. unfold add_name_tree_node.
  rewrite (add_children_spec
             (λ pair, name_tree_node "item"
                        ("" <<< span_color weapon_details_color <<< pair.1 <<< "</span>")
                        ("" <<< "<span size='x-large'>" <<< pair.1 <<< "</span>"
                            <<< NL <<< pair.2))).
  cbn [node_type node_data].
  destruct (image_file_exists _), (image_file_exists _);
    cbn [negb orb add_child set_node_tooltip node_type node_data]; (split; [done|]);
    stream_norm; reflexivity.
Qed.

Lemma print_attack_details_spec (attacks : list attack_type) (parent_node : tree_view_node) :
  print_attack_details attacks parent_node =
    TreeNode (node_type parent_node) (node_data parent_node)
      (node_children parent_node
       ++ (if decide (attacks = []) then []
           else [TreeNode "header"
                   {[ "name" := {[ "label" := "<b>" +:+ gettext "Attacks" +:+ "</b>";
                                   "tooltip" := ""; "use_markup" := "true" ]} ]}
                   (attack_subsection <$> attacks)])).
Proof.
  unfold print_attack_details. case_bool_decide; case_decide; try done.
  - rewrite app_nil_r. by destruct parent_node.
  - by rewrite add_children_spec.
Qed.

(** X18: [print_attack_details] adds nothing for a unit without attacks
    and otherwise one "Attacks" header to the parent, with one subsection
    per attack, in order. The subsection of an attack is labelled
    "damage, separator, number of attacks, name" and its two icons carry
    the translated range and type as tooltips; below it come an item
    naming the range, then the type, when one of the two icons is
    missing, and one item per weapon special, in order, labelled with the
    name of the special and with the name and the description of the
    special as its tooltip. *)
Theorem print_attack_details_nodes (attacks : list attack_type)
    (parent_node : tree_view_node) :
  (attacks = [] → print_attack_details attacks parent_node = parent_node)
  ∧ node_type (print_attack_details attacks parent_node) = node_type parent_node
  ∧ node_data (print_attack_details attacks parent_node) = node_data parent_node
  ∧ (attacks ≠ [] →
     ∃ header,
       node_children (print_attack_details attacks parent_node)
         = node_children parent_node ++ [header]
       ∧ node_type header = "header"
       ∧ get_item_label "name" (node_data header) = "<b>" +:+ gettext "Attacks" +:+ "</b>"
       ∧ node_children header = attack_subsection <$> attacks)
  ∧ ∀ a,
      let range_png :=
        "icons/profiles/" +:+ attack_range a +:+ "_attack.png~SCALE_INTO(16,16)" in
      let type_png := "icons/profiles/" +:+ attack_type_id a +:+ ".png~SCALE_INTO(16,16)" in
      node_type (attack_subsection a) = "item_image"
      ∧ get_item_label "name" (node_data (attack_subsection a))
        = span_color unit_type_color +:+ pretty (attack_damage a) +:+ weapon_numbers_sep
            +:+ pretty (attack_num_attacks a) +:+ " " +:+ attack_name a +:+ "</span>"
      ∧ get_item_label "image_range" (node_data (attack_subsection a)) = range_png
      ∧ get_item_label "image_type" (node_data (attack_subsection a)) = type_png
      ∧ length (node_children (attack_subsection a))
        = ((if image_file_exists range_png && image_file_exists type_png
            then 0 else 1) + length (attack_special_tooltips a))%nat
      ∧ Forall (λ item, node_type item = "item" ∧ node_children item = [])
          (node_children (attack_subsection a))
      ∧ node_data (attack_subsection a) !! "image_range" ≫= (.!! "tooltip")
        = Some (string_table ("range_" +:+ attack_range a))
      ∧ node_data (attack_subsection a) !! "image_type" ≫= (.!! "tooltip")
        = Some (string_table ("type_" +:+ attack_type_id a))
      ∧ let item (label tooltip : string) :=
          TreeNode "item"
            {[ "name" := {[ "label" := label; "tooltip" := tooltip;
                            "use_markup" := "true" ]} ]} [] in
        node_children (attack_subsection a) =
          (if image_file_exists range_png && image_file_exists type_png then []
           else [item (span_color weapon_details_color
                         +:+ string_table ("range_" +:+ attack_range a)
                         +:+ weapon_details_sep
                         +:+ string_table ("type_" +:+ attack_type_id a) +:+ "</span>")
                   ""])
          ++ ((λ special,
                 item (span_color weapon_details_color +:+ special.1 +:+ "</span>")
                   ("<span size='x-large'>" +:+ special.1 +:+ "</span>" +:+ NL
                      +:+ special.2))
              <$> attack_special_tooltips a).
Proof.
  rewrite print_attack_details_spec. cbn [node_type node_data node_children].
  split; [|split; [done|split; [done|split]]].
  - intros ->. rewrite decide_True by done. rewrite app_nil_r. by destruct parent_node.
  - intros Hne. rewrite decide_False by done. eexists. split; [done|]. by repeat split.
  - intros a. cbn zeta.
    destruct (attack_subsection_data a) as [Htype Hdata].
    rewrite Htype, Hdata, attack_subsection_children.
    split; [done|]. split; [done|]. split; [done|]. split; [done|].
    split; [|split; [|split; [done|split; [done|done]]]].
    + rewrite length_app, length_fmap. by destruct (_ && _).
    + apply Forall_app. split.
      * destruct (_ && _); by repeat constructor.
      * apply Forall_fmap, Forall_forall. by intros pair _.
Qed.

Lemma type_trait_loop_spec (female : bool) (possible_traits : list config) :
  ∀ header_node : option tree_view_node,
  let names :=
    omap (λ tr,
            let name := attr tr (if female then "female_name" else "male_name") in
            if decide (attr tr "availability" = "musthave" ∧ name ≠ "")
            then Some name else None) possible_traits in
  foldl (type_trait_step female) header_node possible_traits =
    match header_node with
    | Some header =>
        Some (TreeNode (node_type header) (node_data header)
                (node_children header ++ ((λ name, name_tree_node "item" name "") <$> names)))
    | None =>
        if decide (names = []) then None
        else Some (TreeNode "header"
                     {[ "name" := {[ "label" := "<b>" +:+ gettext "Traits" +:+ "</b>";
                                     "tooltip" := ""; "use_markup" := "true" ]} ]}
                     ((λ name, name_tree_node "item" name "") <$> names))
    end.
Proof.
  induction possible_traits as [|tr possible_traits IH]; intros header_node; cbn zeta.
  - cbn. destruct header_node as [[]|]; [|done]. by rewrite app_nil_r.
  - cbn [foldl omap list_omap]. rewrite IH. cbn zeta. unfold type_trait_step.
    destruct (decide (attr tr "availability" = "musthave"
                      ∧ attr tr (if female then "female_name" else "male_name") ≠ ""))
      as [[Hmust Hname]|Hskip].
    + rewrite bool_decide_true, bool_decide_false by done. cbn [negb orb].
      destruct header_node as [header|];
        cbn [add_name_tree_node add_child node_type node_data node_children
             name_tree_node set_node_tooltip app fmap list_fmap];
        rewrite <- ?app_assoc; done.
    + assert (negb (bool_decide (attr tr "availability" = "musthave"))
              || bool_decide (attr tr (if female then "female_name" else "male_name") = "")
              = true) as ->; [|done].
      destruct (decide (attr tr "availability" = "musthave")) as [Hm|Hm].
      * rewrite bool_decide_true by done. cbn [negb orb]. apply bool_decide_eq_true.
        destruct (decide (attr tr (if female then "female_name" else "male_name") = ""));
          [done|]. by destruct Hskip.
      * by rewrite bool_decide_false.
Qed.

Lemma ability_loop_spec (abilities_metadata : list ability_metadata) :
  ∀ header_node : tree_view_node,
  foldl (λ header_node ab,
           if negb (bool_decide (ability_name ab = "")) then
             add_name_tree_node header_node "item" (ability_name ab)
               ("" <<< "<span size='x-large'>" <<< ability_name ab <<< "</span>"
                   <<< NL <<< ability_description ab)
           else header_node)
    header_node abilities_metadata
  = TreeNode (node_type header_node) (node_data header_node)
      (node_children header_node
       ++ ((λ ab, name_tree_node "item" (ability_name ab)
                    ("<span size='x-large'>" +:+ ability_name ab +:+ "</span>"
                       +:+ NL +:+ ability_description ab))
           <$> filter (λ ab, ability_name ab ≠ "") abilities_metadata)).
Proof.
  induction abilities_metadata as [|ab abilities IH]; intros header_node; cbn [foldl].
  - cbn. rewrite app_nil_r. by destruct header_node.
  - rewrite IH. case_bool_decide as Hname; cbn [negb].
    + by rewrite filter_cons_False by (by intros ?).
    + rewrite filter_cons_True by done.
      cbn [add_name_tree_node add_child node_type node_data node_children fmap list_fmap].
      rewrite <- app_assoc. by stream_norm.
Qed.

Lemma type_abilities_spec (abilities_metadata : list ability_metadata) :
  type_abilities abilities_metadata =
    if decide (abilities_metadata = []) then None
    else Some (TreeNode "header"
                 {[ "name" := {[ "label" := "<b>" +:+ gettext "Abilities" +:+ "</b>";
                                 "tooltip" := ""; "use_markup" := "true" ]} ]}
                 ((λ ab, name_tree_node "item" (ability_name ab)
                           ("<span size='x-large'>" +:+ ability_name ab +:+ "</span>"
                              +:+ NL +:+ ability_description ab))
                  <$> filter (λ ab, ability_name ab ≠ "") abilities_metadata)).
Proof.
  unfold type_abilities. case_bool_decide; case_decide; try done. cbn [negb].
  by rewrite ability_loop_spec.
Qed.

(** X19: of the details [set_displayed_type] adds to the tree after the
    statistics, the "Traits" header is there exactly when the type has a
    trait that every unit must have and that is named for the gender
    shown, with these names as its items; the "Abilities" header is there
    whenever the type has ability metadata, with an item for each named
    ability only, so it can be without items; the "Attacks" header comes
    last. The three come in this order after what the root already
    holds. *)
Theorem type_details_children (female : bool) (possible_traits : list config)
    (abilities_metadata : list ability_metadata) (attacks : list attack_type)
    (root_node : tree_view_node) :
  let header (title : string) (items : list tree_view_node) :=
    TreeNode "header"
      {[ "name" := {[ "label" := "<b>" +:+ gettext title +:+ "</b>";
                      "tooltip" := ""; "use_markup" := "true" ]} ]} items in
  let trait_names :=
    omap (λ tr,
            let name := attr tr (if female then "female_name" else "male_name") in
            if decide (attr tr "availability" = "musthave" ∧ name ≠ "")
            then Some name else None) possible_traits in
  let named_abilities := filter (λ ab, ability_name ab ≠ "") abilities_metadata in
  type_details female possible_traits abilities_metadata attacks root_node =
    TreeNode (node_type root_node) (node_data root_node)
      (node_children root_node
       ++ (if decide (trait_names = []) then []
           else [header "Traits" ((λ name, name_tree_node "item" name "") <$> trait_names)])
       ++ (if decide (abilities_metadata = []) then []
           else [header "Abilities"
                   ((λ ab, name_tree_node "item" (ability_name ab)
                             ("<span size='x-large'>" +:+ ability_name ab +:+ "</span>"
                                +:+ NL +:+ ability_description ab))
                    <$> named_abilities)])
       ++ (if decide (attacks = []) then []
           else [header "Attacks" (attack_subsection <$> attacks)])).
Proof.
  intros header trait_names named_abilities. unfold type_details.
  rewrite print_attack_details_spec, type_abilities_spec.
  rewrite (type_trait_loop_spec female possible_traits None). cbn zeta.
  fold trait_names named_abilities.
  destruct (decide (trait_names = [])), (decide (abilities_metadata = []));
    cbn [add_optional_child add_child node_type node_data node_children];
    rewrite <- ?app_assoc; cbn [app]; rewrite ?app_nil_r; by destruct root_node.
Qed.

(** X20: of the details [set_displayed_unit] adds to the tree after the
    statistics, the "Traits" header is there exactly when the unit has
    trait names, with one item per trait carrying its description as
    tooltip; the call ends in a failed assertion (assertions being
    compiled in) when there are trait names and not as many
    descriptions. The "Abilities" header is there
    exactly when the unit has abilities, with one item per ability
    tooltip, and the "Attacks" header comes last. *)
Theorem unit_details_children (trait_names trait_descriptions : list string)
    (ability_list_empty : bool) (ability_tooltips : list (string * string))
    (attacks : list attack_type) (root_node : tree_view_node) :
  let header (title : string) (items : list tree_view_node) :=
    TreeNode "header"
      {[ "name" := {[ "label" := "<b>" +:+ gettext title +:+ "</b>";
                      "tooltip" := ""; "use_markup" := "true" ]} ]} items in
  unit_details trait_names trait_descriptions ability_list_empty ability_tooltips attacks
    root_node =
    if decide (trait_names ≠ [] ∧ length trait_names ≠ length trait_descriptions)
    then Thrown "u.trait_names().size() == u.trait_descriptions().size()"
    else
      Done (TreeNode (node_type root_node) (node_data root_node)
              (node_children root_node
               ++ (if decide (trait_names = []) then []
                   else [header "Traits"
                           ((λ item, name_tree_node "item" item.1 item.2)
                            <$> zip trait_names trait_descriptions)])
               ++ (if ability_list_empty then []
                   else [header "Abilities"
                           ((λ ab, name_tree_node "item" ab.1 ab.2) <$> ability_tooltips)])
               ++ (if decide (attacks = []) then []
                   else [header "Attacks" (attack_subsection <$> attacks)]))).
Proof.
  intros header. unfold unit_details, unit_traits, unit_abilities.
  destruct (decide (trait_names = [])) as [Hnames|Hnames].
  - rewrite bool_decide_true, decide_False by (done || by intros [? _]).
    cbn [negb outcome_bind add_optional_child]. rewrite print_attack_details_spec.
    destruct ability_list_empty; cbn [negb add_optional_child];
      [|unfold add_name_tree_node; rewrite add_children_spec];
      cbn [add_child node_type node_data node_children name_tree_node set_node_tooltip];
      rewrite <- ?app_assoc; cbn [app]; by destruct root_node.
  - rewrite bool_decide_false by done. cbn [negb].
    destruct (decide (length trait_names = length trait_descriptions)) as [Hlen|Hlen].
    + rewrite bool_decide_true, decide_False by (done || by intros [_ ?]).
      cbn [negb outcome_bind add_optional_child]. rewrite print_attack_details_spec.
      unfold add_name_tree_node. rewrite add_children_spec.
      destruct ability_list_empty; cbn [negb add_optional_child];
        rewrite ?add_children_spec;
        cbn [add_child node_type node_data node_children name_tree_node set_node_tooltip];
        rewrite <- ?app_assoc; cbn [app]; by destruct root_node.
    + by rewrite bool_decide_false, decide_True by done.
Qed.

End details_tree_properties.

(** ** The statements on the sample environment *)

Section sample_environment.
Local Existing Instance sample.texts.
Local Existing Instance sample.unit_helpers.
Local Existing Instance sample.terrains.
Local Existing Instance sample.hotkeys.
Local Existing Instance sample.store.

(** The three renderings of a cost for a unit that moves 5, and the
    glyphs that follow: five for cost 1, none for cost 7, and none when
    the quotient is negative. *)
Example mp_cost_plain : mp_cost 5 1 "" = "1".
Proof. reflexivity. Qed.

Example mp_cost_parenthesised : mp_cost 5 7 "" = "(7)".
Proof. reflexivity. Qed.

Example mp_cost_dash : mp_cost 5 20 "" = font.unicode_figure_dash.
Proof. reflexivity. Qed.

Example mp_hexes_five :
  mp_hexes 5 1 "" = " " +:+ hexagon +:+ hexagon +:+ hexagon +:+ hexagon +:+ hexagon.
Proof. reflexivity. Qed.

Example mp_hexes_none : mp_hexes 5 7 "" = " " ∧ mp_hexes 5 (-2) "" = " " ∧ mp_hexes 5 0 "" = "".
Proof. by repeat split. Qed.

(** The whole tooltip lists the sample terrains other than the fogged
    one, in the order of their names. *)
Example get_mp_tooltip_sample :
  get_mp_tooltip 5 sample.movement_cost =
    "<big>Movement Costs:</big>"
    +:+ NL +:+ font.unicode_bullet +:+ " 2: <span color='#00ff00'>1 "
    +:+ hexagon +:+ hexagon +:+ hexagon +:+ hexagon +:+ hexagon +:+ "</span>"
    +:+ NL +:+ font.unicode_bullet +:+ " 3: <span color='#00ff00'>(7) </span>"
    +:+ NL +:+ font.unicode_bullet +:+ " 4: <span color='#00ff00'>"
    +:+ font.unicode_figure_dash +:+ " </span>"
    +:+ NL +:+ font.unicode_bullet +:+ " 5: <span color='#00ff00'>0</span>".
Proof. reflexivity. Qed.

Example get_hp_tooltip_sample :
  get_hp_tooltip sample.resistances sample.resistance =
    "<big>Resistances: </big>(Att / Def)"
    +:+ NL +:+ font.unicode_bullet +:+ " blade: <span color='#ffffff'>" +:+ TAB
    +:+ "80%</span>"
    +:+ NL +:+ font.unicode_bullet +:+ " arcane: <span color='#ffffff'>" +:+ TAB
    +:+ "110%</span>/<span color='#ffffff'>100%</span>".
Proof. reflexivity. Qed.

(** Two of the three sample commands are not hidden; with the filter
    text "Turn" and no category toggled only the first row is shown, and
    toggling the category of the second one hides both. *)
Example setup_hotkey_list_sample :
  let d := setup_hotkey_list sample.dialog in
  hotkey.id <$> visible_hotkeys_ d = ["endturn"; "quit"]
  ∧ visible_categories_ d = [0; 3]
  ∧ toggle_states (w_hotkey_category_menu d) = [false; false]
  ∧ get_item_label "lbl_is_editor" <$> rows (w_list_hotkeys d) =
      [""; "<span color='#0f0'>editor_hotkeys^E</span>"].
Proof. by repeat split. Qed.

Example hotkey_filter_callback_sample :
  let d := setup_hotkey_list sample.dialog in
  row_shown (w_list_hotkeys (hotkey_filter_callback d)) = [true; false]
  ∧ row_shown
      (w_list_hotkeys
         (hotkey_filter_callback
            (set_hotkey_widgets (visible_hotkeys_ d) (visible_categories_ d)
               {| multimenu_values := multimenu_values (w_hotkey_category_menu d);
                  toggle_states := [true; false] |}
               (w_list_hotkeys d) d))) = [false; false].
Proof. by split. Qed.

Example combo_selected_sample :
  combo_selected ["easy"; "normal"; "hard"] "hard" = 2
  ∧ combo_selected ["easy"; "normal"; "hard"] "nightmare" = 0
  ∧ menu_selected (initialize_combo ∅ sample.difficulty) = 1.
Proof. by repeat split. Qed.

Example accl_load_sample :
  accl_load (sample.friends, 3%float) = 8 ∧ accl_load (sample.friends, 5%float) = 12.
Proof. by split. Qed.

Example on_friends_list_select_sample :
  on_friends_list_select (sample.friends, 2%float)
    {| rows := []; selected_row := 1; row_shown := [] |} {| text := "" |}
  = Some {| text := "bob rude" |}.
Proof. reflexivity. Qed.

Example add_friend_list_entry_sample :
  let '(p, textbox, d) :=
    add_friend_list_entry false {| text := "carol spams" |} (sample.friends, 2%float)
      sample.dialog in
  textbox = {| text := "" |}
  ∧ p.1 !! 2%nat =
      Some ("carol", {| get_nick := "carol"; get_status := "ignore"; get_notes := "spams" |})
  ∧ (get_item_label "friend_name" <$> rows (w_friends_list d))
      = ["carol <small>(spams)</small>"]
  ∧ shown_messages d = [].
Proof. by repeat split. Qed.

Lemma get_hp_tooltip_resistances_witness :
  (∀ resist b, resist ∈ sample.resistances →
     cxx.in_int (100 - sample.resistance resist.1 b))
  ∧ get_hp_tooltip sample.resistances sample.resistance =
      "<big>" +:+ gettext "Resistances: " +:+ "</big>"
      +:+ (if decide (Exists (λ resist, 100 - sample.resistance resist.1 true
                                        ≠ 100 - sample.resistance resist.1 false)
                        sample.resistances)
           then gettext "(Att / Def)" else "")
      +:+ String.concat ""
            ((λ resist, NL +:+ font.unicode_bullet +:+ " "
                +:+ dgettext "wesnoth" resist.1 +:+ ": "
                +:+ displayed_resistance (100 - sample.resistance resist.1 true)
                      (100 - sample.resistance resist.1 false))
             <$> sample.resistances).
Proof.
  assert (∀ resist b, resist ∈ sample.resistances →
            cxx.in_int (100 - sample.resistance resist.1 b)) as Hres.
  { intros resist b Hin. unfold sample.resistances in Hin.
    rewrite !elem_of_cons, elem_of_nil in Hin.
    destruct Hin as [->|[->|[]]]; destruct b; vm_compute; split; discriminate. }
  split; [exact Hres|]. exact (get_hp_tooltip_resistances _ _ Hres).
Defined.


Lemma get_mp_tooltip_costs_witness :
  let T := 5 in
  let get := sample.movement_cost in
  let tdata := λ t : Z,
    {| terrain_name := pretty t; is_indivisible := true; is_nonnull := true |} in
  let listed := foldl (mp_collect_step tdata get) [] encountered_terrains in
  load_terrain_types_data = Some tdata
  ∧ (∀ terrain, cxx.in_int (get terrain))
  ∧ cxx.int_min < T ≤ cxx.int_max - 5
  ∧ get_mp_tooltip T get =
      "<big>" +:+ gettext "Movement Costs:" +:+ "</big>"
      +:+ String.concat ""
            ((λ tm, NL +:+ font.unicode_bullet +:+ " " +:+ tm_name tm +:+ ": "
                +:+ "<span color='"
                +:+ to_hex_string
                      (red_to_green
                         (PrimFloat.sub 100
                            (PrimFloat.mul 25 (cxx.double_of_int (tm_moves tm)))) true)
                +:+ "'>"
                +:+ mp_cost T (tm_moves tm) "" +:+ mp_hexes T (tm_moves tm) ""
                +:+ "</span>") <$> listed)
  ∧ ∀ tm, tm ∈ listed →
      let m := tm_moves tm in
      (m > T + 5 → mp_cost T m "" = font.unicode_figure_dash)
      ∧ (T < m ≤ T + 5 → mp_cost T m "" = "(" +:+ pretty m +:+ ")")
      ∧ (m ≤ T → mp_cost T m "" = pretty m)
      ∧ (m ≠ 0 →
         mp_hexes T m "" = " " +:+ String.concat "" (replicate (Z.to_nat (T / m)) hexagon)).
Proof.
  intros T get tdata listed.
  assert (∀ terrain, cxx.in_int (get terrain)) as Hget.
  { intros terrain. unfold get, sample.movement_cost.
    repeat case_match; vm_compute; split; discriminate. }
  assert (cxx.int_min < T ≤ cxx.int_max - 5) as HT by (vm_compute; split; [done|discriminate]).
  split; [reflexivity|]. split; [exact Hget|]. split; [exact HT|].
  exact (get_mp_tooltip_costs T get tdata eq_refl Hget HT).
Defined.

Lemma hotkey_filter_callback_rows_witness :
  let d := setup_hotkey_list sample.dialog in
  let text := text (w_filter d) in
  let toggles := toggle_states (w_hotkey_category_menu d) in
  let toggled_on (category : Z) :=
    (∀ i, toggles !! i ≠ Some true)
    ∨ ∃ i, visible_categories_ d !! i = Some category ∧ toggles !! i = Some true in
  hotkeys_consistent d
  ∧ visible_hotkeys_ d !! 0%nat = Some sample.end_turn
  ∧ ∃ shown,
      row_shown (w_list_hotkeys (hotkey_filter_callback d)) !! 0%nat = Some shown
      ∧ (shown = true
         ↔ (text = ""
            ∨ ∀ word, word ∈ split text " "%char →
                ci_search (hotkey.description sample.end_turn) word = true)
           ∧ toggled_on (hotkey.category sample.end_turn)).
Proof.
  intros d text toggles toggled_on.
  assert (hotkeys_consistent d) as Hd by apply setup_hotkey_list_consistent.
  assert (visible_hotkeys_ d !! 0%nat = Some sample.end_turn) as Hh by reflexivity.
  split; [exact Hd|]. split; [exact Hh|].
  exact (hotkey_filter_callback_rows d 0 sample.end_turn Hd Hh).
Defined.

Lemma combo_initial_selection_witness :
  let stored : gmap string string := {[ "difficulty" := "hard" ]} in
  let option := sample.difficulty in
  let option_ids :=
    (λ choice, attr choice "id") <$> child_range (avp.cfg option) "option" in
  let value :=
    match stored !! avp.field option with
    | Some value => value
    | None => attr (avp.cfg option) "default"
    end in
  let selected := menu_selected (initialize_combo stored option) in
  Z.of_nat (length option_ids) ≤ cxx.int_max
  ∧ (∀ i, option_ids !! i = Some value →
          (∀ j, (j < i)%nat → option_ids !! j ≠ Some value) →
          selected = Z.of_nat i)
  ∧ (value ∉ option_ids → selected = 0).
Proof.
  intros stored option option_ids value selected.
  assert (Z.of_nat (length option_ids) ≤ cxx.int_max) as Hlen by (vm_compute; discriminate).
  split; [exact Hlen|]. exact (combo_initial_selection stored option Hlen).
Defined.

Lemma accl_save_load_round_trip_witness :
  let p : prefs := (sample.friends, 2%float) in
  (∀ speed q, turbo_speed (set_turbo_speed speed q) = speed)
  ∧ 0 ≤ 9 < Z.of_nat (length accl_speeds_)
  ∧ (∃ p', accl_save 9 p = Some p' ∧ accl_load p' = 9)
  ∧ ∀ j k x y, accl_speeds_ !! j = Some x → accl_speeds_ !! k = Some y → j ≠ k →
      PrimFloat.eqb x y = false.
Proof.
  intros p.
  assert (∀ speed q, turbo_speed (set_turbo_speed speed q) = speed) as Hstore
    by reflexivity.
  assert (0 ≤ 9 < Z.of_nat (length accl_speeds_)) as Hi by (vm_compute; split; [discriminate|done]).
  split; [exact Hstore|]. split; [exact Hi|].
  exact (accl_save_load_round_trip 9 p Hstore Hi).
Defined.

Lemma on_friends_list_select_in_bounds_witness :
  let p : prefs := (sample.friends, 2%float) in
  let list := {| rows := []; selected_row := 1; row_shown := [] |} in
  let textbox := {| text := "" |} in
  let sel := selected_row list in
  let num_friends := Z.of_nat (length (get_acquaintances p)) in
  Z.of_nat (length (get_acquaintances p)) ≤ cxx.int_max
  ∧ (sel < 0 ∨ num_friends ≤ sel →
       on_friends_list_select p list textbox = Some textbox)
  ∧ (0 ≤ sel < num_friends →
       ∃ who, get_acquaintances p !! Z.to_nat sel = Some who
              ∧ on_friends_list_select p list textbox =
                  Some {| text := get_nick who.2 +:+ " " +:+ get_notes who.2 |})
  ∧ is_Some (on_friends_list_select p list textbox).
Proof.
  intros p list textbox sel num_friends.
  assert (Z.of_nat (length (get_acquaintances p)) ≤ cxx.int_max) as Hlen
    by (vm_compute; discriminate).
  split; [exact Hlen|]. exact (on_friends_list_select_in_bounds p list textbox Hlen).
Defined.

Lemma add_friend_list_entry_atomic_witness :
  let is_friend := true in
  let textbox := {| text := " bob" |} in
  let p : prefs := (sample.friends, 2%float) in
  let d := sample.dialog in
  let input := text textbox in
  let username :=
    match String.index 0 " " input with
    | Some pos => String.substring 0 pos input
    | None => input
    end in
  let reason :=
    match String.index 0 " " input with
    | Some pos => String.substring (pos + 1) (String.length input - (pos + 1)) input
    | None => ""
    end in
  let mode := if is_friend then "friend" else "ignore" in
  (∀ nick mode notes q,
     (add_acquaintance nick mode notes q).1.1 = None →
     (add_acquaintance nick mode notes q).2 = q)
  ∧ let '(p', textbox', d') := add_friend_list_entry is_friend textbox p d in
    (input = "" ∨ (add_acquaintance username mode reason p).1.1 = None →
       p' = p ∧ textbox' = textbox ∧ w_friends_list d' = w_friends_list d
       ∧ ∃ title message, shown_messages d' = shown_messages d ++ [(title, message)])
    ∧ (input ≠ "" ∧ is_Some (add_acquaintance username mode reason p).1.1 →
       text textbox' = "" ∧ shown_messages d' = shown_messages d).
Proof.
  intros is_friend textbox p d input username reason mode.
  assert (∀ nick mode notes q,
            (add_acquaintance nick mode notes q).1.1 = None →
            (add_acquaintance nick mode notes q).2 = q) as Hrefuse.
  { intros nick m notes q. cbn. by case_bool_decide. }
  split; [exact Hrefuse|].
  exact (add_friend_list_entry_atomic is_friend textbox p d Hrefuse).
Defined.


Local Existing Instance sample.removal.
Local Existing Instance sample.video_modes.
Local Existing Instance sample.attack_helpers.

(** Indices into a pager of three layers. *)
Example index_in_pager_range_sample :
  let pager := {| layer_count := 3; selected_layer := 0 |} in
  index_in_pager_range 1 pager = Done 1
  ∧ index_in_pager_range (-1) pager = Done 0
  ∧ index_in_pager_range 7 pager = Done 2
  ∧ index_in_pager_range 0 {| layer_count := 0; selected_layer := 0 |} = Undefined.
Proof. by repeat split. Qed.

(** Opening the dialog on the third tab of the second page. *)
Example pre_show_sample :
  ∃ w, pre_show (1, 2) sample.pages = Done w
       ∧ selected_row (w_selector w) = 1 ∧ w_pager_selected w = 1
       ∧ (tab_pager <$> w_pager_layers w) !! 1%nat
         = Some (Some {| layer_count := 3; selected_layer := 2 |}).
Proof. eexists. by repeat split. Qed.

(** 4:3 and 16:9 are shown; 64:27 is not. *)
Example set_resolution_list_sample :
  ∃ menu,
    set_resolution_list {| menu_values := []; menu_selected := 0; menu_use_markup := true |}
      = Done (get_available_resolutions, menu)
    ∧ (λ option, attr option "details") <$> menu_values menu
      = ["<span color='#777777'>(4:3)</span>"; "<span color='#777777'>(16:9)</span>"; ""]
    ∧ menu_selected menu = 1.
Proof. eexists. by repeat split. Qed.

(** Removing with an empty textbox takes the nick of the selected row. *)
Example remove_friend_list_entry_sample :
  ∃ d,
    remove_friend_list_entry {| text := "" |} (sample.friends, 2%float)
      (initialize_friends_list (sample.friends, 2%float) sample.dialog)
    = Done (([("bob", {| get_nick := "bob"; get_status := "ignore"; get_notes := "rude" |})],
             2%float), {| text := "" |}, d)
    ∧ get_item_label "friend_name" <$> rows (w_friends_list d) = ["bob <small>(rude)</small>"]
    ∧ remove_friend_list_entry {| text := "" |} ([], 2%float) sample.dialog = Undefined.
Proof. eexists. by repeat split. Qed.

(** One attack whose range icon is missing, with one special. *)
Example print_attack_details_sample :
  let root := print_attack_details [sample.sword] (TreeNode "root" ∅ []) in
  (λ header, get_item_label "name" (node_data header)) <$> node_children root
    = ["<b>Attacks</b>"]
  ∧ (λ header, (λ a, get_item_label "name" (node_data a)) <$> node_children header)
      <$> node_children root
    = [["<span color='#00ff00'>7-3 sword</span>"]]
  ∧ (λ item, get_item_label "name" (node_data item))
      <$> node_children (attack_subsection sample.sword)
    = ["<span color='#00ff00'>range_melee, type_blade</span>";
       "<span color='#00ff00'>magical</span>"].
Proof. by repeat split. Qed.

Lemma index_in_pager_range_bounds_witness :
  let first := 7 in
  let pager := {| layer_count := 3; selected_layer := 0 |} in
  let n := Z.of_nat (layer_count pager) in
  1 ≤ Z.of_nat (layer_count pager) ≤ 2 ^ 31
  ∧ ∃ index,
      index_in_pager_range first pager = Done index
      ∧ 0 ≤ index < n
      ∧ (0 ≤ first < n → index = first)
      ∧ (first < 0 → index = 0)
      ∧ (n ≤ first → index = n - 1).
Proof.
  intros first pager n.
  assert (1 ≤ Z.of_nat (layer_count pager) ≤ 2 ^ 31) as Hn by (vm_compute; split; discriminate).
  split; [exact Hn|]. exact (index_in_pager_range_bounds first pager Hn).
Defined.

Lemma pre_show_selects_witness :
  let initial_index_ := (1, 2) in
  let w := sample.pages in
  widgets.get_item_count (w_selector w) = length (w_pager_layers w)
  ∧ 1 ≤ Z.of_nat (length (w_pager_layers w)) ≤ 2 ^ 31
  ∧ (∀ layer tp, layer ∈ w_pager_layers w → tab_pager layer = Some tp →
                 is_Some (tab_selector layer) →
                 1 ≤ Z.of_nat (layer_count tp) ≤ 2 ^ 31)
  ∧ ∃ w' main_index,
      pre_show initial_index_ w = Done w'
      ∧ main_index =
          Z.max 0 (Z.min initial_index_.1 (Z.of_nat (length (w_pager_layers w)) - 1))
      ∧ selected_row (w_selector w') = main_index
      ∧ w_pager_selected w' = main_index
      ∧ rows (w_selector w') = rows (w_selector w)
      ∧ length (w_pager_layers w') = length (w_pager_layers w)
      ∧ ∀ i layer, w_pager_layers w !! i = Some layer →
          ∃ layer', w_pager_layers w' !! i = Some layer'
            ∧ match tab_pager layer, tab_selector layer with
              | Some tp, Some ts =>
                  ∃ to_select,
                    tab_selector layer' = Some (widgets.select_row to_select ts)
                    ∧ tab_pager layer' = Some (select_layer to_select tp)
                    ∧ 0 ≤ to_select < Z.of_nat (layer_count tp)
                    ∧ (Z.of_nat i ≠ main_index → to_select = 0)
                    ∧ (Z.of_nat i = main_index →
                       to_select =
                         Z.max 0 (Z.min initial_index_.2 (Z.of_nat (layer_count tp) - 1)))
              | _, _ => layer' = layer
              end.
Proof.
  intros initial_index_ w.
  assert (widgets.get_item_count (w_selector w) = length (w_pager_layers w)) as Hcount
    by reflexivity.
  assert (1 ≤ Z.of_nat (length (w_pager_layers w)) ≤ 2 ^ 31) as Hn
    by (vm_compute; split; discriminate).
  assert (∀ layer tp, layer ∈ w_pager_layers w → tab_pager layer = Some tp →
                      is_Some (tab_selector layer) →
                      1 ≤ Z.of_nat (layer_count tp) ≤ 2 ^ 31) as Htabs.
  { intros layer tp Hin Htp Hsel. subst w. unfold sample.pages in Hin. cbn in Hin.
    rewrite !elem_of_cons, elem_of_nil in Hin.
    destruct Hin as [->|[->|[->|[]]]]; cbn in Htp, Hsel.
    - discriminate.
    - injection Htp as <-. vm_compute. split; discriminate.
    - by destruct Hsel. }
  split; [exact Hcount|]. split; [exact Hn|]. split; [exact Htabs|].
  exact (pre_show_selects initial_index_ w Hcount Hn Htabs).
Defined.

Lemma set_resolution_list_ratios_witness :
  let res_list := {| menu_values := []; menu_selected := 0; menu_use_markup := true |} in
  (∀ res, res ∈ get_available_resolutions →
          0 < video.x res ≤ cxx.int_max ∧ 0 < video.y res ≤ cxx.int_max)
  ∧ Z.of_nat (length get_available_resolutions) < 2 ^ 32
  ∧ ∃ menu,
      set_resolution_list res_list = Done (get_available_resolutions, menu)
      ∧ length (menu_values menu) = length get_available_resolutions
      ∧ (∀ i res, get_available_resolutions !! i = Some res →
           let g := Z.gcd (video.x res) (video.y res) in
           let x_ratio := video.x res / g in
           let y_ratio := video.y res / g in
           ∃ option,
             menu_values menu !! i = Some option
             ∧ attr option "label" =
                 pretty (video.x res) +:+ unicode_multiplication_sign +:+ pretty (video.y res)
             ∧ Z.gcd x_ratio y_ratio = 1
             ∧ x_ratio * video.y res = y_ratio * video.x res
             ∧ attributes option !! "details" =
                 (if decide (x_ratio ≤ 10 ∨ y_ratio ≤ 10)
                  then Some ("<span color='#777777'>(" +:+ pretty x_ratio +:+ ":"
                               +:+ pretty y_ratio +:+ ")</span>")
                  else None))
      ∧ (∀ i, get_available_resolutions !! i = Some current_resolution →
              (∀ j, (j < i)%nat → get_available_resolutions !! j ≠ Some current_resolution) →
              menu_selected menu = Z.of_nat i)
      ∧ (current_resolution ∉ get_available_resolutions →
         menu_selected menu = Z.of_nat (length get_available_resolutions)).
Proof.
  intros res_list.
  assert (∀ res, res ∈ get_available_resolutions →
                 0 < video.x res ≤ cxx.int_max ∧ 0 < video.y res ≤ cxx.int_max) as Hpos.
  { intros res Hin. cbn in Hin. rewrite !elem_of_cons, elem_of_nil in Hin.
    destruct Hin as [->|[->|[->|[]]]]; vm_compute; repeat split; discriminate. }
  assert (Z.of_nat (length get_available_resolutions) < 2 ^ 32) as Hlen by reflexivity.
  split; [exact Hpos|]. split; [exact Hlen|].
  exact (set_resolution_list_ratios res_list Hpos Hlen).
Defined.

Lemma update_friends_list_controls_invariant_witness :
  let d := initialize_friends_list (sample.friends, 2%float) sample.dialog in
  let d' := update_friends_list_controls d in
  let count := Z.of_nat (length (rows (w_friends_list d))) in
  Z.of_nat (length (rows (w_friends_list d))) ≤ cxx.int_max
  ∧ rows (w_friends_list d') = rows (w_friends_list d)
  ∧ (w_remove_active d' = true ↔ rows (w_friends_list d) ≠ [])
  ∧ (w_no_friends_notice d' = visible ↔ rows (w_friends_list d) = [])
  ∧ (rows (w_friends_list d) ≠ [] →
     selected_row (w_friends_list d') = Z.min (count - 1) (selected_row (w_friends_list d))
     ∧ selected_row (w_friends_list d') < count)
  ∧ (rows (w_friends_list d) = [] → w_friends_list d' = w_friends_list d).
Proof.
  intros d d' count.
  assert (Z.of_nat (length (rows (w_friends_list d))) ≤ cxx.int_max) as Hlen
    by (vm_compute; discriminate).
  split; [exact Hlen|]. exact (update_friends_list_controls_invariant d Hlen).
Defined.

Lemma add_friend_list_entry_success_witness :
  let is_friend := false in
  let textbox := {| text := "carol spams" |} in
  let p : prefs := (sample.friends, 2%float) in
  let d := sample.dialog in
  let entry := {| get_nick := "carol"; get_status := "ignore"; get_notes := "spams" |} in
  let added_new := true in
  let p' : prefs := (sample.friends ++ [("carol", entry)], 2%float) in
  let input := text textbox in
  let username :=
    match String.index 0 " " input with
    | Some pos => String.substring 0 pos input
    | None => input
    end in
  let reason :=
    match String.index 0 " " input with
    | Some pos => String.substring (pos + 1) (String.length input - (pos + 1)) input
    | None => ""
    end in
  input ≠ ""
  ∧ add_acquaintance username (if is_friend then "friend" else "ignore") reason p
    = (Some entry, added_new, p')
  ∧ ∃ d',
      add_friend_list_entry is_friend textbox p d = (p', {| text := "" |}, d')
      ∧ shown_messages d' = shown_messages d
      ∧ (added_new = true →
         rows (w_friends_list d') =
           rows (w_friends_list d) ++ [get_friends_list_row_data entry]
         ∧ w_remove_active d' = true ∧ w_no_friends_notice d' = invisible)
      ∧ (added_new = false →
         rows (w_friends_list d') =
           rows (replace_friend_row (get_nick entry) (get_friends_list_row_data entry)
                   (rows (w_friends_list d)) 0 (w_friends_list d))
         ∧ length (rows (w_friends_list d')) = length (rows (w_friends_list d))).
Proof.
  intros is_friend textbox p d entry added_new p' input username reason.
  assert (input ≠ "") as Hinput by discriminate.
  assert (add_acquaintance username (if is_friend then "friend" else "ignore") reason p
          = (Some entry, added_new, p')) as Hadd by reflexivity.
  split; [exact Hinput|]. split; [exact Hadd|].
  exact (add_friend_list_entry_success is_friend textbox p p' d entry added_new Hinput Hadd).
Defined.

Lemma initialize_friends_list_select_witness :
  let p : prefs := (sample.friends, 2%float) in
  let d := sample.dialog in
  let d' := initialize_friends_list p d in
  Z.of_nat (length (get_acquaintances p)) ≤ cxx.int_max
  ∧ rows (w_friends_list d') =
      (λ entry, get_friends_list_row_data entry.2) <$> get_acquaintances p
  ∧ (w_remove_active d' = true ↔ get_acquaintances p ≠ [])
  ∧ (w_no_friends_notice d' = visible ↔ get_acquaintances p = [])
  ∧ ∀ i who textbox, get_acquaintances p !! i = Some who →
      rows (w_friends_list d') !! i = Some (get_friends_list_row_data who.2)
      ∧ on_friends_list_select p (widgets.select_row (Z.of_nat i) (w_friends_list d')) textbox
        = Some {| text := get_nick who.2 +:+ " " +:+ get_notes who.2 |}.
Proof.
  intros p d d'.
  assert (Z.of_nat (length (get_acquaintances p)) ≤ cxx.int_max) as Hlen
    by (vm_compute; discriminate).
  split; [exact Hlen|]. exact (initialize_friends_list_select p d Hlen).
Defined.

Lemma select_add_round_trip_witness :
  let is_friend := false in
  let nick := "bob" in
  let notes := "rude" in
  let p : prefs := (sample.friends, 2%float) in
  let d := sample.dialog in
  let mode := if is_friend then "friend" else "ignore" in
  let result := add_friend_list_entry is_friend {| text := nick +:+ " " +:+ notes |} p d in
  String.index 0 " " nick = None
  ∧ result.1.1 = (add_acquaintance nick mode notes p).2
  ∧ (is_Some (add_acquaintance nick mode notes p).1.1 → result.1.2 = {| text := "" |})
  ∧ ((add_acquaintance nick mode notes p).1.1 = None →
     result.1.2 = {| text := nick +:+ " " +:+ notes |}).
Proof.
  intros is_friend nick notes p d mode result.
  assert (String.index 0 " " nick = None) as Hnick by reflexivity.
  split; [exact Hnick|]. exact (select_add_round_trip is_friend nick notes p d Hnick).
Defined.

Lemma remove_friend_list_entry_row_witness :
  let textbox := {| text := "alice" |} in
  let p : prefs := (sample.friends, 2%float) in
  let d :=
    set_friends_list
      (widgets.select_row 1
         (w_friends_list (initialize_friends_list (sample.friends, 2%float) sample.dialog)))
      sample.dialog in
  let who := ("bob", {| get_nick := "bob"; get_status := "ignore"; get_notes := "rude" |}) in
  let row := Z.max 0 (selected_row (w_friends_list d)) in
  let to_remove := if decide (text textbox = "") then get_nick who.2 else text textbox in
  get_acquaintances p !! Z.to_nat row = Some who
  ∧ to_remove ≠ ""
  ∧ ∃ d',
      remove_friend_list_entry textbox p d =
        Done ((remove_acquaintance to_remove p).2,
              (if (remove_acquaintance to_remove p).1 then {| text := "" |} else textbox),
              d')
      ∧ ((remove_acquaintance to_remove p).1 = false →
         w_friends_list d' = w_friends_list d
         ∧ ∃ title message, shown_messages d' = shown_messages d ++ [(title, message)])
      ∧ ((remove_acquaintance to_remove p).1 = true →
         rows (w_friends_list d') = delete (Z.to_nat row) (rows (w_friends_list d))
         ∧ shown_messages d' = shown_messages d).
Proof.
  intros textbox p d who row to_remove.
  assert (get_acquaintances p !! Z.to_nat row = Some who) as Hwho by reflexivity.
  assert (to_remove ≠ "") as Hname by discriminate.
  split; [exact Hwho|]. split; [exact Hname|].
  exact (remove_friend_list_entry_row textbox p d who Hwho Hname).
Defined.


Lemma initialize_combo_menu_witness :
  let stored : gmap string string := {[ "difficulty" := "hard" ]} in
  let option := sample.difficulty in
  let choices := child_range (avp.cfg option) "option" in
  let menu := initialize_combo stored option in
  Z.of_nat (length choices) ≤ cxx.int_max
  ∧ length (menu_values menu) = length choices
  ∧ (∀ i choice, choices !! i = Some choice →
       ∃ item,
         menu_values menu !! i = Some item
         ∧ attr item "label" = attr choice "name"
         ∧ attributes item !! "details" =
             (if has_attribute choice "description"
              then Some ("<span color='#777'>" +:+ attr choice "description" +:+ "</span>")
              else None))
  ∧ 0 ≤ menu_selected menu
  ∧ (choices ≠ [] → menu_selected menu < Z.of_nat (length choices))
  ∧ menu_use_markup menu = true.
Proof.
  intros stored option choices menu.
  assert (Z.of_nat (length choices) ≤ cxx.int_max) as Hlen by (vm_compute; discriminate).
  split; [exact Hlen|]. exact (initialize_combo_menu stored option Hlen).
Defined.


End sample_environment.
